(** * AIMIP CMORization scripts: a shallow embedding and its properties

    The repository holds four small xarray programs that turn gridded
    climate-model output into CMOR-style NetCDF files:

    - [cmor_utils.py]             (direct replacement of the main variable's data),
    - [cmorize_from_template.py]  (regrid-and-build, with the bounds generator),
    - [extract_plevels_multi.py]  (level subset, several pressure levels),
    - [extract_pressure_level.py] (level subset, one pressure level).

    The embedding follows the Python text statement by statement.  Python
    dictionaries whose order is never observed (attributes, encodings, the
    override map) are [gmap]s; the ordered collection of a dataset's variables
    is an association list; exceptions are an error monad; the file system and
    the standard output are an explicit world threaded through the entry
    points.  Array payloads are IEEE binary64 numbers, as numpy holds them. *)

From Stdlib Require Import Floats ZArith Qcanon Field.
From stdpp Require Import gmap strings list pretty.

Open Scope Z_scope.

(** ** Python values and exceptions *)

Module Py.

(** The dynamically typed values that variable attributes and encodings hold:
    [None], integers, floats, strings and tuples. *)
#[warnings="-register-all"]
Inductive pyval :=
| PNone
| PInt (z : Z)
| PFloat (f : float)
| PStr (s : string)
| PTuple (l : list pyval).

(** Values of global attributes and of the caller's override map: strings and
    integer scalars (the only ones whose [str()] the history line needs). *)
Inductive attrval :=
| AStr (s : string)
| AInt (z : Z).

(** [str(v)], as an f-string renders a global attribute. *)
Definition py_str (v : attrval) : string :=
  match v with
  | AStr s => s
  | AInt z => pretty z
  end.

(** Truth value of a global attribute ([not v] is its negation). *)
Definition attr_truthy (v : attrval) : bool :=
  match v with
  | AStr s => negb (String.eqb s "")
  | AInt z => negb (z =? 0)
  end.

(** Truth value of a Python value, as [or] and [not] test it. *)
Definition truthy (v : pyval) : bool :=
  match v with
  | PNone => false
  | PInt z => negb (z =? 0)
  | PFloat f => negb (PrimFloat.eqb f 0%float)
  | PStr s => negb (String.eqb s "")
  | PTuple l => match l with [] => false | _ => true end
  end.

Definition is_none (v : pyval) : bool :=
  match v with PNone => true | _ => false end.

(** The exception classes the programs meet; all derive from [Exception]. *)
Inductive pyclass :=
| FileNotFoundError | ValueError | KeyError | TypeError | IndexError | OSError.

(** Exceptions.  The three [raise] statements of the source have a
    constructor each; [EFileNotFound] is what [xr.open_dataset] raises on a
    missing path; [ELib] is any exception raised inside a builtin or the
    array library. *)
Inductive exn :=
| EMainVarFromVariableId
| EShapeMismatch (user_shape template_shape : list nat)
| ENoMainDataVariable
| EFileNotFound (path : string)
| ELib (c : pyclass) (what : string).

Definition class_of (e : exn) : pyclass :=
  match e with
  | EMainVarFromVariableId | EShapeMismatch _ _ | ENoMainDataVariable => ValueError
  | EFileNotFound _ => FileNotFoundError
  | ELib c _ => c
  end.

Inductive result (A : Type) :=
| Ok (a : A)
| Raise (e : exn).
Arguments Ok {A} a.
Arguments Raise {A} e.

Definition rbind {A B} (r : result A) (k : A → result B) : result B :=
  match r with
  | Ok a => k a
  | Raise e => Raise e
  end.

(** [int(n)] of a dimension length as a float, for comparisons between an
    integer and a float (exact below 2^53, far above any dimension length). *)
Definition float_of_nat (n : nat) : float :=
  PrimFloat.of_uint63 (Uint63.of_Z (Z.of_nat n)).

(** [len(x)]: defined on tuples and strings, [TypeError] otherwise. *)
Definition py_len (v : pyval) : result nat :=
  match v with
  | PTuple l => Ok (length l)
  | PStr s => Ok (String.length s)
  | PNone => Raise (ELib TypeError "object of type 'NoneType' has no len()")
  | PInt _ => Raise (ELib TypeError "object of type 'int' has no len()")
  | PFloat _ => Raise (ELib TypeError "object of type 'float' has no len()")
  end.

(** The items of a sequence, by iteration or by index: the elements of a
    tuple, the one-character strings of a string. *)
Definition py_items (v : pyval) : list pyval :=
  match v with
  | PTuple l => l
  | PStr s => (λ c, PStr (String c EmptyString)) <$> String.list_ascii_of_string s
  | _ => []
  end.

(** [min(orig, new)] for a dimension length [new]: Python returns [new] when
    [new < orig] and [orig] otherwise; the comparison raises [TypeError]
    unless [orig] is a number. *)
Definition py_min (orig : pyval) (new : nat) : result pyval :=
  match orig with
  | PInt z => Ok (PInt (if Z.of_nat new <? z then Z.of_nat new else z))
  | PFloat f => Ok (if PrimFloat.ltb (float_of_nat new) f
                    then PInt (Z.of_nat new) else PFloat f)
  | _ => Raise (ELib TypeError "'<' not supported between instances")
  end.

(** [sub in s] on strings. *)
Fixpoint contains (sub s : string) : bool :=
  String.prefix sub s ||
  match s with
  | EmptyString => false
  | String _ s' => contains sub s'
  end.

End Py.
Export Py.

Notation "x ←ᵣ c ; k" := (rbind c (λ x, k))
  (at level 20, c at level 100, k at level 200, right associativity,
   format "x  ←ᵣ  c ; '/' k").

(** ** The bounds generator ([cmorize_from_template.create_bounds]) *)

(** The arithmetic [create_bounds] uses: subtraction, addition and halving.
    numpy evaluates it in binary64 ([f64]); [exact] is the same arithmetic
    over the rationals, where no operation rounds. *)
Record arith := {
  num : Type;
  zero : num;
  add : num → num → num;
  sub : num → num → num;
  half : num → num
}.

Definition f64 : arith :=
  {| num := float; zero := 0%float;
     add := PrimFloat.add; sub := PrimFloat.sub;
     half := λ x, PrimFloat.div x 2%float |}.

Definition exact : arith :=
  {| num := Qc; zero := 0%Qc;
     add := Qcplus; sub := Qcminus;
     half := λ x, (x / 2)%Qc |}.

Section Bounds.
Context (A : arith).
Abbreviation num := (num A).

(** [np.diff(coord_vals) / 2] *)
Definition half_diffs (coord_vals : list num) : list num :=
  zip_with (λ next cur, half A (sub A next cur)) (tail coord_vals) coord_vals.

(** [coord_vals[:-1]] *)
Definition but_last (l : list num) : list num := take (length l - 1)%nat l.

(** [bounds[:-1, 1] = xs]: both sides have the same length. *)
Definition set_upper_but_last (xs : list num) (bounds : list (num * num))
  : list (num * num) :=
  imap (λ i row, match xs !! i with
                 | Some x => if decide (S i < length bounds)%nat
                             then (row.1, x) else row
                 | None => row
                 end) bounds.

(** [bounds[1:, 0] = xs] *)
Definition set_lower_from_1 (xs : list num) (bounds : list (num * num))
  : list (num * num) :=
  imap (λ i row, match i with
                 | O => row
                 | S j => match xs !! j with
                          | Some x => (x, row.2)
                          | None => row
                          end
                 end) bounds.

Definition index_error {X} (o : option X) : result X :=
  match o with
  | Some x => Ok x
  | None => Raise (ELib IndexError "index out of bounds")
  end.

Definition create_bounds_in (coord_vals : list num) : result (list (num * num)) :=
  let n := length coord_vals in
  let bounds := replicate n (zero A, zero A) in
  let diffs := half_diffs coord_vals in
  let bounds :=
    set_upper_but_last (zip_with (add A) (but_last coord_vals) diffs) bounds in
  let bounds :=
    set_lower_from_1 (zip_with (sub A) (tail coord_vals) diffs) bounds in
  v0 ←ᵣ index_error (coord_vals !! 0%nat);
  d0 ←ᵣ index_error (diffs !! 0%nat);
  let bounds := alter (λ row, (sub A v0 d0, row.2)) 0%nat bounds in
  vl ←ᵣ index_error (last coord_vals);
  dl ←ᵣ index_error (last diffs);
  let bounds := alter (λ row, (row.1, add A vl dl)) (n - 1)%nat bounds in
  Ok bounds.
End Bounds.

(** [create_bounds] as numpy runs it. *)
Definition create_bounds : list float → result (list (float * float)) :=
  create_bounds_in f64.

(** ** The array-dataset library (xarray), as far as the programs use it *)

Module Xr.

(** A variable: dimension names, shape, row-major payload, attributes and
    encoding ([da.dims], [da.shape], [da.values], [da.attrs],
    [da.encoding]). *)
Record Var := {
  dims : list string;
  shape : list nat;
  values : list float;
  attrs : gmap string pyval;
  encoding : gmap string pyval
}.

(** A dataset: [ds.variables] in iteration order, the names in [ds.coords],
    and the global attributes [ds.attrs]. *)
Record Dataset := {
  variables : list (string * Var);
  coords : gset string;
  global_attrs : gmap string attrval
}.

Definition names (ds : Dataset) : list string := (variables ds).*1.

Fixpoint lookup_var (name : string) (l : list (string * Var)) : option Var :=
  match l with
  | [] => None
  | (k, v) :: l' => if String.eqb k name then Some v else lookup_var name l'
  end.

(** [d[name] = v] on an insertion-ordered dict: replace in place, or append. *)
Fixpoint set_var (name : string) (v : Var) (l : list (string * Var))
  : list (string * Var) :=
  match l with
  | [] => [(name, v)]
  | (k, w) :: l' =>
      if String.eqb k name then (k, v) :: l' else (k, w) :: set_var name v l'
  end.

(** [name in ds] *)
Definition contains_var (ds : Dataset) (name : string) : bool :=
  bool_decide (name ∈ names ds).

(** [ds.data_vars]: the variables that are not coordinates, in order. *)
Definition data_vars (ds : Dataset) : list (string * Var) :=
  filter (λ kv, kv.1 ∉ coords ds) (variables ds).

(** [ds[name]] *)
Definition getitem (ds : Dataset) (name : string) : result Var :=
  match lookup_var name (variables ds) with
  | Some v => Ok v
  | None => Raise (ELib KeyError name)
  end.

(** In-place change of the variable [name] (through [ds[name].attrs] or
    [ds[name].data]); the variable object is shared with the dataset. *)
Definition update_var (ds : Dataset) (name : string) (f : Var → Var)
  : Dataset :=
  {| variables := (λ kv, if String.eqb kv.1 name then (kv.1, f kv.2) else kv)
                    <$> variables ds;
     coords := coords ds;
     global_attrs := global_attrs ds |}.

Definition set_attrs (a : gmap string pyval) (v : Var) : Var :=
  {| dims := dims v; shape := shape v; values := values v;
     attrs := a; encoding := encoding v |}.

Definition set_attr (k : string) (x : pyval) (v : Var) : Var :=
  set_attrs (<[k := x]> (attrs v)) v.

Definition del_attr (k : string) (v : Var) : Var :=
  set_attrs (delete k (attrs v)) v.

Definition set_values (sh : list nat) (d : list float) (v : Var) : Var :=
  {| dims := dims v; shape := sh; values := d;
     attrs := attrs v; encoding := encoding v |}.

Definition set_global_attrs (a : gmap string attrval) (ds : Dataset) : Dataset :=
  {| variables := variables ds; coords := coords ds; global_attrs := a |}.

(** The coordinates a data array [ds[name]] carries: the coordinates of the
    dataset whose dimensions are among the array's. *)
Definition dataarray_coords (ds : Dataset) (v : Var)
  : list (string * Var) :=
  filter (λ kv, kv.1 ∈ coords ds ∧ Forall (λ d, d ∈ dims v) (dims kv.2))
         (variables ds).

(** [ds[name] = da] for a data array [da] with variable [v] and attached
    coordinates [cs].  The variable is stored under [name]; attached
    coordinates the dataset does not have yet are added, here after the
    variable; every variable named like a dimension is a coordinate.
    Alignment of the payload with the dataset's indexes, conflicts of
    dimension sizes and the place the library gives to new coordinates in
    the iteration order are not modelled. *)
Definition setitem (ds : Dataset) (name : string) (v : Var)
    (cs : list (string * Var)) : Dataset :=
  let vars := set_var name v (variables ds) in
  let vars :=
    foldl (λ acc kv, if bool_decide (kv.1 ∈ acc.*1) then acc else acc ++ [kv])
          vars cs in
  let all_dims := vars ≫= (λ kv, dims kv.2) in
  {| variables := vars;
     coords := coords ds ∪ list_to_set cs.*1
               ∪ list_to_set (filter (λ n, n ∈ all_dims) vars.*1);
     global_attrs := global_attrs ds |}.

(** An index coordinate: a coordinate that is its own single dimension. *)
Definition is_index (ds : Dataset) (name : string) : bool :=
  bool_decide (name ∈ coords ds) &&
  match lookup_var name (variables ds) with
  | Some v => bool_decide (dims v = [name])
  | None => false
  end.

(** [ds.reset_coords([name])]: the coordinate becomes a data variable;
    refused for index coordinates and for names that are no coordinates. *)
Definition reset_coords (ds : Dataset) (name : string) : result Dataset :=
  if is_index ds name
  then Raise (ELib ValueError "cannot remove index coordinates with reset_coords")
  else if bool_decide (name ∈ coords ds)
  then Ok {| variables := variables ds;
             coords := coords ds ∖ {[name]};
             global_attrs := global_attrs ds |}
  else Raise (ELib ValueError "cannot reset_coords: not a coordinate").

(** [da.isel({dim: 0 for dim in da.dims}, drop=True)]: the first element, as
    a zero-dimensional variable. *)
Definition isel_first (v : Var) : result Var :=
  match values v with
  | x :: _ => Ok (set_values [] [x] {| dims := []; shape := []; values := [];
                                       attrs := attrs v; encoding := encoding v |})
  | [] => Raise (ELib IndexError "index 0 is out of bounds for axis with size 0")
  end.

(** Selection of the rows [idxs] along axis [axis] of a row-major payload. *)
Definition take_axis (sh : list nat) (axis : nat) (idxs : list nat)
    (data : list float) : list float :=
  let outer := foldr Nat.mul 1%nat (take axis sh) in
  let n := default 0%nat (sh !! axis) in
  let inner := foldr Nat.mul 1%nat (drop (S axis) sh) in
  seq 0 outer ≫= λ o,
    idxs ≫= λ i, take inner (drop ((o * n + i) * inner) data).

(** The position of the axis value nearest to [p]; of two equally near
    values this takes the first, the library's choice depends on the order
    of the axis and is not modelled. *)
Definition nearest_index (axis : list float) (p : float) : option nat :=
  let dist x := PrimFloat.abs (PrimFloat.sub x p) in
  fst <$> foldl (λ best ix,
                   match best with
                   | None => Some ix
                   | Some (j, y) =>
                       if PrimFloat.ltb (dist ix.2) (dist y) then Some ix else best
                   end) None (imap (λ i x, (i, x)) axis).

Fixpoint position (d : string) (l : list string) : option nat :=
  match l with
  | [] => None
  | x :: l' => if String.eqb x d then Some 0%nat else S <$> position d l'
  end.

Fixpoint all_some {X} (l : list (option X)) : option (list X) :=
  match l with
  | [] => Some []
  | o :: l' => x ← o; xs ← all_some l'; Some (x :: xs)
  end.

(** [ds.sel({dim: levels}, method='nearest')]: every variable along [dim]
    keeps, in request order, the rows nearest to the requested values;
    attributes and encodings stay.  A stand-in for the library: [dim] is
    required to be an index coordinate, and the library's own checks of the
    axis (monotonic, finite labels) are not modelled. *)
Definition sel_nearest (ds : Dataset) (dim : string) (levels : list float)
  : result Dataset :=
  if is_index ds dim then
    axis ←ᵣ getitem ds dim;
    match all_some (nearest_index (values axis) <$> levels) with
    | None => Raise (ELib KeyError "not all values found in index")
    | Some idxs =>
        Ok {| variables :=
                (λ kv, match position dim (dims kv.2) with
                       | Some k =>
                           (kv.1, set_values (<[k := length idxs]> (shape kv.2))
                                    (take_axis (shape kv.2) k idxs (values kv.2))
                                    kv.2)
                       | None => kv
                       end) <$> variables ds;
              coords := coords ds;
              global_attrs := global_attrs ds |}
    end
  else Raise (ELib KeyError "no index found for coordinate").

End Xr.
Export Xr.

(** ** The world: files, serializer calls and error reports *)

(** What [to_netcdf] receives: the dataset, the per-variable encoding map
    and the unlimited dimensions. *)
Record nc_write := {
  w_ds : Dataset;
  w_encoding : gmap string (gmap string pyval);
  w_unlimited : list string
}.

(** The messages the level-subset programs print when they give up.
    Progress messages are not modelled. *)
Inductive report :=
| InputFileNotFound (input_file : string)
| UnexpectedError (e : exn)
| NoPlevDataVariable
| NoPressureCoordinate (pressure_coord : string).

(** [disk] holds the datasets [xr.open_dataset(path, decode_times=False)]
    returns; [unwritable] the paths at which the NetCDF backend fails, with
    the class and message of the exception it raises; [written] the
    serializer calls that went through; [stdout] the printed reports, latest
    first. *)
Record world := {
  disk : gmap string Dataset;
  unwritable : gmap string (pyclass * string);
  written : gmap string nc_write;
  stdout : list report
}.

Definition M (A : Type) : Type := world → result A * world.

Definition mret {A} (a : A) : M A := λ w, (Ok a, w).

Definition mbind {A B} (c : M A) (k : A → M B) : M B :=
  λ w, match c w with
       | (Ok a, w') => k a w'
       | (Raise e, w') => (Raise e, w')
       end.

Definition lift {A} (r : result A) : M A := λ w, (r, w).

Notation "x ←ₘ c ; k" := (mbind c (λ x, k))
  (at level 20, c at level 100, k at level 200, right associativity,
   format "x  ←ₘ  c ; '/' k").

(** [try: body / except Exception as e: handler(e)]: every modelled
    exception class derives from [Exception]. *)
Definition try_except {A} (body : M A) (handler : exn → M A) : M A :=
  λ w, match body w with
       | (Ok a, w') => (Ok a, w')
       | (Raise e, w') => handler e w'
       end.

Definition open_dataset (path : string) : M Dataset :=
  λ w, match disk w !! path with
       | Some ds => (Ok ds, w)
       | None => (Raise (EFileNotFound path), w)
       end.

Definition to_netcdf (path : string) (c : nc_write) : M unit :=
  λ w, match unwritable w !! path with
       | Some e => (Raise (ELib e.1 e.2), w)
       | None => (Ok tt, {| disk := disk w; unwritable := unwritable w;
                            written := <[path := c]> (written w);
                            stdout := stdout w |})
       end.

Definition print (r : report) : M unit :=
  λ w, (Ok tt, {| disk := disk w; unwritable := unwritable w;
                  written := written w; stdout := r :: stdout w |}).

(** ** Pieces the four programs share *)

(** The encoding keys the NetCDF backend accepts ([valid_keys],
    [valid_encodings]). *)
Definition valid_keys : list string :=
  ["_FillValue"; "dtype"; "scale_factor"; "add_offset"; "units"; "calendar";
   "zlib"; "complevel"; "shuffle"; "fletcher32"; "contiguous"; "chunksizes";
   "least_significant_digit"].

(** [{k: v for k, v in enc.items() if k in valid_keys}] *)
Definition keep_valid (enc : gmap string pyval) : gmap string pyval :=
  filter (λ kv, kv.1 ∈ valid_keys) enc.

(** [attrs.get('variable_id')] passing the test
    [not name or name not in data_vars]. *)
Definition variable_id_in (global : gmap string attrval) (data_var_names : list string)
  : option string :=
  match global !! "variable_id" with
  | None => None
  | Some v =>
      if negb (attr_truthy v) then None
      else match v with
           | AStr s => if bool_decide (s ∈ data_var_names) then Some s else None
           | AInt _ => None
           end
  end.

(** [f"{history_update} ; {template_ds.attrs.get('history', '')}"] with
    [history_update = f"{now}: {what}"]; [now] is the formatted UTC time. *)
Definition history_update (now what : string) : string := now +:+ ": " +:+ what.

Definition prior_history (template_ds : Dataset) : string :=
  match global_attrs template_ds !! "history" with
  | Some v => py_str v
  | None => ""
  end.

Definition rewrite_history (now what : string) (template_ds cmor_ds : Dataset)
  : Dataset :=
  set_global_attrs
    (<["history" := AStr (history_update now what +:+ " ; " +:+ prior_history template_ds)]>
       (global_attrs cmor_ds)) cmor_ds.

(** [var_name in cmor_ds.coords or '_bnds' in var_name or var_name == 'height'] *)
Definition no_fill_value (cmor_ds : Dataset) (var_name : string) : bool :=
  bool_decide (var_name ∈ coords cmor_ds) || contains "_bnds" var_name
  || String.eqb var_name "height".

(** "Disable _FillValue for coordinates, bounds, and our special 'height'
    case": [if ...: var_encoding['_FillValue'] = None] *)
Definition suppress_fill_value (cmor_ds : Dataset) (var_name : string)
    (var_encoding : gmap string pyval) : gmap string pyval :=
  if no_fill_value cmor_ds var_name
  then <["_FillValue" := PNone]> var_encoding else var_encoding.

(** [template_ds[var_name].encoding.copy() if var_name in template_ds else {}] *)
Definition template_encoding (template_ds : Dataset) (var_name : string)
  : gmap string pyval :=
  match lookup_var var_name (variables template_ds) with
  | Some tv => encoding tv
  | None => ∅
  end.

(** [if 'coordinates' in da.attrs and var_name != main_var_name:
       del da.attrs['coordinates']] *)
Definition drop_rogue_coordinates (main_var_name var_name : string)
    (cmor_ds : Dataset) : Dataset :=
  match lookup_var var_name (variables cmor_ds) with
  | Some da =>
      if bool_decide (is_Some (attrs da !! "coordinates"))
         && negb (String.eqb var_name main_var_name)
      then update_var cmor_ds var_name (del_attr "coordinates")
      else cmor_ds
  | None => cmor_ds
  end.

(** [if 'height' in cmor_ds.coords: cmor_ds = cmor_ds.reset_coords(['height'])] *)
Definition demote_height (cmor_ds : Dataset) : result Dataset :=
  if bool_decide ("height" ∈ coords cmor_ds)
  then reset_coords cmor_ds "height"
  else Ok cmor_ds.

Fixpoint mapM_result {X Y} (f : X → result Y) (l : list X) : result (list Y) :=
  match l with
  | [] => Ok []
  | x :: l' => y ←ᵣ f x; ys ←ᵣ mapM_result f l'; Ok (y :: ys)
  end.

Fixpoint foldM_result {S X} (f : S → X → result S) (s : S) (l : list X) : result S :=
  match l with
  | [] => Ok s
  | x :: l' => s' ←ᵣ f s x; foldM_result f s' l'
  end.

(** ** [cmor_utils.py]: direct replacement *)

(** The caller's in-memory array. *)
Record ndarray := { a_shape : list nat; a_values : list float }.

(** [for key, value in metadata_overrides.items()]: both branches assign. *)
Definition apply_overrides (metadata_overrides global : gmap string attrval)
  : gmap string attrval :=
  map_fold (λ key value acc,
              if bool_decide (is_Some (acc !! key))
              then <[key := value]> acc
              else <[key := value]> acc) global metadata_overrides.

(** One turn of [for var_name in cmor_ds.variables] (step 6). *)
Definition direct_encode_step (template_ds : Dataset) (main_var_name : string)
    (st : Dataset * gmap string (gmap string pyval)) (var_name : string)
  : Dataset * gmap string (gmap string pyval) :=
  let '(cmor_ds, enc) := st in
  let var_encoding := template_encoding template_ds var_name in
  let var_encoding := suppress_fill_value cmor_ds var_name var_encoding in
  let cmor_ds := drop_rogue_coordinates main_var_name var_name cmor_ds in
  (cmor_ds, <[var_name := keep_valid var_encoding]> enc).

Definition direct_what : string := "Data replaced with user-provided in-memory data.".

(** The body of the [with] block, up to the serializer call. *)
Definition cmorize_dataset (now : string) (user_data_array : ndarray)
    (template_ds : Dataset) (metadata_overrides : gmap string attrval)
  : result nc_write :=
  match variable_id_in (global_attrs template_ds) (data_vars template_ds).*1 with
  | None => Raise EMainVarFromVariableId
  | Some main_var_name =>
      let cmor_ds := template_ds in
      tv ←ᵣ getitem cmor_ds main_var_name;
      let template_shape := shape tv in
      if bool_decide (a_shape user_data_array ≠ template_shape)
      then Raise (EShapeMismatch (a_shape user_data_array) template_shape)
      else
        let cmor_ds :=
          update_var cmor_ds main_var_name
            (set_values (a_shape user_data_array) (a_values user_data_array)) in
        let cmor_ds :=
          set_global_attrs
            (apply_overrides metadata_overrides (global_attrs cmor_ds)) cmor_ds in
        let cmor_ds := rewrite_history now direct_what template_ds cmor_ds in
        cmor_ds ←ᵣ demote_height cmor_ds;
        let '(cmor_ds, enc) :=
          foldl (direct_encode_step template_ds main_var_name) (cmor_ds, ∅)
                (names cmor_ds) in
        Ok {| w_ds := cmor_ds; w_encoding := enc; w_unlimited := ["time"] |}
  end.

Definition cmorize_data_with_template (now : string) (user_data_array : ndarray)
    (template_path output_path : string) (metadata_overrides : gmap string attrval)
  : M unit :=
  template_ds ←ₘ open_dataset template_path;
  c ←ₘ lift (cmorize_dataset now user_data_array template_ds metadata_overrides);
  to_netcdf output_path c.

(** ** [cmorize_from_template.py]: regrid-and-build *)

(** [max(candidate_vars, key=candidate_vars.get)]: the first key with the
    largest value. *)
Definition py_max_by {X} (key : X → nat) (first : X) (rest : list X) : X :=
  foldl (λ best x, if decide (key best < key x)%nat then x else best) first rest.

(** The candidates of the fallback: data variables that are no bounds. *)
Definition candidate_vars (regridded_ds : Dataset) : list (string * nat) :=
  (λ kv, (kv.1, length (dims kv.2))) <$>
    filter (λ kv, contains "_bnds" kv.1 = false ∧ "bnds" ∉ dims kv.2)
           (data_vars regridded_ds).

(** "Determine the main variable name robustly". *)
Definition resolve_main_var (template_ds regridded_ds : Dataset) : result string :=
  match variable_id_in (global_attrs template_ds) (data_vars regridded_ds).*1 with
  | Some main_var_name => Ok main_var_name
  | None =>
      match candidate_vars regridded_ds with
      | [] => Raise ENoMainDataVariable
      | c :: cs => Ok (py_max_by snd c cs).1
      end
  end.

(** [cmor_ds[var_name].attrs = template_ds[var_name].attrs.copy()] for the
    variables the template has too. *)
Definition copy_variable_attrs (template_ds cmor_ds : Dataset) : Dataset :=
  foldl (λ ds var_name,
           match lookup_var var_name (variables template_ds) with
           | Some tv => update_var ds var_name (set_attrs (attrs tv))
           | None => ds
           end) cmor_ds (names cmor_ds).

(** [d.get(k)] and [a or b] *)
Definition py_get (d : gmap string pyval) (k : string) : pyval := default PNone (d !! k).
Definition py_or (a b : pyval) : pyval := if truthy a then a else b.

(** "Restore missing_value attribute on main variable". *)
Definition restore_missing_value (template_ds : Dataset) (main_var_name : string)
    (cmor_ds : Dataset) : Dataset :=
  if bool_decide (main_var_name ∈ (data_vars cmor_ds).*1)
     && contains_var template_ds main_var_name
  then
    let template_enc := template_encoding template_ds main_var_name in
    let fill_value :=
      py_or (py_get template_enc "_FillValue") (py_get template_enc "missing_value") in
    if is_none fill_value then cmor_ds
    else update_var cmor_ds main_var_name (set_attr "missing_value" fill_value)
  else cmor_ds.

(** "Copying Non-Spatial Variables from Template". *)
Definition copy_template_vars (template_ds cmor_ds : Dataset) : Dataset :=
  let template_vars_to_copy :=
    filter (λ kv, kv.1 ∉ names cmor_ds) (variables template_ds) in
  foldl (λ ds kv,
           if String.eqb kv.1 "height" then ds
           else setitem ds kv.1 kv.2 (dataarray_coords template_ds kv.2))
        cmor_ds template_vars_to_copy.

(** "Processing 'height' coordinate". *)
Definition process_height (template_ds : Dataset) (main_var_name : string)
    (cmor_ds : Dataset) : result Dataset :=
  match lookup_var "height" (variables template_ds) with
  | None => Ok cmor_ds
  | Some original_height =>
      scalar_height ←ᵣ isel_first original_height;
      let scalar_height := set_attrs (attrs original_height) scalar_height in
      let kept := filter (λ kv, dims kv.2 = [])
                         (dataarray_coords template_ds original_height) in
      let cmor_ds := setitem cmor_ds "height" scalar_height kept in
      _ ←ᵣ getitem cmor_ds main_var_name;
      Ok (update_var cmor_ds main_var_name (set_attr "coordinates" (PStr "height")))
  end.

(** [cmor_ds[coord].values] handed to [create_bounds]: a one-dimensional
    array; [len()] of a zero-dimensional array raises, and the slice
    assignments do not broadcast for more dimensions. *)
Definition coord_values (v : Var) : result (list float) :=
  match shape v with
  | [_] => Ok (values v)
  | [] => Raise (ELib TypeError "len() of unsized object")
  | _ => Raise (ELib ValueError "could not broadcast input array")
  end.

(** [xr.DataArray(bounds, dims=[coord, 'bnds'], name=...)] *)
Definition bounds_var (coord : string) (bounds : list (float * float)) : Var :=
  {| dims := [coord; "bnds"]; shape := [length bounds; 2%nat];
     values := bounds ≫= (λ row, [row.1; row.2]);
     attrs := ∅; encoding := ∅ |}.

Definition add_bounds (coord bnds_name : string) (cmor_ds : Dataset) : result Dataset :=
  c ←ᵣ getitem cmor_ds coord;
  vals ←ᵣ coord_values c;
  bounds ←ᵣ create_bounds vals;
  Ok (setitem cmor_ds bnds_name (bounds_var coord bounds) []).

(** "Creating new lat/lon bounds". *)
Definition create_lat_lon_bounds (cmor_ds : Dataset) : result Dataset :=
  cmor_ds ←ᵣ add_bounds "lat" "lat_bnds" cmor_ds;
  cmor_ds ←ᵣ add_bounds "lon" "lon_bnds" cmor_ds;
  let cmor_ds := update_var cmor_ds "lat" (set_attr "bounds" (PStr "lat_bnds")) in
  Ok (update_var cmor_ds "lon" (set_attr "bounds" (PStr "lon_bnds"))).

(** [for key, value in metadata_overrides.items()]: only keys the
    attributes already have are assigned. *)
Definition apply_overrides_existing (metadata_overrides global : gmap string attrval)
  : gmap string attrval :=
  map_fold (λ key value acc,
              if bool_decide (is_Some (acc !! key))
              then <[key := value]> acc
              else acc) global metadata_overrides.

(** The body of the [try] in the encoding loop: [Some t] is the new tuple,
    [None] stands for [del var_encoding['chunksizes']]. *)
Definition clamp_chunks (original_chunks : pyval) (sh : list nat)
  : result (option pyval) :=
  n ←ᵣ py_len original_chunks;
  if bool_decide (n = length sh)
  then new_chunks ←ᵣ mapM_result (λ p, py_min p.1 p.2)
                                 (zip (py_items original_chunks) sh);
       Ok (Some (PTuple new_chunks))
  else Ok None.

(** [if 'chunksizes' in var_encoding and var_encoding.get('chunksizes') is
    not None: try: ... except Exception: del var_encoding['chunksizes']] *)
Definition clamp_or_drop_chunks (da_shape : list nat)
    (var_encoding : gmap string pyval) : gmap string pyval :=
  match var_encoding !! "chunksizes" with
  | Some original_chunks =>
      if is_none original_chunks then var_encoding
      else match clamp_chunks original_chunks da_shape with
           | Ok (Some new_chunks) => <["chunksizes" := new_chunks]> var_encoding
           | Ok None => delete "chunksizes" var_encoding
           | Raise _ => delete "chunksizes" var_encoding
           end
  | None => var_encoding
  end.

(** [cmor_ds[var_name].shape] inside a loop over [cmor_ds.variables] *)
Definition shape_of (cmor_ds : Dataset) (var_name : string) : list nat :=
  default [] (shape <$> lookup_var var_name (variables cmor_ds)).

(** One turn of [for var_name in cmor_ds.variables] of [create_cmor_file]. *)
Definition regrid_encode_step (template_ds : Dataset) (main_var_name : string)
    (st : Dataset * gmap string (gmap string pyval)) (var_name : string)
  : Dataset * gmap string (gmap string pyval) :=
  let '(cmor_ds, enc) := st in
  let da_shape := shape_of cmor_ds var_name in
  let var_encoding := template_encoding template_ds var_name in
  let var_encoding := suppress_fill_value cmor_ds var_name var_encoding in
  let cmor_ds := drop_rogue_coordinates main_var_name var_name cmor_ds in
  let var_encoding := clamp_or_drop_chunks da_shape var_encoding in
  (cmor_ds, <[var_name := keep_valid var_encoding]> enc).

Definition regrid_what : string := "Data regridded and CMORized.".

(** [create_cmor_file] up to the serializer call. *)
Definition create_cmor_dataset (now : string) (template_ds regridded_ds : Dataset)
    (metadata_overrides : gmap string attrval) : result nc_write :=
  main_var_name ←ᵣ resolve_main_var template_ds regridded_ds;
  let cmor_ds := regridded_ds in
  let cmor_ds := set_global_attrs (global_attrs template_ds) cmor_ds in
  let cmor_ds := copy_variable_attrs template_ds cmor_ds in
  let cmor_ds := restore_missing_value template_ds main_var_name cmor_ds in
  let cmor_ds := copy_template_vars template_ds cmor_ds in
  cmor_ds ←ᵣ process_height template_ds main_var_name cmor_ds;
  cmor_ds ←ᵣ create_lat_lon_bounds cmor_ds;
  let cmor_ds :=
    set_global_attrs
      (apply_overrides_existing metadata_overrides (global_attrs cmor_ds)) cmor_ds in
  let cmor_ds := rewrite_history now regrid_what template_ds cmor_ds in
  cmor_ds ←ᵣ demote_height cmor_ds;
  let '(cmor_ds, enc) :=
    foldl (regrid_encode_step template_ds main_var_name) (cmor_ds, ∅)
          (names cmor_ds) in
  Ok {| w_ds := cmor_ds; w_encoding := enc; w_unlimited := ["time"] |}.

Definition create_cmor_file (now : string) (template_ds regridded_ds : Dataset)
    (output_file : string) (metadata_overrides : gmap string attrval) : M unit :=
  c ←ₘ lift (create_cmor_dataset now template_ds regridded_ds metadata_overrides);
  to_netcdf output_file c.

(** ** [extract_plevels_multi.py] and [extract_pressure_level.py]: level subset *)

(** [var_encoding['chunksizes'][i]] *)
Definition py_index (v : pyval) (i : nat) : result pyval :=
  match py_items v !! i with
  | Some x => Ok x
  | None => Raise (ELib IndexError "index out of range")
  end.

(** The chunk adjustment of the level-subset loops; no exception is caught
    here. *)
Definition adjust_chunks (ds_subset : Dataset) (var_name : string)
    (var_encoding : gmap string pyval) : result (gmap string pyval) :=
  match var_encoding !! "chunksizes" with
  | Some chunksizes =>
      if is_none chunksizes then Ok var_encoding
      else
        sv ←ᵣ getitem ds_subset var_name;
        let var_shape := shape sv in
        n ←ᵣ py_len chunksizes;
        if bool_decide (n = length var_shape)
        then
          new_chunks ←ᵣ mapM_result (λ p, orig ←ᵣ py_index chunksizes p.1;
                                          py_min orig p.2)
                                    (imap (λ i dim_size, (i, dim_size)) var_shape);
          Ok (<["chunksizes" := PTuple new_chunks]> var_encoding)
        else Ok (delete "chunksizes" var_encoding)
  | None => Ok var_encoding
  end.

(** The encoding of one variable in [for var_name in ds_subset.variables]. *)
Definition subset_var_encoding (ds ds_subset : Dataset) (main_var_name : string)
    (var_name : string) : result (gmap string pyval) :=
  orig ←ᵣ getitem ds var_name;
  let var_encoding := keep_valid (encoding orig) in
  var_encoding ←ᵣ adjust_chunks ds_subset var_name var_encoding;
  let var_encoding :=
    if negb (String.eqb var_name main_var_name)
    then <["_FillValue" := PNone]> var_encoding else var_encoding in
  Ok var_encoding.

(** One turn of the loop: [encoding[var_name] = var_encoding]. *)
Definition subset_encode_step (ds ds_subset : Dataset) (main_var_name : string)
    (enc : gmap string (gmap string pyval)) (var_name : string)
  : result (gmap string (gmap string pyval)) :=
  var_encoding ←ᵣ subset_var_encoding ds ds_subset main_var_name var_name;
  Ok (<[var_name := var_encoding]> enc).

(** "Restore missing_value attribute if it exists in the original encoding". *)
Definition restore_missing_value_subset (ds : Dataset) (main_var_name : string)
    (ds_subset : Dataset) : Dataset :=
  if contains_var ds_subset main_var_name then
    match template_encoding ds main_var_name !! "missing_value" with
    | Some mv => update_var ds_subset main_var_name (set_attr "missing_value" mv)
    | None => ds_subset
    end
  else ds_subset.

(** "Remove incorrect 'coordinates' attribute from bounds variables". *)
Definition strip_bounds_coordinates (ds_subset : Dataset) : Dataset :=
  foldl (λ d var_name,
           match lookup_var var_name (variables d) with
           | Some v => if bool_decide (is_Some (attrs v !! "coordinates"))
                       then update_var d var_name (del_attr "coordinates") else d
           | None => d
           end) ds_subset ["time_bnds"; "lat_bnds"; "lon_bnds"].

(** Selection, metadata fixes and encodings, common to both programs. *)
Definition level_subset (ds : Dataset) (main_var_name : string) (levels : list float)
  : result nc_write :=
  ds_subset ←ᵣ sel_nearest ds "plev" levels;
  let ds_subset := restore_missing_value_subset ds main_var_name ds_subset in
  let ds_subset := strip_bounds_coordinates ds_subset in
  enc ←ᵣ foldM_result (subset_encode_step ds ds_subset main_var_name) ∅
                      (names ds_subset);
  Ok {| w_ds := ds_subset; w_encoding := enc; w_unlimited := ["time"] |}.

(** "Auto-detect the main data variable": the first data variable along
    [plev]. *)
Definition detect_main_var (ds : Dataset) : option string :=
  fst <$> head (filter (λ kv, "plev" ∈ dims kv.2) (data_vars ds)).

(** The two [except] clauses. *)
Definition report_failure (input_file : string) (e : exn) : M unit :=
  match class_of e with
  | FileNotFoundError => print (InputFileNotFound input_file)
  | _ => print (UnexpectedError e)
  end.

(** The [try] block of [process_netcdf_file]. *)
Definition process_netcdf_body (input_file output_file : string)
    (pressure_levels_pa : list float) : M unit :=
  ds ←ₘ open_dataset input_file;
  match detect_main_var ds with
  | None => print NoPlevDataVariable
  | Some main_var_name =>
      if String.eqb main_var_name "" then print NoPlevDataVariable
      else c ←ₘ lift (level_subset ds main_var_name pressure_levels_pa);
           to_netcdf output_file c
  end.

Definition process_netcdf_file (input_file output_file : string)
    (pressure_levels_pa : list float) : M unit :=
  try_except (process_netcdf_body input_file output_file pressure_levels_pa)
             (report_failure input_file).

(** The [try] block of [extract_pressure_level]. *)
Definition extract_pressure_body (input_file output_file : string)
    (pressure_level : float) : M unit :=
  ds ←ₘ open_dataset input_file;
  let pressure_coord := "plev" in
  if bool_decide (pressure_coord ∉ coords ds)
  then print (NoPressureCoordinate pressure_coord)
  else c ←ₘ lift (level_subset ds "zg" [pressure_level]);
       to_netcdf output_file c.

Definition extract_pressure_level (input_file output_file : string)
    (pressure_level : float) : M unit :=
  try_except (extract_pressure_body input_file output_file pressure_level)
             (report_failure input_file).

(** ** Predicates used in the statements *)

(** The attribute [key] of the variable [name]. *)
Definition var_attr (ds : Dataset) (name key : string) : option pyval :=
  v ← lookup_var name (variables ds); attrs v !! key.

(** The only change the encoding loops make to a variable: a [coordinates]
    attribute may be gone, and never on the main variable. *)
Definition var_cleaned (main_var_name name : string) (v v' : Var) : Prop :=
  dims v' = dims v ∧ shape v' = shape v ∧ values v' = values v ∧
  encoding v' = encoding v ∧
  (∀ k, k ≠ "coordinates" → attrs v' !! k = attrs v !! k) ∧
  (attrs v' !! "coordinates" = attrs v !! "coordinates"
   ∨ (name ≠ main_var_name ∧ attrs v' !! "coordinates" = None)).

Definition cleaned (main_var_name : string) (ds ds' : Dataset) : Prop :=
  names ds' = names ds ∧ coords ds' = coords ds ∧
  global_attrs ds' = global_attrs ds ∧
  ∀ name, option_Forall2 (var_cleaned main_var_name name)
            (lookup_var name (variables ds)) (lookup_var name (variables ds')).

(** The shape of both encoding loops: the turn for [n] strips a rogue
    [coordinates] attribute and records the encoding [E] computes. *)
Definition loop_step (main_var_name : string)
    (E : Dataset → string → gmap string pyval)
    (st : Dataset * gmap string (gmap string pyval)) (n : string)
  : Dataset * gmap string (gmap string pyval) :=
  (drop_rogue_coordinates main_var_name n st.1, <[n := E st.1 n]> st.2).

(** What the two loops record for a variable. *)
Definition direct_var_encoding (template_ds cmor_ds : Dataset) (var_name : string)
  : gmap string pyval :=
  keep_valid (suppress_fill_value cmor_ds var_name
                (template_encoding template_ds var_name)).

Definition regrid_var_encoding (template_ds cmor_ds : Dataset) (var_name : string)
  : gmap string pyval :=
  keep_valid (clamp_or_drop_chunks (shape_of cmor_ds var_name)
                (suppress_fill_value cmor_ds var_name
                   (template_encoding template_ds var_name))).

(** The entry of [name] in the encoding map says "no fill value". *)
Definition fill_suppressed (c : nc_write) (name : string) : Prop :=
  ∃ e, w_encoding c !! name = Some e ∧ e !! "_FillValue" = Some PNone.

(** [name] matches [*_bnds]. *)
Definition is_bnds (name : string) : Prop := ∃ pre, name = pre +:+ "_bnds".

(** ** Sample inputs *)

Module Sample.

Definition coord (name : string) (vals : list float) (a : gmap string pyval) : Var :=
  {| dims := [name]; shape := [length vals]; values := vals;
     attrs := a; encoding := {["_FillValue" := PFloat 1e20]} |}.

Definition time : Var := coord "time" [15.5]%float {["units" := PStr "days since 1979-01-01"]}.
Definition lat : Var := coord "lat" [-45; 45]%float {["units" := PStr "degrees_north"]}.
Definition lon : Var := coord "lon" [90; 270]%float {["units" := PStr "degrees_east"]}.
Definition plev : Var := coord "plev" [100000; 50000; 10000]%float {["units" := PStr "Pa"]}.

Definition height : Var :=
  {| dims := []; shape := []; values := [2]%float;
     attrs := {["units" := PStr "m"]}; encoding := ∅ |}.

Definition time_bnds : Var :=
  {| dims := ["time"; "bnds"]; shape := [1; 2]%nat; values := [0; 31]%float;
     attrs := {["coordinates" := PStr "height"]};
     encoding := {["_FillValue" := PFloat 1e20]} |}.

(** Near-surface air temperature on a 2 x 2 grid. *)
Definition tas : Var :=
  {| dims := ["time"; "lat"; "lon"]; shape := [1; 2; 2]%nat;
     values := [280; 281; 282; 283]%float;
     attrs := {["units" := PStr "K"]};
     encoding := {["_FillValue" := PFloat 1e20;
                   "missing_value" := PFloat 1e20;
                   "chunksizes" := PTuple [PInt 1; PInt 100; PInt 50];
                   "source" := PStr "tas_Amon.nc"]} |}.

Definition template : Dataset :=
  {| variables := [("time", time); ("time_bnds", time_bnds); ("lat", lat);
                   ("lon", lon); ("height", height); ("tas", tas)];
     coords := {["time"; "lat"; "lon"; "height"]};
     global_attrs := {["variable_id" := AStr "tas"; "history" := AStr "created";
                       "source_id" := AStr "MPI-ESM1-2-LR"]} |}.

Definition user_data : ndarray :=
  {| a_shape := [1; 2; 2]%nat; a_values := [285; 286; 287; 288]%float |}.

Definition wrong_shape : ndarray :=
  {| a_shape := [2; 2]%nat; a_values := [285; 286; 287; 288]%float |}.

Definition overrides : gmap string attrval :=
  {["source_id" := AStr "AWI-CM-1-1-MR"; "contact" := AStr "info@awi.de";
    "history" := AStr "mine"]}.

(** The main variable after regridding to three longitudes. *)
Definition regridded : Dataset :=
  {| variables :=
       [("time", time); ("lat", lat); ("lon", coord "lon" [60; 180; 300]%float ∅);
        ("tas", {| dims := ["time"; "lat"; "lon"]; shape := [1; 2; 3]%nat;
                   values := [280; 281; 282; 283; 284; 285]%float;
                   attrs := ∅; encoding := ∅ |})];
     coords := {["time"; "lat"; "lon"]};
     global_attrs := ∅ |}.

(** Geopotential height on three pressure levels; [encoding] tells the two
    inputs apart. *)
Definition zg (enc : gmap string pyval) : Var :=
  {| dims := ["time"; "plev"; "lat"; "lon"]; shape := [1; 3; 2; 2]%nat;
     values := [1; 2; 3; 4; 5; 6; 7; 8; 9; 10; 11; 12]%float;
     attrs := {["units" := PStr "m"]}; encoding := enc |}.

Definition plev_bnds : Var :=
  {| dims := ["plev"; "bnds"]; shape := [3; 2]%nat;
     values := [100000; 75000; 75000; 30000; 30000; 0]%float;
     attrs := ∅; encoding := {["_FillValue" := PFloat 1e20]} |}.

Definition levels_file (aux : list (string * Var)) (enc : gmap string pyval) : Dataset :=
  {| variables := [("time", time); ("plev", plev); ("lat", lat); ("lon", lon)]
                  ++ aux ++ [("zg", zg enc)];
     coords := {["time"; "plev"; "lat"; "lon"]};
     global_attrs := {["variable_id" := AStr "zg"]} |}.

Definition world_with (path : string) (ds : Dataset) : world :=
  {| disk := {[path := ds]}; unwritable := ∅; written := ∅; stdout := [] |}.

End Sample.

(** ** More predicates used in the statements *)

(** In [ds], the variable [bnds_name] holds what [create_bounds] returns on
    the values of the coordinate [coord], laid out as
    [xr.DataArray(..., dims=[coord, 'bnds'])], and [coord] points to it. *)
Definition bounds_rebuilt (ds : Dataset) (coord bnds_name : string) : Prop :=
  ∃ cv bv b,
    lookup_var coord (variables ds) = Some cv ∧
    lookup_var bnds_name (variables ds) = Some bv ∧
    create_bounds (values cv) = Ok b ∧
    dims bv = [coord; "bnds"] ∧
    shape bv = [length (values cv); 2%nat] ∧
    values bv = b ≫= (λ row, [row.1; row.2]) ∧
    attrs cv !! "bounds" = Some (PStr bnds_name).

(** [var.encoding['chunksizes']] as [xr.open_dataset] records it from a
    file: [None] for contiguous storage, a tuple of integers otherwise. *)
Definition chunks_from_file (ch : pyval) : Prop :=
  ch = PNone ∨ ∃ zs, ch = PTuple (PInt <$> zs).

(** ** More sample inputs *)

Module Sample2.

(** A template without [variable_id]. *)
Definition anonymous_template : Dataset :=
  {| variables := variables Sample.template;
     coords := coords Sample.template;
     global_attrs := {["history" := AStr "created"]} |}.

Definition field (ds : list string) (sh : list nat) (vals : list float) : Var :=
  {| dims := ds; shape := sh; values := vals; attrs := ∅; encoding := ∅ |}.

(** Regridded data with a two-dimensional and two three-dimensional
    fields. *)
Definition three_fields : Dataset :=
  {| variables :=
       [("time", Sample.time); ("lat", Sample.lat); ("lon", Sample.lon);
        ("area", field ["lat"; "lon"] [2; 2]%nat [1; 1; 1; 1]%float);
        ("pr", field ["time"; "lat"; "lon"] [1; 2; 2]%nat [0; 1; 2; 3]%float);
        ("tas", field ["time"; "lat"; "lon"] [1; 2; 2]%nat [280; 281; 282; 283]%float)];
     coords := {["time"; "lat"; "lon"]};
     global_attrs := ∅ |}.

(** A [time] axis written as the unlimited dimension with chunks of 512
    records, holding one record. *)
Definition unlimited_time : Var :=
  {| dims := ["time"]; shape := [1%nat]; values := [15.5]%float;
     attrs := {["units" := PStr "days since 1979-01-01"]};
     encoding := {["chunksizes" := PTuple [PInt 512]]} |}.

Definition chunked_template : Dataset :=
  {| variables := [("time", unlimited_time); ("time_bnds", Sample.time_bnds);
                   ("lat", Sample.lat); ("lon", Sample.lon);
                   ("height", Sample.height); ("tas", Sample.tas)];
     coords := coords Sample.template;
     global_attrs := global_attrs Sample.template |}.

(** A template whose [height] is a dimension coordinate of length one. *)
Definition height_axis : Var :=
  {| dims := ["height"]; shape := [1%nat]; values := [2]%float;
     attrs := {["units" := PStr "m"]}; encoding := ∅ |}.

Definition indexed_height_template : Dataset :=
  {| variables := [("time", Sample.time); ("time_bnds", Sample.time_bnds);
                   ("lat", Sample.lat); ("lon", Sample.lon);
                   ("height", height_axis); ("tas", Sample.tas)];
     coords := coords Sample.template;
     global_attrs := global_attrs Sample.template |}.

End Sample2.

(** * Properties *)

(** ** The bounds generator *)

Section BoundsFacts.
Context (A : arith).
Implicit Types (v : list (num A)) (b : list (num A * num A)).

Lemma half_diffs_lookup v i x y :
  v !! i = Some x → v !! S i = Some y →
  half_diffs A v !! i = Some (half A (sub A y x)).
Proof.
  intros Hx Hy. unfold half_diffs.
  rewrite lookup_zip_with, lookup_tail, Hy, Hx. reflexivity.
Qed.

Lemma length_half_diffs v : length (half_diffs A v) = (length v - 1)%nat.
Proof. unfold half_diffs. rewrite length_zip_with, length_tl. lia. Qed.

(** Every row of the result, for an input of at least two values. *)
Lemma create_bounds_in_rows v :
  (2 ≤ length v)%nat →
  ∃ b, create_bounds_in A v = Ok b ∧ length b = length v ∧
    ∀ i x y, v !! i = Some x → v !! S i = Some y →
      let d := half A (sub A y x) in
      snd <$> b !! i = Some (add A x d) ∧
      fst <$> b !! S i = Some (sub A y d) ∧
      (i = 0%nat → fst <$> b !! i = Some (sub A x d)) ∧
      (S (S i) = length v → snd <$> b !! S i = Some (add A y d)).
Proof.
  intros Hn. unfold create_bounds_in.
  destruct v as [|v0 [|v1 v']] eqn:Ev; simpl in Hn; try lia. rewrite <- Ev.
  assert (Hv0 : v !! 0%nat = Some v0) by (subst v; reflexivity).
  assert (Hv1 : v !! 1%nat = Some v1) by (subst v; reflexivity).
  rewrite Hv0. simpl.
  rewrite (half_diffs_lookup v 0 v0 v1 Hv0 Hv1). simpl.
  assert (Hlen : length v = S (S (length v'))) by (subst v; reflexivity).
  destruct (lookup_lt_is_Some_2 v (length v - 2)) as [xl Hxl]; [lia|].
  destruct (lookup_lt_is_Some_2 v (length v - 1)) as [yl Hyl]; [lia|].
  assert (Hl : last v = Some yl).
  { rewrite last_lookup. by replace (Init.Nat.pred (length v)) with (length v - 1)%nat by lia. }
  rewrite Hl. simpl.
  assert (Hdl : last (half_diffs A v) = Some (half A (sub A yl xl))).
  { rewrite last_lookup, length_half_diffs.
    replace (Init.Nat.pred (length v - 1)) with (length v - 2)%nat by lia.
    apply half_diffs_lookup; [done|].
    replace (S (length v - 2)) with (length v - 1)%nat by lia. done. }
  rewrite Hdl. simpl.
  eexists. split; [reflexivity|]. split.
  { rewrite length_alter, length_alter. unfold set_lower_from_1, set_upper_but_last.
    rewrite !length_imap, length_replicate. reflexivity. }
  intros i x y Hx Hy. set (d := half A (sub A y x)).
  assert (Hi : (S i < length v)%nat) by (apply lookup_lt_is_Some; eauto).
  assert (Hd : half_diffs A v !! i = Some d) by (by apply half_diffs_lookup).
  assert (Hup : zip_with (add A) (but_last A v) (half_diffs A v) !! i
                = Some (add A x d)).
  { rewrite lookup_zip_with. unfold but_last. rewrite lookup_take.
    destruct (decide (i < length v - 1)%nat); [|lia].
    rewrite Hx, Hd. reflexivity. }
  assert (Hlo : zip_with (sub A) (tail v) (half_diffs A v) !! i
                = Some (sub A y d)).
  { rewrite lookup_zip_with, lookup_tail, Hy, Hd. reflexivity. }
  repeat split.
  - rewrite list_lookup_alter.
    destruct (decide ((length v - 1)%nat = i)); [lia|].
    rewrite list_lookup_alter.
    destruct (decide (0%nat = i)) as [<-|].
    + unfold set_lower_from_1, set_upper_but_last.
      rewrite !list_lookup_imap, lookup_replicate_2 by lia. simpl.
      rewrite Hup, length_replicate.
      destruct (decide (1 < length v)%nat); [reflexivity|lia].
    + unfold set_lower_from_1, set_upper_but_last.
      rewrite !list_lookup_imap, lookup_replicate_2 by lia. simpl.
      rewrite Hup, length_replicate.
      destruct (decide (S i < length v)%nat); [|lia].
      destruct i; [done|]. simpl. by destruct (_ !! i).
  - rewrite list_lookup_alter.
    unfold set_lower_from_1, set_upper_but_last.
    destruct (decide ((length v - 1)%nat = S i)).
    + rewrite list_lookup_alter. destruct (decide (0%nat = (length v - 1)%nat)); [lia|].
      rewrite !list_lookup_imap, lookup_replicate_2 by lia. simpl.
      replace (length v - 1)%nat with (S i) by lia. simpl.
      rewrite Hlo. by destruct (_ !! S i).
    + rewrite list_lookup_alter. destruct (decide (0%nat = S i)); [lia|].
      rewrite !list_lookup_imap, lookup_replicate_2 by lia. simpl.
      rewrite Hlo. reflexivity.
  - intros ->. rewrite list_lookup_alter.
    destruct (decide ((length v - 1)%nat = 0%nat)); [lia|].
    rewrite list_lookup_alter. simpl.
    unfold set_lower_from_1, set_upper_but_last.
    rewrite !list_lookup_imap, lookup_replicate_2 by lia. simpl.
    rewrite Hx in Hv0. rewrite Hy in Hv1. by simplify_eq.
  - intros Hlast. rewrite list_lookup_alter.
    destruct (decide ((length v - 1)%nat = S i)); [|lia].
    replace (length v - 1)%nat with (S i) in * by lia.
    replace (length v - 2)%nat with i in * by lia.
    rewrite list_lookup_alter. destruct (decide (0%nat = S i)); [lia|].
    unfold set_lower_from_1, set_upper_but_last.
    rewrite !list_lookup_imap, lookup_replicate_2 by lia. simpl.
    rewrite Hx in Hxl. rewrite Hy in Hyl. simplify_eq.
    by destruct (_ !! S i), (_ !! i).
Qed.
End BoundsFacts.

Lemma exact_midpoint (x y : Qc) :
  (x + (y - x) / 2 = (x + y) / 2)%Qc ∧ (y - (y - x) / 2 = (x + y) / 2)%Qc.
Proof. split; field; discriminate. Qed.

(** In exact arithmetic adjacent rows share the midpoint. *)
Lemma create_bounds_exact_no_gaps (v : list Qc) :
  (2 ≤ length v)%nat →
  ∃ b, create_bounds_in exact v = Ok b ∧ length b = length v ∧
    ∀ i x y, v !! i = Some x → v !! S i = Some y →
      snd <$> b !! i = Some ((x + y) / 2)%Qc ∧
      fst <$> b !! S i = Some ((x + y) / 2)%Qc.
Proof.
  intros Hn. destruct (create_bounds_in_rows exact v Hn) as (b & Hb & Hlen & Hrows).
  exists b. split; [done|]. split; [done|].
  intros i x y Hx Hy. destruct (Hrows i x y Hx Hy) as (Hu & Hl & _).
  destruct (exact_midpoint x y) as [E1 E2].
  change (snd <$> b !! i = Some (x + (y - x) / 2)%Qc) in Hu.
  change (fst <$> b !! S i = Some (y - (y - x) / 2)%Qc) in Hl.
  rewrite E1 in Hu. rewrite E2 in Hl. done.
Qed.

(** C3, counterexample: in binary64, for the coordinates 0.1 and 0.7 (as
    numpy holds them), the upper bound of the first cell is
    0.4000000000000000222 and the lower bound of the second one is
    0.3999999999999999667: the two roundings of the midpoint differ. *)
Lemma create_bounds_binary64_gap :
  create_bounds [0x1.999999999999ap-4; 0x1.6666666666666p-1]%float
  = Ok [((-0x1.9999999999999p-3)%float, 0x1.999999999999ap-2%float);
        (0x1.9999999999999p-2%float, 0x1p+0%float)]
  ∧ PrimFloat.eqb 0x1.999999999999ap-2 0x1.9999999999999p-2 = false
  ∧ PrimFloat.ltb 0x1.9999999999999p-2 0x1.999999999999ap-2 = true.
Proof. repeat split; vm_compute; reflexivity. Qed.

(** C3 (amended): for every coordinate array of at least two values,
    [create_bounds] returns one [lower, upper] row per value; in the
    binary64 arithmetic it runs in, [upper[i] = v[i] + (v[i+1]-v[i])/2] and
    [lower[i+1] = v[i+1] - (v[i+1]-v[i])/2] for adjacent values,
    [lower[0] = v[0] - (v[1]-v[0])/2] and
    [upper[N-1] = v[N-1] + (v[N-1]-v[N-2])/2]; evaluated without rounding
    (over the rationals) [upper[i]] and [lower[i+1]] are both the midpoint
    [(v[i]+v[i+1])/2]; and [1,2,4,8] yields
    [[0.5,1.5],[1.5,3],[3,6],[6,10]]. *)
Theorem create_bounds_midpoint_rule :
  (∀ v : list float, (2 ≤ length v)%nat →
     ∃ b, create_bounds v = Ok b ∧ length b = length v ∧
       ∀ i x y, v !! i = Some x → v !! S i = Some y →
         snd <$> b !! i = Some (x + (y - x) / 2)%float ∧
         fst <$> b !! S i = Some (y - (y - x) / 2)%float ∧
         (i = 0%nat → fst <$> b !! i = Some (x - (y - x) / 2)%float) ∧
         (S (S i) = length v → snd <$> b !! S i = Some (y + (y - x) / 2)%float))
  ∧ (∀ v : list Qc, (2 ≤ length v)%nat →
       ∃ b, create_bounds_in exact v = Ok b ∧ length b = length v ∧
         ∀ i x y, v !! i = Some x → v !! S i = Some y →
           snd <$> b !! i = Some ((x + y) / 2)%Qc ∧
           fst <$> b !! S i = Some ((x + y) / 2)%Qc)
  ∧ create_bounds [1; 2; 4; 8]%float
    = Ok [(0.5, 1.5); (1.5, 3); (3, 6); (6, 10)]%float.
Proof.
  split; [|split].
  - intros v Hn. exact (create_bounds_in_rows f64 v Hn).
  - exact create_bounds_exact_no_gaps.
  - vm_compute. reflexivity.
Qed.

Lemma create_bounds_midpoint_rule_witness :
  ∃ b, create_bounds [1; 2; 4; 8]%float = Ok b ∧ length b = 4%nat ∧
    ∀ i x y, [1; 2; 4; 8]%float !! i = Some x → [1; 2; 4; 8]%float !! S i = Some y →
      snd <$> b !! i = Some (x + (y - x) / 2)%float ∧
      fst <$> b !! S i = Some (y - (y - x) / 2)%float ∧
      (i = 0%nat → fst <$> b !! i = Some (x - (y - x) / 2)%float) ∧
      (S (S i) = 4%nat → snd <$> b !! S i = Some (y + (y - x) / 2)%float).
Proof.
  apply (proj1 create_bounds_midpoint_rule [1; 2; 4; 8]%float). simpl. lia.
Defined.

(** ** Datasets: lookups, in-place updates and the cleanup relation *)

Lemma lookup_var_is_Some name l : is_Some (lookup_var name l) ↔ name ∈ l.*1.
Proof.
  induction l as [|[k v] l IH]; simpl.
  - split; [intros [? [=]] | by intros ?%elem_of_nil].
  - rewrite elem_of_cons. destruct (String.eqb_spec k name) as [->|Hne].
    + split; eauto.
    + rewrite IH. split; [by right | intros [->|]; [done | done]].
Qed.

Lemma lookup_var_None name l : lookup_var name l = None ↔ name ∉ l.*1.
Proof. rewrite <- lookup_var_is_Some, eq_None_not_Some. done. Qed.

Lemma lookup_var_elem_of name v l : lookup_var name l = Some v → (name, v) ∈ l.
Proof.
  induction l as [|[k w] l IH]; simpl; [done|].
  destruct (String.eqb_spec k name) as [->|Hne].
  - intros [= ->]. left.
  - intros H. right. by apply IH.
Qed.

Lemma lookup_update_var ds k f n :
  lookup_var n (variables (update_var ds k f)) =
  if String.eqb k n then f <$> lookup_var n (variables ds)
  else lookup_var n (variables ds).
Proof.
  unfold update_var. simpl. induction (variables ds) as [|[k' v] l IH]; simpl.
  - by destruct (String.eqb k n).
  - destruct (String.eqb_spec k' k) as [->|Hk]; simpl.
    + destruct (String.eqb_spec k n) as [->|Hn]; [done|]. exact IH.
    + destruct (String.eqb_spec k' n) as [->|Hn].
      * destruct (String.eqb_spec k n) as [->|]; [done|done].
      * exact IH.
Qed.

Lemma names_update_var ds k f : names (update_var ds k f) = names ds.
Proof.
  unfold names, update_var. simpl. rewrite <- list_fmap_compose.
  apply list_fmap_ext. intros i [k' v] _. simpl. by destruct (String.eqb k' k).
Qed.

Lemma var_cleaned_refl main n v : var_cleaned main n v v.
Proof. unfold var_cleaned. naive_solver. Qed.

Lemma var_cleaned_trans main n v1 v2 v3 :
  var_cleaned main n v1 v2 → var_cleaned main n v2 v3 → var_cleaned main n v1 v3.
Proof.
  intros (?&?&?&?&Ha&Hc) (?&?&?&?&Ha'&Hc'). unfold var_cleaned.
  repeat split; try congruence.
  - intros k Hk. rewrite Ha', Ha; done.
  - destruct Hc' as [E|[? E]]; [rewrite E; exact Hc | right; done].
Qed.

Lemma cleaned_refl main ds : cleaned main ds ds.
Proof.
  repeat split. intros n. destruct (lookup_var n _); constructor.
  apply var_cleaned_refl.
Qed.

Lemma cleaned_trans main d1 d2 d3 :
  cleaned main d1 d2 → cleaned main d2 d3 → cleaned main d1 d3.
Proof.
  intros (?&?&?&H12) (?&?&?&H23). repeat split; try congruence.
  intros n. specialize (H12 n). specialize (H23 n).
  destruct H12; inversion H23; subst; constructor.
  eapply var_cleaned_trans; eauto.
Qed.

Lemma drop_rogue_coordinates_cleaned main n ds :
  cleaned main ds (drop_rogue_coordinates main n ds).
Proof.
  unfold drop_rogue_coordinates.
  destruct (lookup_var n (variables ds)) as [da|] eqn:Hda; [|apply cleaned_refl].
  destruct (bool_decide _ && negb _) eqn:Hc; [|apply cleaned_refl].
  apply andb_true_iff in Hc as [_ Hne%negb_true_iff%String.eqb_neq].
  split; [apply names_update_var|]. repeat split.
  intros m. rewrite lookup_update_var.
  destruct (String.eqb_spec n m) as [->|Hm].
  - rewrite Hda. simpl. constructor. unfold var_cleaned, del_attr. simpl.
    repeat split; try done.
    + intros k Hk. by rewrite lookup_delete_ne.
    + right. split; [done|]. apply lookup_delete_eq.
  - destruct (lookup_var m _); constructor. apply var_cleaned_refl.
Qed.

Lemma cleaned_no_fill_value main ds ds' n :
  cleaned main ds ds' → no_fill_value ds' n = no_fill_value ds n.
Proof. intros (_&Hc&_). unfold no_fill_value. by rewrite Hc. Qed.

Lemma cleaned_shape_of main ds ds' n :
  cleaned main ds ds' → shape_of ds' n = shape_of ds n.
Proof.
  intros (_&_&_&H). unfold shape_of. specialize (H n).
  destruct H as [v v' (_&Hs&_)|]; simpl; congruence.
Qed.

(** The encoding loops, for any per-variable rule [E] that does not look at
    [coordinates] attributes. *)
Section EncodingLoop.
Context (main : string) (E : Dataset → string → gmap string pyval).
Context (E_cleaned : ∀ ds ds' n, cleaned main ds ds' → E ds' n = E ds n).

Lemma encoding_loop l : ∀ ds0 ds enc,
  cleaned main ds0 ds →
  let r := foldl (loop_step main E) (ds, enc) l in
  cleaned main ds0 r.1 ∧
  ∀ n, r.2 !! n = if bool_decide (n ∈ l) then Some (E ds0 n) else enc !! n.
Proof.
  induction l as [|x l IH]; intros ds0 ds enc Hc; cbn [foldl].
  - split; [done|]. intros n. cbn [snd]. case_bool_decide as Hn; [|done].
    by apply elem_of_nil in Hn.
  - change (loop_step main E (ds, enc) x)
      with (drop_rogue_coordinates main x ds, <[x := E ds x]> enc).
    destruct (IH ds0 (drop_rogue_coordinates main x ds) (<[x := E ds x]> enc))
      as [Hc' Hl].
    { eapply cleaned_trans; [exact Hc|]. apply drop_rogue_coordinates_cleaned. }
    split; [exact Hc'|]. intros n. rewrite (Hl n).
    destruct (decide (n ∈ l)) as [Hin|Hin].
    + rewrite !bool_decide_eq_true_2; [done| |done]. by right.
    + rewrite (bool_decide_eq_false_2 (n ∈ l)) by done.
      destruct (decide (n = x)) as [->|Hne].
      * rewrite bool_decide_eq_true_2 by left.
        rewrite lookup_insert_eq. f_equal. by apply E_cleaned.
      * rewrite bool_decide_eq_false_2.
        -- by rewrite lookup_insert_ne.
        -- intros [?|?]%elem_of_cons; done.
Qed.
End EncodingLoop.

Lemma foldl_ext_eq {S X} (f g : S → X → S) (l : list X) (s : S) :
  (∀ s x, f s x = g s x) → foldl f s l = foldl g s l.
Proof.
  intros H. revert s. induction l as [|x l IH]; intros s; simpl; [done|].
  by rewrite H, IH.
Qed.

Lemma direct_var_encoding_cleaned main t ds ds' n :
  cleaned main ds ds' → direct_var_encoding t ds' n = direct_var_encoding t ds n.
Proof.
  intros Hc. unfold direct_var_encoding, suppress_fill_value.
  by rewrite (cleaned_no_fill_value main ds ds' n Hc).
Qed.

Lemma regrid_var_encoding_cleaned main t ds ds' n :
  cleaned main ds ds' → regrid_var_encoding t ds' n = regrid_var_encoding t ds n.
Proof.
  intros Hc. unfold regrid_var_encoding, suppress_fill_value.
  by rewrite (cleaned_no_fill_value main ds ds' n Hc),
             (cleaned_shape_of main ds ds' n Hc).
Qed.

(** The direct-replacement loop: the dataset is only cleaned, and every
    variable gets its entry. *)
Lemma direct_loop t main ds :
  let r := foldl (direct_encode_step t main) (ds, ∅) (names ds) in
  cleaned main ds r.1 ∧
  ∀ n, r.2 !! n = if bool_decide (n ∈ names ds)
                  then Some (direct_var_encoding t ds n) else None.
Proof.
  rewrite (foldl_ext_eq _ (loop_step main (direct_var_encoding t))).
  - destruct (encoding_loop main (direct_var_encoding t)
                (direct_var_encoding_cleaned main t) (names ds) ds ds ∅
                (cleaned_refl main ds)) as [Hc Hl].
    split; [exact Hc|]. intros n. rewrite (Hl n). by rewrite lookup_empty.
  - by intros [d e] x.
Qed.

Lemma regrid_loop t main ds :
  let r := foldl (regrid_encode_step t main) (ds, ∅) (names ds) in
  cleaned main ds r.1 ∧
  ∀ n, r.2 !! n = if bool_decide (n ∈ names ds)
                  then Some (regrid_var_encoding t ds n) else None.
Proof.
  rewrite (foldl_ext_eq _ (loop_step main (regrid_var_encoding t))).
  - destruct (encoding_loop main (regrid_var_encoding t)
                (regrid_var_encoding_cleaned main t) (names ds) ds ds ∅
                (cleaned_refl main ds)) as [Hc Hl].
    split; [exact Hc|]. intros n. rewrite (Hl n). by rewrite lookup_empty.
  - by intros [d e] x.
Qed.

Lemma demote_height_Ok ds ds' :
  demote_height ds = Ok ds' →
  variables ds' = variables ds ∧ global_attrs ds' = global_attrs ds ∧
  ("height" ∉ coords ds') ∧
  (∀ n, n ≠ "height" → n ∈ coords ds' ↔ n ∈ coords ds).
Proof.
  unfold demote_height, reset_coords. case_bool_decide as Hh.
  - destruct (is_index ds "height"); [done|]. intros [= <-]. simpl.
    split; [done|]. split; [done|]. split.
    + rewrite elem_of_difference, elem_of_singleton. by intros [_ []].
    + intros n Hn. rewrite elem_of_difference, elem_of_singleton.
      split; [by intros [? _] | by intros ?].
  - intros [= <-]. done.
Qed.

(** What a successful run of the direct-replacement body has done. *)
Lemma cmorize_dataset_Ok now u t ov c :
  cmorize_dataset now u t ov = Ok c →
  ∃ main tv ds1,
    variable_id_in (global_attrs t) (data_vars t).*1 = Some main ∧
    lookup_var main (variables t) = Some tv ∧
    a_shape u = shape tv ∧
    demote_height
      (rewrite_history now direct_what t
         (set_global_attrs (apply_overrides ov (global_attrs t))
            (update_var t main (set_values (a_shape u) (a_values u))))) = Ok ds1 ∧
    cleaned main ds1 (w_ds c) ∧
    (∀ n, w_encoding c !! n = if bool_decide (n ∈ names ds1)
                              then Some (direct_var_encoding t ds1 n) else None) ∧
    w_unlimited c = ["time"].
Proof.
  unfold cmorize_dataset.
  destruct (variable_id_in _ _) as [main|] eqn:Hmain; [|done].
  unfold getitem. destruct (lookup_var main (variables t)) as [tv|] eqn:Htv; [|done].
  simpl. case_bool_decide as Hsh; [done|].
  destruct (demote_height _) as [ds1|] eqn:Hd; [|done]. simpl.
  pose proof (direct_loop t main ds1) as Hloop.
  destruct (foldl _ _ _) as [ds2 enc]. simpl in Hloop. destruct Hloop as [Hc Hl].
  intros [= <-]. exists main, tv, ds1. simpl. done.
Qed.

(** What a successful run of [create_cmor_file]'s body has done. *)
Lemma create_cmor_dataset_Ok now t rg ov c :
  create_cmor_dataset now t rg ov = Ok c →
  ∃ main ds_h ds_b ds1,
    resolve_main_var t rg = Ok main ∧
    process_height t main
      (copy_template_vars t
         (restore_missing_value t main
            (copy_variable_attrs t (set_global_attrs (global_attrs t) rg)))) = Ok ds_h ∧
    create_lat_lon_bounds ds_h = Ok ds_b ∧
    demote_height
      (rewrite_history now regrid_what t
         (set_global_attrs (apply_overrides_existing ov (global_attrs ds_b)) ds_b))
      = Ok ds1 ∧
    cleaned main ds1 (w_ds c) ∧
    (∀ n, w_encoding c !! n = if bool_decide (n ∈ names ds1)
                              then Some (regrid_var_encoding t ds1 n) else None) ∧
    w_unlimited c = ["time"].
Proof.
  unfold create_cmor_dataset.
  destruct (resolve_main_var t rg) as [main|] eqn:Hmain; [|done]. simpl.
  destruct (process_height _ _ _) as [ds_h|] eqn:Hh; [|done]. simpl.
  destruct (create_lat_lon_bounds ds_h) as [ds_b|] eqn:Hb; [|done]. simpl.
  destruct (demote_height _) as [ds1|] eqn:Hd; [|done]. simpl.
  pose proof (regrid_loop t main ds1) as Hloop.
  destruct (foldl _ _ _) as [ds2 enc]. simpl in Hloop. destruct Hloop as [Hc Hl].
  intros [= <-]. exists main, ds_h, ds_b, ds1. simpl. done.
Qed.

(** The level-subset loop: every variable gets the entry computed for it,
    and no computation has raised. *)
Lemma subset_loop ds sub main l : ∀ enc enc',
  foldM_result (subset_encode_step ds sub main) enc l = Ok enc' →
  ∀ n, if bool_decide (n ∈ l)
       then ∃ e, subset_var_encoding ds sub main n = Ok e ∧ enc' !! n = Some e
       else enc' !! n = enc !! n.
Proof.
  induction l as [|x l IH]; intros enc enc'; cbn [foldM_result].
  - intros [= <-] n. rewrite bool_decide_eq_false_2; [done|]. by intros ?%elem_of_nil.
  - unfold subset_encode_step at 1.
    destruct (subset_var_encoding ds sub main x) as [e|] eqn:He; [|done]. simpl.
    intros Hf n. specialize (IH _ _ Hf n).
    destruct (decide (n ∈ l)) as [Hin|Hin].
    + rewrite bool_decide_eq_true_2 in IH by done.
      rewrite bool_decide_eq_true_2; [done|]. by right.
    + rewrite bool_decide_eq_false_2 in IH by done.
      destruct (decide (n = x)) as [->|Hne].
      * rewrite bool_decide_eq_true_2 by left. exists e. split; [done|].
        by rewrite IH, lookup_insert_eq.
      * rewrite bool_decide_eq_false_2.
        -- by rewrite IH, lookup_insert_ne.
        -- intros [?|?]%elem_of_cons; done.
Qed.

Lemma level_subset_Ok ds main levels c :
  level_subset ds main levels = Ok c →
  ∃ sub, sel_nearest ds "plev" levels = Ok sub ∧
    w_ds c = strip_bounds_coordinates (restore_missing_value_subset ds main sub) ∧
    (∀ n, n ∈ names (w_ds c) →
       ∃ e, subset_var_encoding ds (w_ds c) main n = Ok e ∧
            w_encoding c !! n = Some e) ∧
    w_unlimited c = ["time"].
Proof.
  unfold level_subset.
  destruct (sel_nearest ds "plev" levels) as [sub|] eqn:Hsel; [|done]. simpl.
  destruct (foldM_result _ _ _) as [enc|] eqn:Hf; [|done]. simpl.
  intros [= <-]. exists sub. simpl. repeat split; try done.
  intros n Hn. pose proof (subset_loop _ _ _ _ _ _ Hf n) as H.
  by rewrite bool_decide_eq_true_2 in H.
Qed.

(** The entry points, unfolded. *)
Lemma cmorize_data_with_template_run now u tp op ov w :
  cmorize_data_with_template now u tp op ov w =
  match disk w !! tp with
  | None => (Raise (EFileNotFound tp), w)
  | Some t => match cmorize_dataset now u t ov with
              | Ok c => to_netcdf op c w
              | Raise e => (Raise e, w)
              end
  end.
Proof.
  unfold cmorize_data_with_template, mbind, open_dataset, lift.
  destruct (disk w !! tp); [|done]. by destruct (cmorize_dataset _ _ _ _).
Qed.

Lemma create_cmor_file_run now t rg op ov w :
  create_cmor_file now t rg op ov w =
  match create_cmor_dataset now t rg ov with
  | Ok c => to_netcdf op c w
  | Raise e => (Raise e, w)
  end.
Proof.
  unfold create_cmor_file, mbind, lift. by destruct (create_cmor_dataset _ _ _ _).
Qed.

Lemma to_netcdf_written op c w r w' c' :
  to_netcdf op c w = (r, w') → written w !! op = None →
  written w' !! op = Some c' → c' = c.
Proof.
  unfold to_netcdf. destruct (unwritable w !! op).
  - intros [= _ <-] Hn Hs. congruence.
  - intros [= _ <-] _. simpl. rewrite lookup_insert_eq. congruence.
Qed.

Lemma print_written rp w : written (print rp w).2 = written w.
Proof. done. Qed.

Lemma report_failure_written i e w : written (report_failure i e w).2 = written w.
Proof. unfold report_failure. by destruct (class_of e). Qed.

(** A file the multi-level program wrote is a product of [level_subset]. *)
Lemma process_netcdf_file_written i o lv w r w' c :
  process_netcdf_file i o lv w = (r, w') →
  written w !! o = None → written w' !! o = Some c →
  ∃ ds main, disk w !! i = Some ds ∧ detect_main_var ds = Some main ∧
    main ≠ "" ∧ level_subset ds main lv = Ok c.
Proof.
  unfold process_netcdf_file, try_except, process_netcdf_body, mbind, open_dataset, lift.
  destruct (disk w !! i) as [ds|] eqn:Hds.
  - destruct (detect_main_var ds) as [main|] eqn:Hm.
    + destruct (String.eqb_spec main "") as [->|Hne].
      * simpl. intros [= _ <-] Hn. simpl. congruence.
      * destruct (level_subset ds main lv) as [c0|e] eqn:Hl.
        -- destruct (to_netcdf o c0 w) as [[[]|e] w1] eqn:Hw.
           ++ intros [= _ <-] Hn Hs.
              rewrite (to_netcdf_written _ _ _ _ _ _ Hw Hn Hs). by exists ds, main.
           ++ intros Hr Hn Hs. exfalso.
              unfold to_netcdf in Hw. destruct (unwritable w !! o); [|done].
              injection Hw as _ <-.
              pose proof (report_failure_written i e w) as Hrw.
              rewrite Hr in Hrw. simpl in Hrw. congruence.
        -- intros Hr Hn Hs. exfalso.
           pose proof (report_failure_written i e w) as Hrw.
           rewrite Hr in Hrw. simpl in Hrw. congruence.
    + simpl. intros [= _ <-] Hn. simpl. congruence.
  - intros Hr Hn Hs. exfalso.
    pose proof (report_failure_written i (EFileNotFound i) w) as Hrw.
    rewrite Hr in Hrw. simpl in Hrw. congruence.
Qed.

Lemma extract_pressure_level_written i o p w r w' c :
  extract_pressure_level i o p w = (r, w') →
  written w !! o = None → written w' !! o = Some c →
  ∃ ds, disk w !! i = Some ds ∧ "plev" ∈ coords ds ∧
    level_subset ds "zg" [p] = Ok c.
Proof.
  unfold extract_pressure_level, try_except, extract_pressure_body, mbind,
    open_dataset, lift.
  destruct (disk w !! i) as [ds|] eqn:Hds.
  - case_bool_decide as Hp.
    + simpl. intros [= _ <-] Hn. simpl. congruence.
    + destruct (level_subset ds "zg" [p]) as [c0|e] eqn:Hl.
      * destruct (to_netcdf o c0 w) as [[[]|e] w1] eqn:Hw.
        -- intros [= _ <-] Hn Hs.
           rewrite (to_netcdf_written _ _ _ _ _ _ Hw Hn Hs). by exists ds.
        -- intros Hr Hn Hs. exfalso.
           unfold to_netcdf in Hw. destruct (unwritable w !! o); [|done].
           injection Hw as _ <-.
           pose proof (report_failure_written i e w) as Hrw.
           rewrite Hr in Hrw. simpl in Hrw. congruence.
      * intros Hr Hn Hs. exfalso.
        pose proof (report_failure_written i e w) as Hrw.
        rewrite Hr in Hrw. simpl in Hrw. congruence.
  - intros Hr Hn Hs. exfalso.
    pose proof (report_failure_written i (EFileNotFound i) w) as Hrw.
    rewrite Hr in Hrw. simpl in Hrw. congruence.
Qed.

(** ** What the encoding loops do to the attributes *)

(** A variable of the dataset before the loop, seen after it. *)
Lemma cleaned_lookup main d d' n v :
  cleaned main d d' → lookup_var n (variables d) = Some v →
  ∃ v', lookup_var n (variables d') = Some v' ∧ var_cleaned main n v v'.
Proof.
  intros (_ & _ & _ & H) Hv. specialize (H n). rewrite Hv in H.
  inversion H as [? v' Hvc|]; subst. by exists v'.
Qed.

Lemma cmorize_dataset_product now u t ov c :
  cmorize_dataset now u t ov = Ok c →
  ∃ main tv ds1,
    variable_id_in (global_attrs t) (data_vars t).*1 = Some main ∧
    lookup_var main (variables t) = Some tv ∧
    demote_height
      (rewrite_history now direct_what t
         (set_global_attrs (apply_overrides ov (global_attrs t))
            (update_var t main (set_values (a_shape u) (a_values u))))) = Ok ds1 ∧
    w_ds c = (foldl (loop_step main (direct_var_encoding t)) (ds1, ∅) (names ds1)).1.
Proof.
  unfold cmorize_dataset.
  destruct (variable_id_in _ _) as [main|] eqn:Hmain; [|done].
  unfold getitem. destruct (lookup_var main (variables t)) as [tv|] eqn:Htv; [|done].
  simpl. case_bool_decide as Hsh; [done|].
  destruct (demote_height _) as [ds1|] eqn:Hd; [|done]. simpl.
  rewrite (foldl_ext_eq _ (loop_step main (direct_var_encoding t)))
    by (by intros [d e] x).
  destruct (foldl _ _ _) as [ds2 enc] eqn:Hf.
  intros [= <-]. exists main, tv, ds1. rewrite Hf. done.
Qed.

Lemma create_cmor_dataset_product now t rg ov c :
  create_cmor_dataset now t rg ov = Ok c →
  ∃ main ds_h ds_b ds1,
    resolve_main_var t rg = Ok main ∧
    process_height t main
      (copy_template_vars t
         (restore_missing_value t main
            (copy_variable_attrs t (set_global_attrs (global_attrs t) rg)))) = Ok ds_h ∧
    create_lat_lon_bounds ds_h = Ok ds_b ∧
    demote_height
      (rewrite_history now regrid_what t
         (set_global_attrs (apply_overrides_existing ov (global_attrs ds_b)) ds_b))
      = Ok ds1 ∧
    w_ds c = (foldl (loop_step main (regrid_var_encoding t)) (ds1, ∅) (names ds1)).1.
Proof.
  unfold create_cmor_dataset.
  destruct (resolve_main_var t rg) as [main|] eqn:Hmain; [|done]. simpl.
  destruct (process_height _ _ _) as [ds_h|] eqn:Hh; [|done]. simpl.
  destruct (create_lat_lon_bounds ds_h) as [ds_b|] eqn:Hb; [|done]. simpl.
  destruct (demote_height _) as [ds1|] eqn:Hd; [|done]. simpl.
  rewrite (foldl_ext_eq _ (loop_step main (regrid_var_encoding t)))
    by (by intros [d e] x).
  destruct (foldl _ _ _) as [ds2 enc] eqn:Hf.
  intros [= <-]. exists main, ds_h, ds_b, ds1. rewrite Hf. done.
Qed.

Lemma drop_rogue_coordinates_gone main n ds :
  n ≠ main → var_attr (drop_rogue_coordinates main n ds) n "coordinates" = None.
Proof.
  intros Hne. unfold drop_rogue_coordinates.
  destruct (lookup_var n (variables ds)) as [da|] eqn:Hda.
  - apply String.eqb_neq in Hne. rewrite Hne. simpl. rewrite andb_true_r.
    case_bool_decide as Hc.
    + unfold var_attr. rewrite lookup_update_var, String.eqb_refl, Hda. simpl.
      apply lookup_delete_eq.
    + unfold var_attr. rewrite Hda. simpl.
      by apply eq_None_not_Some.
  - unfold var_attr. by rewrite Hda.
Qed.

Lemma cleaned_coordinates_gone main d d' n :
  cleaned main d d' → var_attr d n "coordinates" = None →
  var_attr d' n "coordinates" = None.
Proof.
  intros (_ & _ & _ & H). unfold var_attr. specialize (H n).
  destruct H as [v v' (_ & _ & _ & _ & _ & Hc)|]; simpl; [|done].
  intros Hn. destruct Hc as [->|[_ ->]]; done.
Qed.

Lemma cleaned_main_attr main d d' key :
  cleaned main d d' → var_attr d' main key = var_attr d main key.
Proof.
  intros (_ & _ & _ & H). unfold var_attr. specialize (H main).
  destruct H as [v v' (_ & _ & _ & _ & Ha & Hc)|]; simpl; [|done].
  destruct (decide (key = "coordinates")) as [->|Hk]; [|by apply Ha].
  by destruct Hc as [->|[? _]].
Qed.

Section LoopCleanup.
Context (main : string) (E : Dataset → string → gmap string pyval).
Context (E_cleaned : ∀ ds ds' n, cleaned main ds ds' → E ds' n = E ds n).

Lemma loop_coordinates_gone l : ∀ ds enc n,
  n ∈ l → n ≠ main →
  var_attr (foldl (loop_step main E) (ds, enc) l).1 n "coordinates" = None.
Proof.
  induction l as [|x l IH]; intros ds enc n Hin Hne; [by apply elem_of_nil in Hin|].
  cbn [foldl].
  change (loop_step main E (ds, enc) x)
    with (drop_rogue_coordinates main x ds, <[x := E ds x]> enc).
  destruct (decide (n = x)) as [->|Hx].
  - destruct (encoding_loop main E E_cleaned l
                (drop_rogue_coordinates main x ds)
                (drop_rogue_coordinates main x ds) (<[x := E ds x]> enc)
                (cleaned_refl _ _)) as [Hc _].
    eapply cleaned_coordinates_gone; [exact Hc|].
    by apply drop_rogue_coordinates_gone.
  - apply IH; [|done]. apply elem_of_cons in Hin as [?|?]; done.
Qed.
End LoopCleanup.

(** The direct-replacement loop leaves no [coordinates] attribute on a
    variable other than the main one. *)
Lemma direct_loop_strips_coordinates now u t ov c main n :
  cmorize_dataset now u t ov = Ok c →
  variable_id_in (global_attrs t) (data_vars t).*1 = Some main →
  n ≠ main → var_attr (w_ds c) n "coordinates" = None.
Proof.
  intros Hc Hm Hne.
  destruct (cmorize_dataset_product _ _ _ _ _ Hc)
    as (main' & tv & ds1 & Hm' & _ & _ & ->).
  rewrite Hm in Hm'. injection Hm' as <-.
  destruct (decide (n ∈ names ds1)) as [Hin|Hin].
  - by apply (loop_coordinates_gone main _ (direct_var_encoding_cleaned main t)).
  - destruct (encoding_loop main _ (direct_var_encoding_cleaned main t)
                (names ds1) ds1 ds1 ∅ (cleaned_refl _ _)) as [(Hn & _) _].
    unfold var_attr.
    rewrite (proj2 (lookup_var_None n _)); [done|].
    fold (names (foldl (loop_step main (direct_var_encoding t)) (ds1, ∅) (names ds1)).1).
    by rewrite Hn.
Qed.

(** ** Strings and the whitelist *)

Lemma prefix_refl s : String.prefix s s = true.
Proof.
  induction s as [|a s IH]; simpl; [done|].
  destruct (Ascii.ascii_dec a a); [exact IH | done].
Qed.

Lemma prefix_app s t : String.prefix s (s +:+ t) = true.
Proof.
  induction s as [|a s IH]; simpl; [by destruct t|].
  destruct (Ascii.ascii_dec a a); [exact IH | done].
Qed.

Lemma contains_app pre sub : contains sub (pre +:+ sub) = true.
Proof.
  induction pre as [|a pre IH]; simpl.
  - destruct sub; simpl; [done|]. rewrite prefix_refl.
    destruct (Ascii.ascii_dec _ _); done.
  - rewrite IH. apply orb_true_r.
Qed.

Lemma keep_valid_lookup e k :
  k ∈ valid_keys → keep_valid e !! k = e !! k.
Proof.
  intros Hk. unfold keep_valid. rewrite map_lookup_filter.
  destruct (e !! k) as [x|]; [|done]. simpl.
  rewrite option_guard_True; done.
Qed.

Lemma fill_value_valid : "_FillValue" ∈ valid_keys.
Proof. unfold valid_keys. set_solver. Qed.

Lemma chunksizes_valid : "chunksizes" ∈ valid_keys.
Proof. unfold valid_keys. set_solver. Qed.

Lemma no_fill_value_rule ds name :
  name ∈ coords ds ∨ is_bnds name ∨ name = "height" →
  no_fill_value ds name = true.
Proof.
  unfold no_fill_value. intros [Hc|[[pre ->]| ->]].
  - by rewrite bool_decide_eq_true_2.
  - rewrite contains_app. by rewrite orb_true_r.
  - by rewrite orb_true_r.
Qed.

Lemma clamp_or_drop_chunks_other sh e k :
  k ≠ "chunksizes" → clamp_or_drop_chunks sh e !! k = e !! k.
Proof.
  intros Hk. unfold clamp_or_drop_chunks.
  destruct (e !! "chunksizes") as [ch|]; [|done].
  destruct (is_none ch); [done|].
  destruct (clamp_chunks ch sh) as [[new|]|].
  - by rewrite lookup_insert_ne.
  - by rewrite lookup_delete_ne.
  - by rewrite lookup_delete_ne.
Qed.

Lemma direct_var_encoding_fill t ds name :
  no_fill_value ds name = true →
  direct_var_encoding t ds name !! "_FillValue" = Some PNone.
Proof.
  intros H. unfold direct_var_encoding, suppress_fill_value. rewrite H.
  rewrite keep_valid_lookup by apply fill_value_valid. apply lookup_insert_eq.
Qed.

Lemma regrid_var_encoding_fill t ds name :
  no_fill_value ds name = true →
  regrid_var_encoding t ds name !! "_FillValue" = Some PNone.
Proof.
  intros H. unfold regrid_var_encoding, suppress_fill_value. rewrite H.
  rewrite keep_valid_lookup by apply fill_value_valid.
  rewrite clamp_or_drop_chunks_other by done. apply lookup_insert_eq.
Qed.

Lemma subset_var_encoding_fill ds sub main name e :
  subset_var_encoding ds sub main name = Ok e → name ≠ main →
  e !! "_FillValue" = Some PNone.
Proof.
  unfold subset_var_encoding. destruct (getitem ds name) as [orig|]; [|done]. simpl.
  destruct (adjust_chunks _ _ _) as [ve|]; [|done]. simpl.
  intros [= <-] Hne. apply String.eqb_neq in Hne. rewrite Hne. simpl.
  apply lookup_insert_eq.
Qed.

(** ** C1: fill-value suppression *)

(** C1 (amended): in every file the direct-replacement and the regrid
    programs write, each coordinate, each variable named [*_bnds] and
    [height] has [_FillValue] set to [None] in the encoding map given to the
    serializer; in every file the two level-subset programs write, each
    variable other than the main variable (the first data variable along
    [plev], respectively [zg]) has. *)
Theorem fill_value_suppressed :
  (∀ now u tp op ov w r w' c name,
     cmorize_data_with_template now u tp op ov w = (r, w') →
     written w !! op = None → written w' !! op = Some c →
     name ∈ names (w_ds c) →
     name ∈ coords (w_ds c) ∨ is_bnds name ∨ name = "height" →
     fill_suppressed c name)
  ∧ (∀ now t rg op ov w r w' c name,
       create_cmor_file now t rg op ov w = (r, w') →
       written w !! op = None → written w' !! op = Some c →
       name ∈ names (w_ds c) →
       name ∈ coords (w_ds c) ∨ is_bnds name ∨ name = "height" →
       fill_suppressed c name)
  ∧ (∀ i o lv w r w' ds c name,
       process_netcdf_file i o lv w = (r, w') →
       written w !! o = None → written w' !! o = Some c →
       disk w !! i = Some ds →
       name ∈ names (w_ds c) → detect_main_var ds ≠ Some name →
       fill_suppressed c name)
  ∧ (∀ i o p w r w' c name,
       extract_pressure_level i o p w = (r, w') →
       written w !! o = None → written w' !! o = Some c →
       name ∈ names (w_ds c) → name ≠ "zg" →
       fill_suppressed c name).
Proof.
  repeat split.
  - intros now u tp op ov w r w' c name Hrun Hn Hs Hin Hrule.
    rewrite cmorize_data_with_template_run in Hrun.
    destruct (disk w !! tp) as [t|]; [|injection Hrun as _ <-; congruence].
    destruct (cmorize_dataset now u t ov) as [c0|] eqn:Hc;
      [|injection Hrun as _ <-; congruence].
    rewrite (to_netcdf_written _ _ _ _ _ _ Hrun Hn Hs) in *.
    destruct (cmorize_dataset_Ok _ _ _ _ _ Hc)
      as (main & tv & ds1 & _ & _ & _ & _ & (Hnames & Hcoords & _) & Henc & _).
    exists (direct_var_encoding t ds1 name). split.
    + rewrite Henc, bool_decide_eq_true_2; [done|]. by rewrite <- Hnames.
    + apply direct_var_encoding_fill, no_fill_value_rule. by rewrite <- Hcoords.
  - intros now t rg op ov w r w' c name Hrun Hn Hs Hin Hrule.
    rewrite create_cmor_file_run in Hrun.
    destruct (create_cmor_dataset now t rg ov) as [c0|] eqn:Hc;
      [|injection Hrun as _ <-; congruence].
    rewrite (to_netcdf_written _ _ _ _ _ _ Hrun Hn Hs) in *.
    destruct (create_cmor_dataset_Ok _ _ _ _ _ Hc)
      as (main & ? & ? & ds1 & _ & _ & _ & _ & (Hnames & Hcoords & _) & Henc & _).
    exists (regrid_var_encoding t ds1 name). split.
    + rewrite Henc, bool_decide_eq_true_2; [done|]. by rewrite <- Hnames.
    + apply regrid_var_encoding_fill, no_fill_value_rule. by rewrite <- Hcoords.
  - intros i o lv w r w' ds c name Hrun Hn Hs Hds Hin Hmain.
    destruct (process_netcdf_file_written _ _ _ _ _ _ _ Hrun Hn Hs)
      as (ds' & main & Hds' & Hdet & _ & Hl).
    rewrite Hds in Hds'. injection Hds' as <-.
    destruct (level_subset_Ok _ _ _ _ Hl) as (sub & _ & _ & Henc & _).
    destruct (Henc name Hin) as (e & He & Hlk). exists e. split; [done|].
    apply (subset_var_encoding_fill _ _ _ _ _ He). congruence.
  - intros i o p w r w' c name Hrun Hn Hs Hin Hmain.
    destruct (extract_pressure_level_written _ _ _ _ _ _ _ Hrun Hn Hs)
      as (ds & _ & _ & Hl).
    destruct (level_subset_Ok _ _ _ _ Hl) as (sub & _ & _ & Henc & _).
    destruct (Henc name Hin) as (e & He & Hlk). exists e. split; [done|].
    by apply (subset_var_encoding_fill _ _ _ _ _ He).
Qed.

(** C1, counterexample: a file whose first data variable along [plev] is
    [plev_bnds].  [process_netcdf_file] takes it for the main variable and
    leaves its fill value, 1e20, in the encoding map it writes. *)
Lemma fill_value_kept_on_plev_bnds :
  let ds := Sample.levels_file [("plev_bnds", Sample.plev_bnds)]
              {["_FillValue" := PFloat 1e20]} in
  let w' := (process_netcdf_file "in.nc" "out.nc" [50000]%float
               (Sample.world_with "in.nc" ds)).2 in
  detect_main_var ds = Some "plev_bnds" ∧
  is_bnds "plev_bnds" ∧
  (names ∘ w_ds <$> written w' !! "out.nc")
    = Some ["time"; "plev"; "lat"; "lon"; "plev_bnds"; "zg"] ∧
  (c ← written w' !! "out.nc"; e ← w_encoding c !! "plev_bnds"; e !! "_FillValue")
    = Some (PFloat 1e20) ∧
  ¬ (∃ c, written w' !! "out.nc" = Some c ∧ fill_suppressed c "plev_bnds").
Proof.
  cbv zeta. split; [by vm_compute|]. split; [by exists "plev"|].
  split; [by vm_compute|].
  assert (H : (c ← written (process_netcdf_file "in.nc" "out.nc" [50000]%float
                     (Sample.world_with "in.nc"
                        (Sample.levels_file [("plev_bnds", Sample.plev_bnds)]
                           {["_FillValue" := PFloat 1e20]}))).2 !! "out.nc";
               e ← w_encoding c !! "plev_bnds"; e !! "_FillValue")
              = Some (PFloat 1e20)) by (by vm_compute).
  split; [exact H|].
  intros (c & Hc & e & He & Hf). rewrite Hc in H. simpl in H.
  rewrite He in H. simpl in H. congruence.
Qed.

Lemma fill_value_suppressed_witness :
  ∃ c,
    written (cmorize_data_with_template "2026-11-04T00:00:00Z" Sample.user_data
               "template.nc" "out.nc" Sample.overrides
               (Sample.world_with "template.nc" Sample.template)).2 !! "out.nc"
    = Some c ∧
    fill_suppressed c "time_bnds" ∧ fill_suppressed c "height" ∧
    fill_suppressed c "lat".
Proof.
  eexists. split; [vm_compute; reflexivity|].
  repeat split;
    (eapply (proj1 fill_value_suppressed
               "2026-11-04T00:00:00Z" Sample.user_data "template.nc" "out.nc"
               Sample.overrides (Sample.world_with "template.nc" Sample.template));
     [ apply surjective_pairing | reflexivity | vm_compute; reflexivity
     | vm_compute; set_solver | ]).
  - right. left. by exists "time".
  - right. right. reflexivity.
  - left. vm_compute. set_solver.
Defined.

(** ** C5: the override map *)

Lemma apply_overrides_lookup (ov g : gmap string attrval) k :
  apply_overrides ov g !! k =
  match ov !! k with Some v => Some v | None => g !! k end.
Proof.
  unfold apply_overrides. revert k.
  apply (map_fold_weak_ind
           (λ r (m : gmap string attrval),
              ∀ k, r !! k = match m !! k with Some v => Some v | None => g !! k end)).
  - intros k. by rewrite lookup_empty.
  - intros i x m r Hi IH k.
    assert (Hstep : (if bool_decide (is_Some (r !! i))
                     then <[i:=x]> r else <[i:=x]> r) = <[i:=x]> r)
      by (by destruct (bool_decide _)).
    rewrite Hstep. destruct (decide (i = k)) as [->|Hne].
    + by rewrite !lookup_insert_eq.
    + rewrite !lookup_insert_ne by done. apply IH.
Qed.

Lemma apply_overrides_existing_lookup (ov g : gmap string attrval) k :
  apply_overrides_existing ov g !! k =
  match g !! k with
  | Some old => Some (default old (ov !! k))
  | None => None
  end.
Proof.
  unfold apply_overrides_existing. revert k.
  apply (map_fold_weak_ind
           (λ r (m : gmap string attrval),
              ∀ k, r !! k = match g !! k with
                            | Some old => Some (default old (m !! k))
                            | None => None
                            end)).
  - intros k. rewrite lookup_empty. by destruct (g !! k).
  - intros i x m r Hi IH k. pose proof (IH i) as Hri. rewrite Hi in Hri.
    destruct (g !! i) as [old|] eqn:Hgi; simpl in Hri.
    + rewrite bool_decide_eq_true_2 by (rewrite Hri; eauto).
      destruct (decide (i = k)) as [->|Hne].
      * by rewrite !lookup_insert_eq, Hgi.
      * rewrite !lookup_insert_ne by done. apply IH.
    + rewrite bool_decide_eq_false_2 by (rewrite Hri; by intros [? [=]]).
      destruct (decide (i = k)) as [->|Hne].
      * by rewrite IH, Hgi.
      * rewrite lookup_insert_ne by done. apply IH.
Qed.

(** C5, counterexample: the regrid program is given the override
    [contact = "info@awi.de"] for a template without a [contact] attribute;
    the product it hands to the serializer has no [contact] attribute. *)
Lemma override_of_absent_key_ignored :
  Sample.overrides !! "contact" = Some (AStr "info@awi.de") ∧
  global_attrs Sample.template !! "contact" = None ∧
  (c ← written (create_cmor_file "2026-11-04T00:00:00Z" Sample.template
                  Sample.regridded "out.nc" Sample.overrides
                  (Sample.world_with "template.nc" Sample.template)).2 !! "out.nc";
   Some (global_attrs (w_ds c) !! "contact")) = Some None ∧
  apply_overrides_existing Sample.overrides (global_attrs Sample.template)
    !! "contact" = None.
Proof. repeat split; by vm_compute. Qed.

(** C5 (amended): the direct-replacement program assigns every entry of
    the override map, so afterwards each override key holds its override
    value whether or not it existed before; the regrid program assigns
    only the keys the global attributes already have and ignores the
    others; neither touches a key outside the override map. *)
Theorem overrides_applied (ov g : gmap string attrval) (k : string) (v : attrval) :
  ov !! k = Some v →
  apply_overrides ov g !! k = Some v ∧
  apply_overrides_existing ov g !! k
    = (if decide (is_Some (g !! k)) then Some v else None) ∧
  (∀ k', ov !! k' = None →
     apply_overrides ov g !! k' = g !! k' ∧
     apply_overrides_existing ov g !! k' = g !! k').
Proof.
  intros Hk. rewrite apply_overrides_lookup, apply_overrides_existing_lookup, Hk.
  split; [done|]. split.
  - by destruct (g !! k).
  - intros k' Hk'.
    rewrite apply_overrides_lookup, apply_overrides_existing_lookup, Hk'.
    by destruct (g !! k').
Qed.

Lemma overrides_applied_witness :
  apply_overrides Sample.overrides (global_attrs Sample.template) !! "contact"
    = Some (AStr "info@awi.de") ∧
  apply_overrides_existing Sample.overrides (global_attrs Sample.template)
    !! "contact"
    = (if decide (is_Some (global_attrs Sample.template !! "contact"))
       then Some (AStr "info@awi.de") else None) ∧
  (∀ k', Sample.overrides !! k' = None →
     apply_overrides Sample.overrides (global_attrs Sample.template) !! k'
       = global_attrs Sample.template !! k' ∧
     apply_overrides_existing Sample.overrides (global_attrs Sample.template) !! k'
       = global_attrs Sample.template !! k').
Proof.
  apply (overrides_applied Sample.overrides (global_attrs Sample.template)
           "contact" (AStr "info@awi.de")).
  reflexivity.
Defined.

(** ** C9 and C8: history and the other global attributes *)

(** C9: whatever the override map holds, also under the key [history], the
    [history] attribute of the product given to the serializer is the new
    timestamped entry, then [" ; "], then the template's previous history:
    its text when it is a string, its decimal digits when it is an integer,
    nothing when the template has none; in the direct-replacement and in
    the regrid program. *)
Theorem history_rewritten_after_overrides :
  (∀ now u t ov c,
     cmorize_dataset now u t ov = Ok c →
     ∃ prior,
       global_attrs (w_ds c) !! "history"
       = Some (AStr ((now +:+ ": Data replaced with user-provided in-memory data.")
                     +:+ " ; " +:+ prior)) ∧
       match global_attrs t !! "history" with
       | Some (AStr h) => prior = h
       | Some (AInt z) => prior = pretty z
       | None => prior = ""
       end)
  ∧ (∀ now t rg ov c,
       create_cmor_dataset now t rg ov = Ok c →
       ∃ prior,
         global_attrs (w_ds c) !! "history"
         = Some (AStr ((now +:+ ": Data regridded and CMORized.")
                       +:+ " ; " +:+ prior)) ∧
         match global_attrs t !! "history" with
         | Some (AStr h) => prior = h
         | Some (AInt z) => prior = pretty z
         | None => prior = ""
         end).
Proof.
  split.
  - intros now u t ov c Hc.
    destruct (cmorize_dataset_Ok _ _ _ _ _ Hc)
      as (main & tv & ds1 & _ & _ & _ & Hd & (_ & _ & Hg & _) & _).
    apply demote_height_Ok in Hd as (_ & Hg1 & _).
    exists (prior_history t). split.
    + rewrite Hg, Hg1. unfold rewrite_history. simpl. by rewrite lookup_insert_eq.
    + unfold prior_history. by destruct (global_attrs t !! "history") as [[h|z]|].
  - intros now t rg ov c Hc.
    destruct (create_cmor_dataset_Ok _ _ _ _ _ Hc)
      as (main & ? & ds_b & ds1 & _ & _ & _ & Hd & (_ & _ & Hg & _) & _).
    apply demote_height_Ok in Hd as (_ & Hg1 & _).
    exists (prior_history t). split.
    + rewrite Hg, Hg1. unfold rewrite_history. simpl. by rewrite lookup_insert_eq.
    + unfold prior_history. by destruct (global_attrs t !! "history") as [[h|z]|].
Qed.

Lemma history_rewritten_after_overrides_witness :
  Sample.overrides !! "history" = Some (AStr "mine") ∧
  global_attrs Sample.template !! "history" = Some (AStr "created") ∧
  (∃ c, cmorize_dataset "2026-11-04T00:00:00Z" Sample.user_data Sample.template
          Sample.overrides = Ok c ∧
        global_attrs (w_ds c) !! "history"
        = Some (AStr "2026-11-04T00:00:00Z: Data replaced with user-provided in-memory data. ; created")) ∧
  (∃ c, create_cmor_dataset "2026-11-04T00:00:00Z" Sample.template Sample.regridded
          Sample.overrides = Ok c ∧
        global_attrs (w_ds c) !! "history"
        = Some (AStr "2026-11-04T00:00:00Z: Data regridded and CMORized. ; created")).
Proof.
  split; [reflexivity|]. split; [reflexivity|]. split.
  - destruct (cmorize_dataset "2026-11-04T00:00:00Z" Sample.user_data
                Sample.template Sample.overrides) as [c|e] eqn:Hc;
      [|by vm_compute in Hc].
    exists c. split; [reflexivity|].
    destruct (proj1 history_rewritten_after_overrides _ _ _ _ _ Hc)
      as (prior & Hh & Hp).
    vm_compute in Hp. subst prior. exact Hh.
  - destruct (create_cmor_dataset "2026-11-04T00:00:00Z" Sample.template
                Sample.regridded Sample.overrides) as [c|e] eqn:Hc;
      [|by vm_compute in Hc].
    exists c. split; [reflexivity|].
    destruct (proj2 history_rewritten_after_overrides _ _ _ _ _ Hc)
      as (prior & Hh & Hp).
    vm_compute in Hp. subst prior. exact Hh.
Defined.

(** C8, counterexample: with an empty override map, [time_bnds] has a
    [coordinates] attribute in the template and none in the product of the
    direct replacement. *)
Lemma direct_replacement_deletes_coordinates :
  var_attr Sample.template "time_bnds" "coordinates" = Some (PStr "height") ∧
  ∃ c, cmorize_dataset "2026-11-04T00:00:00Z" Sample.user_data Sample.template ∅
       = Ok c ∧
       var_attr (w_ds c) "time_bnds" "coordinates" = None.
Proof.
  split; [reflexivity|]. eexists. split; [vm_compute; reflexivity|].
  reflexivity.
Qed.

(** C8 (amended): in the product of a direct replacement every global
    attribute other than [history] has the override value if the override
    map has the key, and the template's value (or absence) otherwise.  The
    product has the template's variables, and their attributes are the
    template's, except that the cleanup of step 6 deletes the attribute
    [coordinates] from every variable other than the main one. *)
Theorem direct_replacement_attributes now u t ov c :
  cmorize_dataset now u t ov = Ok c →
  (∀ k, k ≠ "history" →
     global_attrs (w_ds c) !! k
     = match ov !! k with
       | Some v => Some v
       | None => global_attrs t !! k
       end)
  ∧ names (w_ds c) = names t
  ∧ ∃ main,
      variable_id_in (global_attrs t) (data_vars t).*1 = Some main ∧
      ∀ n v, lookup_var n (variables t) = Some v →
        ∃ v', lookup_var n (variables (w_ds c)) = Some v' ∧
              attrs v' = if String.eqb n main then attrs v
                         else delete "coordinates" (attrs v).
Proof.
  intros Hc.
  destruct (cmorize_dataset_Ok _ _ _ _ _ Hc)
    as (main & tv & ds1 & Hm & Htv & _ & Hd & Hcl & _).
  pose proof Hcl as (Hn & _ & Hg & _).
  apply demote_height_Ok in Hd as (Hvars & Hg1 & _).
  change (variables (rewrite_history _ _ _ _))
    with (variables (update_var t main (set_values (a_shape u) (a_values u))))
    in Hvars.
  split; [|split].
  - intros k Hk. rewrite Hg, Hg1. unfold rewrite_history. simpl.
    rewrite lookup_insert_ne by done. apply apply_overrides_lookup.
  - rewrite Hn. unfold names. rewrite Hvars.
    apply (names_update_var t main).
  - exists main. split; [done|]. intros n v Hnv.
    assert (H1 : ∃ v1, lookup_var n (variables ds1) = Some v1 ∧ attrs v1 = attrs v).
    { rewrite Hvars, lookup_update_var, Hnv.
      destruct (String.eqb main n); eexists; split; reflexivity. }
    destruct H1 as (v1 & Hv1 & Ha1).
    destruct (cleaned_lookup _ _ _ _ _ Hcl Hv1)
      as (v' & Hv' & _ & _ & _ & _ & Ha & Hco).
    exists v'. split; [done|]. rewrite Ha1 in Ha, Hco.
    destruct (String.eqb_spec n main) as [->|Hne]; apply map_eq; intros k.
    + destruct (decide (k = "coordinates")) as [->|Hk]; [|by apply Ha].
      by destruct Hco as [?|[? _]].
    + destruct (decide (k = "coordinates")) as [->|Hk].
      * rewrite lookup_delete_eq.
        pose proof (direct_loop_strips_coordinates _ _ _ _ _ _ n Hc Hm Hne) as Hgone.
        unfold var_attr in Hgone. by rewrite Hv' in Hgone.
      * rewrite lookup_delete_ne by done. by apply Ha.
Qed.

Lemma direct_replacement_attributes_witness :
  ∃ c, cmorize_dataset "2026-11-04T00:00:00Z" Sample.user_data Sample.template
         Sample.overrides = Ok c ∧
       global_attrs (w_ds c) !! "source_id" = Some (AStr "AWI-CM-1-1-MR") ∧
       global_attrs (w_ds c) !! "variable_id" = Some (AStr "tas") ∧
       names (w_ds c) = ["time"; "time_bnds"; "lat"; "lon"; "height"; "tas"] ∧
       (∃ v', lookup_var "time_bnds" (variables (w_ds c)) = Some v' ∧
              attrs v' = delete "coordinates" (attrs Sample.time_bnds)) ∧
       (∃ v', lookup_var "tas" (variables (w_ds c)) = Some v' ∧
              attrs v' = attrs Sample.tas).
Proof.
  destruct (cmorize_dataset "2026-11-04T00:00:00Z" Sample.user_data
              Sample.template Sample.overrides) as [c|e] eqn:Hc;
    [|by vm_compute in Hc].
  exists c. split; [reflexivity|].
  destruct (direct_replacement_attributes _ _ _ _ _ Hc)
    as (Hg & Hn & main & Hm & Hv).
  vm_compute in Hm. injection Hm as <-.
  split; [by rewrite Hg|]. split; [by rewrite Hg|]. split; [by rewrite Hn|].
  split.
  - destruct (Hv "time_bnds" Sample.time_bnds eq_refl) as (v' & Hv' & Ha').
    exists v'. split; [exact Hv' | exact Ha'].
  - destruct (Hv "tas" Sample.tas eq_refl) as (v' & Hv' & Ha').
    exists v'. split; [exact Hv' | exact Ha'].
Defined.

(** ** C7: the shape check of the direct replacement *)

Lemma demote_height_not_index ds :
  is_index ds "height" = false → ∃ ds', demote_height ds = Ok ds'.
Proof.
  intros Hi. unfold demote_height, reset_coords. rewrite Hi.
  case_bool_decide; eauto.
Qed.

Lemma demote_height_Raise ds e :
  demote_height ds = Raise e → ∃ what, e = ELib ValueError what.
Proof.
  unfold demote_height, reset_coords.
  case_bool_decide; [|done]. destruct (is_index ds "height"); [|done].
  intros [= <-]. eauto.
Qed.

Lemma is_index_replaced t main sh vals g name :
  is_index (set_global_attrs g (update_var t main (set_values sh vals))) name
  = is_index t name.
Proof.
  unfold is_index.
  change (coords (set_global_attrs g (update_var t main (set_values sh vals))))
    with (coords t).
  change (variables (set_global_attrs g (update_var t main (set_values sh vals))))
    with (variables (update_var t main (set_values sh vals))).
  rewrite lookup_update_var. destruct (String.eqb main name); [|done].
  by destruct (lookup_var name (variables t)).
Qed.

Lemma cmorize_dataset_mismatch now u t ov main tv :
  variable_id_in (global_attrs t) (data_vars t).*1 = Some main →
  lookup_var main (variables t) = Some tv →
  a_shape u ≠ shape tv →
  cmorize_dataset now u t ov = Raise (EShapeMismatch (a_shape u) (shape tv)).
Proof.
  intros Hm Htv Hsh. unfold cmorize_dataset, getitem. rewrite Hm, Htv. simpl.
  by rewrite bool_decide_eq_true_2.
Qed.

Lemma cmorize_dataset_match now u t ov main tv :
  variable_id_in (global_attrs t) (data_vars t).*1 = Some main →
  lookup_var main (variables t) = Some tv →
  a_shape u = shape tv →
  (∃ what, cmorize_dataset now u t ov = Raise (ELib ValueError what) ∧
           is_index t "height" = true)
  ∨ (∃ c v, cmorize_dataset now u t ov = Ok c ∧
            lookup_var main (variables (w_ds c)) = Some v ∧
            shape v = a_shape u ∧ values v = a_values u ∧ dims v = dims tv).
Proof.
  intros Hm Htv Hsh.
  destruct (cmorize_dataset now u t ov) as [c|e] eqn:Hc.
  - right.
    destruct (cmorize_dataset_Ok _ _ _ _ _ Hc)
      as (main' & tv' & ds1 & Hm' & Htv' & _ & Hd & (_ & _ & _ & Hv) & _).
    rewrite Hm in Hm'. injection Hm' as <-.
    apply demote_height_Ok in Hd as (Hvars & _).
    specialize (Hv main). rewrite Hvars in Hv.
    change (variables (rewrite_history _ _ _ _))
      with (variables (update_var t main (set_values (a_shape u) (a_values u))))
      in Hv.
    rewrite lookup_update_var, String.eqb_refl, Htv in Hv. simpl in Hv.
    inversion Hv as [v1 v' (Hd' & Hs' & Hvals & _) E1 E2|]; subst.
    exists c, v'. simpl in *. repeat split; try done; congruence.
  - left. revert Hc. unfold cmorize_dataset, getitem. rewrite Hm, Htv. simpl.
    rewrite bool_decide_eq_false_2 by (intros H; by apply H).
    destruct (demote_height _) as [ds1|e'] eqn:Hd.
    + simpl. by destruct (foldl _ _ _).
    + simpl. intros [= <-].
      destruct (demote_height_Raise _ _ Hd) as [what ->]. exists what.
      split; [done|].
      destruct (is_index t "height") eqn:Hi; [done|]. exfalso.
      destruct (demote_height_not_index
                  (rewrite_history now direct_what t
                     (set_global_attrs (apply_overrides ov (global_attrs t))
                        (update_var t main
                           (set_values (a_shape u) (a_values u))))))
        as [ds' Hds'].
      * unfold rewrite_history.
        change (is_index (set_global_attrs ?g (set_global_attrs ?g' ?d)) ?n)
          with (is_index (set_global_attrs g d) n).
        by rewrite is_index_replaced.
      * congruence.
Qed.

Lemma cmorize_dataset_index_height now u t ov main tv :
  variable_id_in (global_attrs t) (data_vars t).*1 = Some main →
  lookup_var main (variables t) = Some tv →
  a_shape u = shape tv → is_index t "height" = true →
  cmorize_dataset now u t ov
  = Raise (ELib ValueError "cannot remove index coordinates with reset_coords").
Proof.
  intros Hm Htv Hsh Hi. unfold cmorize_dataset, getitem. rewrite Hm, Htv. simpl.
  rewrite bool_decide_eq_false_2 by (intros H; by apply H).
  assert (Hi' : is_index
                  (rewrite_history now direct_what t
                     (set_global_attrs (apply_overrides ov (global_attrs t))
                        (update_var t main
                           (set_values (a_shape u) (a_values u))))) "height"
                = true).
  { unfold rewrite_history.
    change (is_index (set_global_attrs ?g (set_global_attrs ?g' ?d)) ?n)
      with (is_index (set_global_attrs g d) n).
    by rewrite is_index_replaced. }
  unfold demote_height, reset_coords. rewrite Hi'.
  rewrite bool_decide_eq_true_2; [done|].
  unfold is_index in Hi'. apply andb_true_iff in Hi' as [Hc _].
  by apply bool_decide_eq_true_1 in Hc.
Qed.

(** C7, counterexample: the template's [height] is a dimension coordinate
    and the caller's array has the shape of [tas]; the run raises the
    [ValueError] of [reset_coords] and writes nothing. *)
Lemma equal_shapes_still_raise :
  let w := Sample.world_with "template.nc" Sample2.indexed_height_template in
  let run := cmorize_data_with_template "2026-11-04T00:00:00Z" Sample.user_data
               "template.nc" "out.nc" ∅ w in
  variable_id_in (global_attrs Sample2.indexed_height_template)
    (data_vars Sample2.indexed_height_template).*1 = Some "tas" ∧
  a_shape Sample.user_data = shape Sample.tas ∧
  run.1 = Raise (ELib ValueError "cannot remove index coordinates with reset_coords") ∧
  written run.2 = ∅.
Proof. repeat split; by vm_compute. Qed.

(** C7 (amended): with the template on disk and its main variable resolved,
    the direct-replacement program raises the shape error exactly when the
    caller's array shape differs from the shape of the template's main
    variable; it then leaves the world as it was, so nothing is written.
    With equal shapes the run can still fail: when [height] is an index
    coordinate [reset_coords] raises a [ValueError] and nothing is written;
    otherwise the run goes on to the serializer with the main variable
    holding the caller's array. *)
Theorem shape_checked_before_replacement now u tp op ov w t main tv :
  disk w !! tp = Some t →
  variable_id_in (global_attrs t) (data_vars t).*1 = Some main →
  lookup_var main (variables t) = Some tv →
  let run := cmorize_data_with_template now u tp op ov w in
  (run.1 = Raise (EShapeMismatch (a_shape u) (shape tv)) ↔ a_shape u ≠ shape tv) ∧
  (a_shape u ≠ shape tv → run.2 = w) ∧
  (a_shape u = shape tv → is_index t "height" = true →
   run = (Raise (ELib ValueError "cannot remove index coordinates with reset_coords"),
          w)) ∧
  (a_shape u = shape tv → is_index t "height" = false →
   ∃ c v, run = to_netcdf op c w ∧
          lookup_var main (variables (w_ds c)) = Some v ∧
          shape v = a_shape u ∧ values v = a_values u).
Proof.
  intros Ht Hm Htv run. subst run.
  rewrite cmorize_data_with_template_run, Ht.
  destruct (decide (a_shape u = shape tv)) as [Heq|Hne].
  - destruct (is_index t "height") eqn:Hi.
    + rewrite (cmorize_dataset_index_height now u t ov main tv Hm Htv Heq Hi).
      simpl. split; [split; [discriminate | done]|].
      split; [done|]. split; [done|]. intros _ [=].
    + destruct (cmorize_dataset_match now u t ov main tv Hm Htv Heq)
        as [(what & Hr & Hi')|(c & v & Hc & Hv & Hs & Hvals & _)]; [congruence|].
      rewrite Hc. split; [|split; [done|split; [intros _ [=]|]]].
      * split; [|done]. unfold to_netcdf. by destruct (unwritable w !! op).
      * intros _ _. by exists c, v.
  - rewrite (cmorize_dataset_mismatch now u t ov main tv Hm Htv Hne). simpl.
    split; [done|]. split; [done|]. split; intros Heq; by destruct Hne.
Qed.

Lemma shape_checked_before_replacement_witness :
  let w := Sample.world_with "template.nc" Sample.template in
  let bad := cmorize_data_with_template "2026-11-04T00:00:00Z" Sample.wrong_shape
               "template.nc" "out.nc" Sample.overrides w in
  let run := cmorize_data_with_template "2026-11-04T00:00:00Z" Sample.user_data
               "template.nc" "out.nc" Sample.overrides w in
  (bad.1 = Raise (EShapeMismatch [2; 2]%nat [1; 2; 2]%nat) ∧ bad.2 = w) ∧
  (∃ c v, run = to_netcdf "out.nc" c w ∧
          lookup_var "tas" (variables (w_ds c)) = Some v ∧
          shape v = [1; 2; 2]%nat ∧ values v = [285; 286; 287; 288]%float).
Proof.
  cbv zeta. split.
  - pose proof (shape_checked_before_replacement "2026-11-04T00:00:00Z"
                  Sample.wrong_shape "template.nc" "out.nc" Sample.overrides
                  (Sample.world_with "template.nc" Sample.template)
                  Sample.template "tas" Sample.tas eq_refl eq_refl eq_refl) as H.
    cbv zeta in H. destruct H as ((_ & H1) & H2 & _).
    split; [apply H1; discriminate | apply H2; discriminate].
  - pose proof (shape_checked_before_replacement "2026-11-04T00:00:00Z"
                  Sample.user_data "template.nc" "out.nc" Sample.overrides
                  (Sample.world_with "template.nc" Sample.template)
                  Sample.template "tas" Sample.tas eq_refl eq_refl eq_refl) as H.
    cbv zeta in H. destruct H as (_ & _ & _ & H4).
    apply H4; reflexivity.
Defined.

(** ** C6: main-variable resolution *)

Lemma variable_id_in_Some g dv s :
  variable_id_in g dv = Some s ↔
  g !! "variable_id" = Some (AStr s) ∧ s ≠ "" ∧ s ∈ dv.
Proof.
  unfold variable_id_in. destruct (g !! "variable_id") as [[s'|z]|]; simpl.
  - destruct (String.eqb_spec s' "") as [->|Hne]; simpl.
    + split; [done | intros ([= <-] & ? & _); done].
    + case_bool_decide as Hin.
      * split; [intros [= <-]; done | intros ([= <-] & _); done].
      * split; [done | intros ([= <-] & _ & ?); done].
  - destruct (negb (negb (z =? 0))); split; try done; intros ([=] & _).
  - split; [done | intros ([=] & _)].
Qed.

Lemma variable_id_in_None g dv :
  (∀ s, g !! "variable_id" = Some (AStr s) → s ∉ dv) → variable_id_in g dv = None.
Proof.
  intros H. destruct (variable_id_in g dv) as [s|] eqn:E; [|done].
  apply variable_id_in_Some in E as (Hs & _ & Hin). by destruct (H s Hs).
Qed.

Lemma py_max_by_spec {X} (key : X → nat) (rest : list X) : ∀ first,
  py_max_by key first rest ∈ first :: rest ∧
  ∀ x, x ∈ first :: rest → (key x ≤ key (py_max_by key first rest))%nat.
Proof.
  unfold py_max_by. induction rest as [|y rest IH]; intros first; simpl.
  - split; [left|]. intros x ->%list_elem_of_singleton. done.
  - destruct (IH (if decide (key first < key y)%nat then y else first))
      as [Hin Hmax].
    split.
    + apply elem_of_cons in Hin as [->|Hin].
      * case_decide; [right; left | left].
      * right. by right.
    + intros x [->|[->|Hx]%elem_of_cons]%elem_of_cons.
      * etrans; [|apply Hmax; left]. case_decide; lia.
      * etrans; [|apply Hmax; left]. case_decide; lia.
      * apply Hmax. by right.
Qed.

Lemma candidate_vars_elem rg name nd :
  (name, nd) ∈ candidate_vars rg ↔
  ∃ v, (name, v) ∈ data_vars rg ∧ contains "_bnds" name = false ∧
       ("bnds" ∉ dims v) ∧ nd = length (dims v).
Proof.
  unfold candidate_vars. rewrite list_elem_of_fmap. split.
  - intros ([n v] & [= -> ->] & (Hf & Hin)%list_elem_of_filter).
    simpl in Hf. destruct Hf as [Hc Hb]. by exists v.
  - intros (v & Hin & Hc & Hb & ->). exists (name, v). split; [done|].
    apply list_elem_of_filter. done.
Qed.



(** ** C2: chunk sizes *)

Lemma is_none_false ch : ch ≠ PNone → is_none ch = false.
Proof. by destruct ch. Qed.

Lemma py_min_int z n : py_min (PInt z) n = Ok (PInt (Z.min z (Z.of_nat n))).
Proof.
  simpl. do 2 f_equal. destruct (Z.ltb_spec (Z.of_nat n) z); lia.
Qed.

Lemma clamp_ints zs : ∀ sh,
  mapM_result (λ p, py_min p.1 p.2) (zip (PInt <$> zs) sh)
  = Ok (PInt <$> zip_with Z.min zs (Z.of_nat <$> sh)).
Proof.
  induction zs as [|z zs IH]; intros [|n sh]; try done.
  cbn [fmap list_fmap zip zip_with mapM_result fst snd].
  change (zip_with pair (PInt <$> zs) sh) with (zip (PInt <$> zs) sh).
  rewrite py_min_int, IH. reflexivity.
Qed.

Lemma clamp_chunks_ints zs sh :
  clamp_chunks (PTuple (PInt <$> zs)) sh
  = Ok (if decide (length zs = length sh)
        then Some (PTuple (PInt <$> zip_with Z.min zs (Z.of_nat <$> sh)))
        else None).
Proof.
  unfold clamp_chunks. simpl. rewrite length_fmap.
  case_bool_decide; case_decide; try done.
  by rewrite clamp_ints.
Qed.

Lemma length_list_ascii s : length (String.list_ascii_of_string s) = String.length s.
Proof. induction s; simpl; congruence. Qed.

Lemma py_len_items ch n : py_len ch = Ok n → length (py_items ch) = n.
Proof.
  destruct ch; simpl; try done; intros [= <-]; [|done].
  by rewrite length_fmap, length_list_ascii.
Qed.

(** Indexing by position and zipping visit the same pairs. *)
Lemma clamp_indexed_zip ch : ∀ sh k,
  length (drop k (py_items ch)) = length sh →
  mapM_result (λ p, orig ←ᵣ py_index ch p.1; py_min orig p.2)
              (imap (λ i dim_size, ((k + i)%nat, dim_size)) sh)
  = mapM_result (λ p, py_min p.1 p.2) (zip (drop k (py_items ch)) sh).
Proof.
  induction sh as [|d sh IH]; intros k Hlen.
  - by destruct (drop k (py_items ch)).
  - destruct (drop k (py_items ch)) as [|x rest] eqn:Hdrop; [done|].
    assert (Hx : py_items ch !! k = Some x).
    { rewrite <- (Nat.add_0_r k), <- lookup_drop, Hdrop. done. }
    assert (Hrest : drop (S k) (py_items ch) = rest).
    { rewrite <- (Nat.add_1_r k), <- drop_drop, Hdrop. done. }
    cbn [imap mapM_result zip zip_with fst snd].
    unfold py_index at 1. rewrite Nat.add_0_r, Hx. cbn [rbind].
    destruct (py_min x d) as [y|]; [|done]. cbn [rbind].
    change (zip_with pair rest sh) with (zip rest sh). rewrite <- Hrest.
    rewrite <- (IH (S k)); [|rewrite Hrest; simpl in Hlen; lia].
    f_equal. f_equal. apply imap_ext. intros i z _. simpl. f_equal. lia.
Qed.

Lemma adjust_chunks_clamp sub n e ch sv :
  e !! "chunksizes" = Some ch → ch ≠ PNone →
  lookup_var n (variables sub) = Some sv →
  adjust_chunks sub n e
  = (r ←ᵣ clamp_chunks ch (shape sv);
     Ok (match r with
         | Some new => <["chunksizes" := new]> e
         | None => delete "chunksizes" e
         end)).
Proof.
  intros He Hch Hsv. unfold adjust_chunks, getitem, clamp_chunks.
  rewrite He, (is_none_false _ Hch), Hsv. simpl.
  destruct (py_len ch) as [m|] eqn:Hlen; [|reflexivity]. simpl.
  case_bool_decide as Hm; [|reflexivity].
  assert (Hz : mapM_result (λ p, orig ←ᵣ py_index ch p.1; py_min orig p.2)
                 (imap (λ i dim_size, (i, dim_size)) (shape sv))
               = mapM_result (λ p, py_min p.1 p.2) (zip (py_items ch) (shape sv))).
  { apply (clamp_indexed_zip ch (shape sv) 0).
    rewrite drop_0. by rewrite (py_len_items _ _ Hlen). }
  rewrite Hz. clear Hz. destruct (mapM_result _ _); reflexivity.
Qed.

Lemma regrid_var_encoding_chunks t ds name da ch :
  lookup_var name (variables ds) = Some da →
  template_encoding t name !! "chunksizes" = Some ch → ch ≠ PNone →
  regrid_var_encoding t ds name !! "chunksizes"
  = match clamp_chunks ch (shape da) with
    | Ok (Some new) => Some new
    | _ => None
    end.
Proof.
  intros Hda Hch Hne. unfold regrid_var_encoding.
  rewrite keep_valid_lookup by apply chunksizes_valid.
  unfold clamp_or_drop_chunks, shape_of. rewrite Hda. simpl.
  assert (Hs : suppress_fill_value ds name (template_encoding t name)
               !! "chunksizes" = Some ch).
  { unfold suppress_fill_value. destruct (no_fill_value ds name); [|done].
    by rewrite lookup_insert_ne. }
  rewrite Hs, (is_none_false _ Hne).
  destruct (clamp_chunks ch (shape da)) as [[new|]|].
  - apply lookup_insert_eq.
  - apply lookup_delete_eq.
  - apply lookup_delete_eq.
Qed.

Lemma subset_var_encoding_chunks ds sub main name da ch e :
  subset_var_encoding ds sub main name = Ok e →
  lookup_var name (variables sub) = Some da →
  template_encoding ds name !! "chunksizes" = Some ch → ch ≠ PNone →
  ∃ r, clamp_chunks ch (shape da) = Ok r ∧ e !! "chunksizes" = r.
Proof.
  unfold subset_var_encoding, getitem, template_encoding.
  destruct (lookup_var name (variables ds)) as [orig|]; [|done]. simpl.
  intros He Hda Hch Hne.
  rewrite (adjust_chunks_clamp sub name _ ch da) in He; [|
    by rewrite keep_valid_lookup by apply chunksizes_valid | done | done].
  destruct (clamp_chunks ch (shape da)) as [r|]; [|done]. simpl in He.
  injection He as <-. exists r. split; [done|].
  assert (Hr : match r with
               | Some new => <["chunksizes":=new]> (keep_valid (encoding orig))
               | None => delete "chunksizes" (keep_valid (encoding orig))
               end !! "chunksizes" = r).
  { destruct r; [apply lookup_insert_eq | apply lookup_delete_eq]. }
  destruct (negb _); [|done]. by rewrite lookup_insert_ne.
Qed.

Lemma lookup_var_names name v l : lookup_var name l = Some v → name ∈ l.*1.
Proof. intros H. apply lookup_var_is_Some. eauto. Qed.

(** ** C4: restoring [missing_value] *)

Lemma lookup_set_var n k v l :
  lookup_var n (set_var k v l) = if String.eqb k n then Some v else lookup_var n l.
Proof.
  induction l as [|[k' w] l IH]; simpl.
  - done.
  - destruct (String.eqb_spec k' k) as [->|Hk]; simpl.
    + by destruct (String.eqb_spec k n).
    + destruct (String.eqb_spec k' n) as [->|Hn].
      * by destruct (String.eqb_spec k n).
      * exact IH.
Qed.

Lemma lookup_var_app_l n l l' v :
  lookup_var n l = Some v → lookup_var n (l ++ l') = Some v.
Proof.
  induction l as [|[k w] l IH]; simpl; [done|].
  by destruct (String.eqb k n).
Qed.

Lemma lookup_setitem_ne ds k v cs n x :
  k ≠ n → lookup_var n (variables ds) = Some x →
  lookup_var n (variables (setitem ds k v cs)) = Some x.
Proof.
  intros Hk Hx. unfold setitem. simpl.
  assert (H0 : lookup_var n (set_var k v (variables ds)) = Some x).
  { rewrite lookup_set_var. apply String.eqb_neq in Hk. by rewrite Hk. }
  revert H0. generalize (set_var k v (variables ds)).
  induction cs as [|c cs IH]; intros acc Hacc; simpl; [done|].
  apply IH. case_bool_decide; [done|]. by apply lookup_var_app_l.
Qed.

Lemma var_attr_update_other ds k key x n key' :
  key ≠ key' →
  var_attr (update_var ds k (set_attr key x)) n key' = var_attr ds n key'.
Proof.
  intros Hkey. unfold var_attr. rewrite lookup_update_var.
  destruct (String.eqb k n); [|done].
  destruct (lookup_var n (variables ds)); [|done]. simpl.
  by rewrite lookup_insert_ne.
Qed.

Lemma var_attr_setitem_ne ds k v cs n key :
  k ≠ n → n ∈ names ds →
  var_attr (setitem ds k v cs) n key = var_attr ds n key.
Proof.
  intros Hk Hn. unfold var_attr.
  apply lookup_var_is_Some in Hn as [x Hx].
  by rewrite (lookup_setitem_ne ds k v cs n x Hk Hx), Hx.
Qed.

Lemma names_setitem ds k v cs n : n ∈ names ds → n ∈ names (setitem ds k v cs).
Proof.
  intros [x Hx]%lookup_var_is_Some. apply lookup_var_is_Some.
  destruct (decide (k = n)) as [->|Hk].
  - unfold setitem. simpl.
    assert (H0 : is_Some (lookup_var n (set_var n v (variables ds)))).
    { rewrite lookup_set_var, String.eqb_refl. eauto. }
    revert H0. generalize (set_var n v (variables ds)).
    induction cs as [|c cs IH]; intros acc [y Hy]; simpl; [eauto|].
    apply IH. case_bool_decide; [eauto|]. exists y. by apply lookup_var_app_l.
  - rewrite (lookup_setitem_ne ds k v cs n x Hk Hx). eauto.
Qed.

Lemma data_vars_update_var ds k f :
  (data_vars (update_var ds k f)).*1 = (data_vars ds).*1.
Proof.
  unfold data_vars, update_var. simpl.
  induction (variables ds) as [|[k' v] l IH]; [done|].
  rewrite fmap_cons.
  assert (E : (if String.eqb (k', v).1 k then ((k', v).1, f (k', v).2) else (k', v)).1
              = k') by (simpl; by destruct (String.eqb k' k)).
  destruct (decide (k' ∈ coords ds)) as [Hin|Hin].
  - rewrite !filter_cons_False; [exact IH | by intros H; apply H | ].
    rewrite E. by intros H; apply H.
  - rewrite !filter_cons_True; [| done | by rewrite E].
    rewrite !fmap_cons, IH. f_equal. exact E.
Qed.

(** Copying the template's attributes, seen from one variable. *)
Lemma copy_variable_attrs_spec t d :
  names (copy_variable_attrs t d) = names d ∧
  coords (copy_variable_attrs t d) = coords d ∧
  (data_vars (copy_variable_attrs t d)).*1 = (data_vars d).*1 ∧
  ∀ n v tv, lookup_var n (variables d) = Some v →
    lookup_var n (variables t) = Some tv →
    lookup_var n (variables (copy_variable_attrs t d)) = Some (set_attrs (attrs tv) v).
Proof.
  unfold copy_variable_attrs.
  assert (H : ∀ l d0,
    let r := foldl (λ ds var_name,
                      match lookup_var var_name (variables t) with
                      | Some tv => update_var ds var_name (set_attrs (attrs tv))
                      | None => ds
                      end) d0 l in
    names r = names d0 ∧ coords r = coords d0 ∧
    (data_vars r).*1 = (data_vars d0).*1 ∧
    ∀ n tv, lookup_var n (variables t) = Some tv →
      lookup_var n (variables r)
      = (if bool_decide (n ∈ l) then set_attrs (attrs tv) else id)
          <$> lookup_var n (variables d0)).
  { induction l as [|x l IH]; intros d0; cbn [foldl].
    - repeat split. intros n tv _. rewrite bool_decide_eq_false_2.
      + by destruct (lookup_var n _).
      + by intros ?%elem_of_nil.
    - destruct (lookup_var x (variables t)) as [xv|] eqn:Hx.
      + destruct (IH (update_var d0 x (set_attrs (attrs xv)))) as (Hn & Hc & Hd & Hl).
        rewrite Hn, Hc, Hd, names_update_var, data_vars_update_var.
        repeat split. intros n tv Hn'. rewrite (Hl n tv Hn'), lookup_update_var.
        destruct (String.eqb_spec x n) as [->|Hne].
        * rewrite Hx in Hn'. injection Hn' as <-.
          rewrite (bool_decide_eq_true_2 (n ∈ n :: l)) by left.
          destruct (lookup_var n (variables d0)); [|done]. simpl.
          by case_bool_decide.
        * destruct (lookup_var n (variables d0)); [|done]. simpl.
          destruct (decide (n ∈ l)) as [Hin|Hin].
          -- rewrite (bool_decide_eq_true_2 (n ∈ l)) by done.
             rewrite (bool_decide_eq_true_2 (n ∈ x :: l)) by (by right). done.
          -- rewrite (bool_decide_eq_false_2 (n ∈ l)) by done.
             rewrite (bool_decide_eq_false_2 (n ∈ x :: l)); [done|].
             intros [->|?]%elem_of_cons; done.
      + destruct (IH d0) as (Hn & Hc & Hd & Hl). repeat split; try done.
        intros n tv Hn'. rewrite (Hl n tv Hn').
        destruct (lookup_var n (variables d0)); [|done]. simpl.
        destruct (decide (n ∈ l)) as [Hin|Hin].
        * rewrite (bool_decide_eq_true_2 (n ∈ l)) by done.
          rewrite (bool_decide_eq_true_2 (n ∈ x :: l)) by (by right). done.
        * rewrite (bool_decide_eq_false_2 (n ∈ l)) by done.
          rewrite (bool_decide_eq_false_2 (n ∈ x :: l)); [done|].
          intros [->|?]%elem_of_cons; [congruence|done]. }
  destruct (H (names d) d) as (Hn & Hc & Hd & Hl).
  repeat split; try done. intros n v tv Hv Htv.
  rewrite (Hl n tv Htv), Hv. simpl.
  rewrite bool_decide_eq_true_2; [done|]. by eapply lookup_var_names.
Qed.

Lemma resolve_main_var_data_var t rg main :
  resolve_main_var t rg = Ok main → main ∈ (data_vars rg).*1.
Proof.
  unfold resolve_main_var.
  destruct (variable_id_in _ _) as [s|] eqn:Hs.
  - intros [= <-]. by apply variable_id_in_Some in Hs as (_ & _ & ?).
  - destruct (candidate_vars rg) as [|c cs] eqn:Hcs; [done|]. intros [= <-].
    destruct (py_max_by_spec snd cs c) as [Hin _]. rewrite <- Hcs in Hin.
    destruct (py_max_by snd c cs) as [name nd].
    apply candidate_vars_elem in Hin as (v & Hv & _). simpl.
    apply list_elem_of_fmap. by exists (name, v).
Qed.

Lemma data_vars_names ds n : n ∈ (data_vars ds).*1 → n ∈ names ds.
Proof.
  unfold data_vars, names. intros ([k v] & -> & [_ Hin]%list_elem_of_filter)%list_elem_of_fmap.
  apply list_elem_of_fmap. by exists (k, v).
Qed.

Lemma copy_template_vars_keeps t d n key :
  n ∈ names d →
  n ∈ names (copy_template_vars t d) ∧
  var_attr (copy_template_vars t d) n key = var_attr d n key.
Proof.
  intros Hn. unfold copy_template_vars.
  assert (H : ∀ l d0, n ∈ names d0 → Forall (λ kv, kv.1 ≠ n) l →
    let r := foldl (λ ds kv,
                      if String.eqb kv.1 "height" then ds
                      else setitem ds kv.1 kv.2 (dataarray_coords t kv.2)) d0 l in
    n ∈ names r ∧ var_attr r n key = var_attr d0 n key).
  { induction l as [|[k v] l IH]; intros d0 Hd0 Hl; cbn [foldl]; [done|].
    apply Forall_cons in Hl as [Hk Hl]. simpl in Hk. simpl.
    destruct (String.eqb k "height"); [by apply IH|].
    destruct (IH (setitem d0 k v (dataarray_coords t v))) as [H1 H2];
      [by apply names_setitem | done |].
    split; [done|]. rewrite H2. by apply var_attr_setitem_ne. }
  apply H; [done|]. apply Forall_forall. intros [k v] [Hk _]%list_elem_of_filter.
  simpl in *. by intros ->.
Qed.

Lemma process_height_keeps t main d d' key :
  process_height t main d = Ok d' → main ≠ "height" → key ≠ "coordinates" →
  main ∈ names d →
  main ∈ names d' ∧ var_attr d' main key = var_attr d main key.
Proof.
  unfold process_height. intros H Hm Hk Hn.
  destruct (lookup_var "height" (variables t)) as [oh|]; [|by injection H as <-].
  destruct (isel_first oh) as [sh|]; [|done]. simpl in H.
  destruct (getitem _ main); [|done]. simpl in H. injection H as <-.
  split.
  - rewrite names_update_var. by apply names_setitem.
  - rewrite var_attr_update_other by done.
    apply var_attr_setitem_ne; [by intros <- | done].
Qed.

Lemma add_bounds_keeps coord b d d' main key :
  add_bounds coord b d = Ok d' → main ≠ b → main ∈ names d →
  main ∈ names d' ∧ var_attr d' main key = var_attr d main key.
Proof.
  unfold add_bounds. intros H Hm Hn.
  destruct (getitem d coord) as [c|]; [|done]. simpl in H.
  destruct (coord_values c); [|done]. simpl in H.
  destruct (create_bounds _); [|done]. simpl in H. injection H as <-.
  split; [by apply names_setitem|]. apply var_attr_setitem_ne; [by intros <- | done].
Qed.

Lemma create_lat_lon_bounds_keeps d d' main key :
  create_lat_lon_bounds d = Ok d' →
  main ≠ "lat_bnds" → main ≠ "lon_bnds" → key ≠ "bounds" → main ∈ names d →
  main ∈ names d' ∧ var_attr d' main key = var_attr d main key.
Proof.
  unfold create_lat_lon_bounds. intros H H1 H2 Hk Hn.
  destruct (add_bounds "lat" "lat_bnds" d) as [d1|] eqn:E1; [|done]. simpl in H.
  destruct (add_bounds "lon" "lon_bnds" d1) as [d2|] eqn:E2; [|done]. simpl in H.
  injection H as <-.
  destruct (add_bounds_keeps _ _ _ _ main key E1 H1 Hn) as [Hn1 Ha1].
  destruct (add_bounds_keeps _ _ _ _ main key E2 H2 Hn1) as [Hn2 Ha2].
  split.
  - by rewrite !names_update_var.
  - rewrite !var_attr_update_other by (by intros <-). congruence.
Qed.

Lemma cleaned_var_attr main d d' n key :
  cleaned main d d' → key ≠ "coordinates" → var_attr d' n key = var_attr d n key.
Proof.
  intros (_ & _ & _ & H) Hk. unfold var_attr. specialize (H n).
  destruct H as [v v' (_ & _ & _ & _ & Ha & _)|]; simpl; [by apply Ha | done].
Qed.

(** The [missing_value] attribute of the main variable in the regrid
    product, in terms of the template variable. *)
Lemma regrid_missing_value now t rg ov c main tv :
  create_cmor_dataset now t rg ov = Ok c →
  resolve_main_var t rg = Ok main →
  lookup_var main (variables t) = Some tv →
  main ∉ ["height"; "lat_bnds"; "lon_bnds"] →
  var_attr (w_ds c) main "missing_value"
  = let fill_value := py_or (py_get (encoding tv) "_FillValue")
                            (py_get (encoding tv) "missing_value") in
    if is_none fill_value then attrs tv !! "missing_value" else Some fill_value.
Proof.
  intros Hc Hmain Htv Hsp.
  destruct (create_cmor_dataset_Ok _ _ _ _ _ Hc)
    as (main' & ds_h & ds_b & ds1 & Hmain' & Hh & Hb & Hd & Hcl & _).
  rewrite Hmain in Hmain'. injection Hmain' as <-.
  assert (Hne1 : main ≠ "height") by (intros ->; apply Hsp; set_solver).
  assert (Hne2 : main ≠ "lat_bnds") by (intros ->; apply Hsp; set_solver).
  assert (Hne3 : main ≠ "lon_bnds") by (intros ->; apply Hsp; set_solver).
  pose proof (resolve_main_var_data_var _ _ _ Hmain) as Hdv.
  set (d0 := set_global_attrs (global_attrs t) rg) in *.
  destruct (copy_variable_attrs_spec t d0) as (Hn1 & Hc1 & Hd1 & Hl1).
  assert (Hin0 : main ∈ names d0) by (by apply data_vars_names).
  destruct (proj2 (lookup_var_is_Some main (variables d0)) Hin0) as [v0 Hv0].
  specialize (Hl1 main v0 tv Hv0 Htv).
  set (d1 := copy_variable_attrs t d0) in *.
  assert (Hr : var_attr (restore_missing_value t main d1) main "missing_value"
               = (let fill_value := py_or (py_get (encoding tv) "_FillValue")
                                          (py_get (encoding tv) "missing_value") in
                  if is_none fill_value then attrs tv !! "missing_value"
                  else Some fill_value)
               ∧ main ∈ names (restore_missing_value t main d1)).
  { unfold restore_missing_value, contains_var, template_encoding.
    rewrite Htv, Hd1.
    rewrite (bool_decide_eq_true_2 (main ∈ (data_vars d0).*1)) by exact Hdv.
    rewrite bool_decide_eq_true_2 by (by eapply lookup_var_names). simpl.
    destruct (is_none _).
    - split; [|by rewrite Hn1]. unfold var_attr. by rewrite Hl1.
    - split; [|by rewrite names_update_var, Hn1].
      unfold var_attr. rewrite lookup_update_var, String.eqb_refl, Hl1. simpl.
      apply lookup_insert_eq. }
  destruct Hr as [Hr Hin2].
  destruct (copy_template_vars_keeps t _ main "missing_value" Hin2) as [Hin3 Ha3].
  destruct (process_height_keeps _ _ _ _ "missing_value" Hh Hne1 ltac:(done) Hin3)
    as [Hin4 Ha4].
  destruct (create_lat_lon_bounds_keeps _ _ main "missing_value" Hb Hne2 Hne3
              ltac:(done) Hin4) as [Hin5 Ha5].
  apply demote_height_Ok in Hd as (Hvars & _).
  rewrite (cleaned_var_attr main ds1 (w_ds c) main "missing_value" Hcl) by done.
  unfold var_attr at 1. rewrite Hvars.
  change (variables (rewrite_history _ _ _ _)) with (variables ds_b).
  fold (var_attr ds_b main "missing_value").
  rewrite Ha5, Ha4, Ha3. exact Hr.
Qed.

Lemma lookup_var_fmap (g : string * Var → string * Var) l n :
  (∀ kv, (g kv).1 = kv.1) →
  lookup_var n (g <$> l) = (λ v, (g (n, v)).2) <$> lookup_var n l.
Proof.
  intros Hg. induction l as [|[k v] l IH]; [done|].
  rewrite fmap_cons. simpl. pose proof (Hg (k, v)) as E.
  destruct (g (k, v)) as [k' v'] eqn:Eg. simpl in E. subst k'.
  destruct (String.eqb_spec k n) as [->|Hne]; [|exact IH].
  simpl. by rewrite Eg.
Qed.

Lemma sel_nearest_keeps ds dim lv sub n key :
  sel_nearest ds dim lv = Ok sub →
  names sub = names ds ∧ var_attr sub n key = var_attr ds n key.
Proof.
  unfold sel_nearest. destruct (is_index ds dim); [|done].
  destruct (getitem ds dim) as [axis|]; [|done]. simpl.
  destruct (all_some _) as [idxs|]; [|done]. intros [= <-].
  assert (Hg : ∀ kv : string * Var,
            (match position dim (dims kv.2) with
             | Some k => (kv.1, set_values (<[k:=length idxs]> (shape kv.2))
                                  (take_axis (shape kv.2) k idxs (values kv.2)) kv.2)
             | None => kv
             end).1 = kv.1).
  { intros [k v]. simpl. by destruct (position dim (dims v)). }
  split.
  - unfold names. simpl. rewrite <- list_fmap_compose.
    apply list_fmap_ext. intros i kv _. apply Hg.
  - unfold var_attr. simpl. rewrite (lookup_var_fmap _ _ n Hg).
    destruct (lookup_var n (variables ds)) as [v|]; [|done]. simpl.
    by destruct (position dim (dims v)).
Qed.

Lemma var_attr_del_other ds k key n key' :
  key ≠ key' →
  var_attr (update_var ds k (del_attr key)) n key' = var_attr ds n key'.
Proof.
  intros Hkey. unfold var_attr. rewrite lookup_update_var.
  destruct (String.eqb k n); [|done].
  destruct (lookup_var n (variables ds)); [|done]. simpl.
  by rewrite lookup_delete_ne.
Qed.

Lemma strip_bounds_coordinates_keeps d n key :
  key ≠ "coordinates" →
  var_attr (strip_bounds_coordinates d) n key = var_attr d n key.
Proof.
  intros Hk. unfold strip_bounds_coordinates.
  generalize ["time_bnds"; "lat_bnds"; "lon_bnds"]. intros l. revert d.
  induction l as [|x l IH]; intros d; cbn [foldl]; [done|].
  rewrite IH. destruct (lookup_var x (variables d)); [|done].
  case_bool_decide; [|done]. by apply var_attr_del_other.
Qed.

(** The [missing_value] attribute of the main variable in a level-subset
    product. *)
Lemma subset_missing_value ds main lv c tv :
  level_subset ds main lv = Ok c →
  lookup_var main (variables ds) = Some tv →
  var_attr (w_ds c) main "missing_value"
  = match encoding tv !! "missing_value" with
    | Some mv => Some mv
    | None => attrs tv !! "missing_value"
    end.
Proof.
  intros Hl Htv.
  destruct (level_subset_Ok _ _ _ _ Hl) as (sub & Hsel & -> & _).
  rewrite strip_bounds_coordinates_keeps by done.
  destruct (sel_nearest_keeps ds "plev" lv sub main "missing_value" Hsel)
    as [Hn Ha].
  unfold restore_missing_value_subset, contains_var, template_encoding.
  rewrite Htv, Hn.
  rewrite bool_decide_eq_true_2 by (by eapply lookup_var_names).
  destruct (encoding tv !! "missing_value") as [mv|].
  - assert (His : is_Some (lookup_var main (variables sub))).
    { apply lookup_var_is_Some. fold (names sub). rewrite Hn.
      by eapply lookup_var_names. }
    destruct His as [sv Hsv].
    unfold var_attr. rewrite lookup_update_var, String.eqb_refl, Hsv. simpl.
    apply lookup_insert_eq.
  - rewrite Ha. unfold var_attr. by rewrite Htv.
Qed.

(** C4, counterexample: the template encoding of [zg] has [_FillValue] 1e20
    and no [missing_value]; the product [process_netcdf_file] writes has no
    [missing_value] attribute on [zg]. *)
Lemma fill_value_alone_restores_nothing :
  let ds := Sample.levels_file [] {["_FillValue" := PFloat 1e20]} in
  let run := process_netcdf_file "in.nc" "out.nc" [50000]%float
               (Sample.world_with "in.nc" ds) in
  detect_main_var ds = Some "zg" ∧
  template_encoding ds "zg" !! "_FillValue" = Some (PFloat 1e20) ∧
  (c ← written run.2 !! "out.nc"; Some (var_attr (w_ds c) "zg" "missing_value"))
    = Some None.
Proof. repeat split; by vm_compute. Qed.

(** C4 (amended): in the regrid program, for a main variable the template
    has (and which is not [height], [lat_bnds] or [lon_bnds], that the later
    steps replace), the product's [missing_value] attribute is the template
    encoding's [_FillValue] when that value is truthy, else the encoding's
    [missing_value] when [_FillValue] is absent or [None] and
    [missing_value] is not [None]; when the encoding has neither key the
    attribute stays as copied from the template's attributes.  In the
    level-subset programs only the encoding's [missing_value] key is
    consulted: the attribute is set to it when present and is left as it was
    otherwise, whatever [_FillValue] is. *)
Theorem missing_value_restored :
  (∀ now t rg ov c main tv,
     create_cmor_dataset now t rg ov = Ok c →
     resolve_main_var t rg = Ok main →
     lookup_var main (variables t) = Some tv →
     main ∉ ["height"; "lat_bnds"; "lon_bnds"] →
     (∀ fv, encoding tv !! "_FillValue" = Some fv → truthy fv = true →
        var_attr (w_ds c) main "missing_value" = Some fv) ∧
     (∀ mv, encoding tv !! "_FillValue" = None
            ∨ encoding tv !! "_FillValue" = Some PNone →
        encoding tv !! "missing_value" = Some mv → mv ≠ PNone →
        var_attr (w_ds c) main "missing_value" = Some mv) ∧
     (encoding tv !! "_FillValue" = None →
      encoding tv !! "missing_value" = None →
      var_attr (w_ds c) main "missing_value" = attrs tv !! "missing_value"))
  ∧ (∀ ds main lv c tv,
       level_subset ds main lv = Ok c →
       lookup_var main (variables ds) = Some tv →
       var_attr (w_ds c) main "missing_value"
       = match encoding tv !! "missing_value" with
         | Some mv => Some mv
         | None => attrs tv !! "missing_value"
         end).
Proof.
  split.
  - intros now t rg ov c main tv Hc Hm Htv Hsp.
    rewrite (regrid_missing_value now t rg ov c main tv Hc Hm Htv Hsp).
    unfold py_or, py_get. repeat split.
    + intros fv Hfv Ht. rewrite Hfv. simpl. rewrite Ht. by destruct fv.
    + intros mv Hf Hmv Hne. rewrite Hmv. simpl.
      destruct Hf as [-> | ->]; simpl; by rewrite (is_none_false _ Hne).
    + intros -> ->. reflexivity.
  - apply subset_missing_value.
Qed.

Lemma missing_value_restored_witness :
  ∃ c, create_cmor_dataset "2026-11-04T00:00:00Z" Sample.template Sample.regridded
         Sample.overrides = Ok c ∧
       var_attr (w_ds c) "tas" "missing_value" = Some (PFloat 1e20).
Proof.
  eexists. split; [vm_compute; reflexivity|].
  eapply (proj1 (proj1 missing_value_restored "2026-11-04T00:00:00Z"
                   Sample.template Sample.regridded Sample.overrides
                   _ "tas" Sample.tas _ _ _ _) (PFloat 1e20)).
  Unshelve.
  all: try (vm_compute; reflexivity).
  rewrite !not_elem_of_cons. repeat split; try discriminate. apply not_elem_of_nil.
Defined.

(** ** The level-subset steps before the encoding loop *)

Lemma sel_nearest_frame ds dim lv sub :
  sel_nearest ds dim lv = Ok sub →
  global_attrs sub = global_attrs ds ∧ coords sub = coords ds.
Proof.
  unfold sel_nearest. destruct (is_index ds dim); [|done].
  destruct (getitem ds dim) as [axis|]; [|done]. simpl.
  destruct (all_some _) as [idxs|]; [|done]. by intros [= <-].
Qed.

Lemma var_attr_update_ne ds k f n key :
  k ≠ n → var_attr (update_var ds k f) n key = var_attr ds n key.
Proof.
  intros Hne. unfold var_attr. rewrite lookup_update_var.
  apply String.eqb_neq in Hne. by rewrite Hne.
Qed.

Lemma strip_step_frame (l : list string) : ∀ d,
  let r := foldl (λ d var_name,
                    match lookup_var var_name (variables d) with
                    | Some v => if bool_decide (is_Some (attrs v !! "coordinates"))
                                then update_var d var_name (del_attr "coordinates")
                                else d
                    | None => d
                    end) d l in
  names r = names d ∧ coords r = coords d ∧ global_attrs r = global_attrs d ∧
  (∀ b, b ∈ l → var_attr r b "coordinates" = None) ∧
  (∀ n, n ∉ l → var_attr r n "coordinates" = var_attr d n "coordinates").
Proof.
  induction l as [|x l IH]; intros d; cbn [foldl].
  - repeat split; try done. intros b Hb. by apply elem_of_nil in Hb.
  - set (d1 := match lookup_var x (variables d) with
               | Some v => if bool_decide (is_Some (attrs v !! "coordinates"))
                           then update_var d x (del_attr "coordinates") else d
               | None => d
               end).
    assert (H1 : names d1 = names d ∧ coords d1 = coords d ∧
                 global_attrs d1 = global_attrs d ∧
                 var_attr d1 x "coordinates" = None ∧
                 ∀ n, n ≠ x → var_attr d1 n "coordinates" = var_attr d n "coordinates").
    { subst d1. destruct (lookup_var x (variables d)) as [v|] eqn:Hx.
      - case_bool_decide as Hc.
        + split; [apply names_update_var|]. repeat split.
          * unfold var_attr. rewrite lookup_update_var, String.eqb_refl, Hx.
            simpl. apply lookup_delete_eq.
          * intros n Hn. apply var_attr_update_ne. by intros ->.
        + repeat split. unfold var_attr. rewrite Hx. simpl.
          by apply eq_None_not_Some.
      - repeat split. unfold var_attr. by rewrite Hx. }
    destruct H1 as (Hn1 & Hc1 & Hg1 & Hx1 & Ho1).
    destruct (IH d1) as (Hn & Hc & Hg & Hb & Ho).
    split; [congruence|]. split; [congruence|]. split; [congruence|]. split.
    + intros b [Heq|Hb']%elem_of_cons; [subst b|by apply Hb].
      destruct (decide (x ∈ l)) as [Hin|Hin]; [by apply Hb|].
      by rewrite Ho.
    + intros n [Hne Hnl]%not_elem_of_cons. rewrite Ho by done. by apply Ho1.
Qed.

Lemma restore_missing_value_subset_frame ds main sub :
  names (restore_missing_value_subset ds main sub) = names sub ∧
  coords (restore_missing_value_subset ds main sub) = coords sub ∧
  global_attrs (restore_missing_value_subset ds main sub) = global_attrs sub ∧
  ∀ n k, (n, k) ≠ (main, "missing_value") →
    var_attr (restore_missing_value_subset ds main sub) n k = var_attr sub n k.
Proof.
  unfold restore_missing_value_subset.
  destruct (contains_var sub main); [|done].
  destruct (template_encoding ds main !! "missing_value") as [mv|]; [|done].
  split; [apply names_update_var|]. repeat split.
  intros n k Hnk. destruct (decide (main = n)) as [->|Hne].
  - apply var_attr_update_other. intros <-. by apply Hnk.
  - by apply var_attr_update_ne.
Qed.

(** ** C2: chunk sizes in the four programs *)

Lemma foldM_result_Ok {S X} (f : S → X → result S) (l : list X) : ∀ s,
  (∀ s' x, x ∈ l → ∃ s'', f s' x = Ok s'') →
  ∃ s', foldM_result f s l = Ok s'.
Proof.
  induction l as [|x l IH]; intros s Hf; cbn [foldM_result]; [eauto|].
  destruct (Hf s x) as [s1 Hs1]; [left|]. rewrite Hs1. simpl.
  apply IH. intros s' y Hy. apply Hf. by right.
Qed.

(** On the chunk sizes a file gives, the clamping of the level-subset loops
    does not raise. *)
Lemma adjust_chunks_from_file sub n e sv :
  lookup_var n (variables sub) = Some sv →
  (∀ ch, e !! "chunksizes" = Some ch → chunks_from_file ch) →
  ∃ e', adjust_chunks sub n e = Ok e'.
Proof.
  intros Hsv Hf. destruct (e !! "chunksizes") as [ch|] eqn:He.
  - destruct (Hf ch eq_refl) as [->|[zs ->]].
    + unfold adjust_chunks. rewrite He. simpl. eauto.
    + rewrite (adjust_chunks_clamp sub n e _ sv He ltac:(done) Hsv).
      rewrite clamp_chunks_ints. simpl. eauto.
  - unfold adjust_chunks. rewrite He. eauto.
Qed.

Lemma level_subset_from_file ds main lv sub :
  sel_nearest ds "plev" lv = Ok sub →
  (∀ n v ch, lookup_var n (variables ds) = Some v →
     encoding v !! "chunksizes" = Some ch → chunks_from_file ch) →
  ∃ c, level_subset ds main lv = Ok c.
Proof.
  intros Hsel Hf. unfold level_subset. rewrite Hsel. simpl.
  set (sub' := strip_bounds_coordinates (restore_missing_value_subset ds main sub)).
  assert (Hn : names sub' = names ds).
  { subst sub'.
    destruct (strip_step_frame ["time_bnds"; "lat_bnds"; "lon_bnds"]
                (restore_missing_value_subset ds main sub)) as (Hn2 & _).
    fold (strip_bounds_coordinates (restore_missing_value_subset ds main sub)) in Hn2.
    destruct (restore_missing_value_subset_frame ds main sub) as (Hn1 & _).
    rewrite Hn2, Hn1.
    by destruct (sel_nearest_keeps ds "plev" lv sub "" "" Hsel) as [-> _]. }
  destruct (foldM_result_Ok (subset_encode_step ds sub' main) (names sub') ∅)
    as [enc Henc].
  { intros s x Hx. unfold subset_encode_step, subset_var_encoding, getitem.
    destruct (proj2 (lookup_var_is_Some x (variables sub')) Hx) as [sv Hsv].
    rewrite Hn in Hx.
    destruct (proj2 (lookup_var_is_Some x (variables ds)) Hx) as [orig Ho].
    rewrite Ho. simpl.
    destruct (adjust_chunks_from_file sub' x (keep_valid (encoding orig)) sv Hsv)
      as [e' He'].
    { intros ch Hch. rewrite keep_valid_lookup in Hch by apply chunksizes_valid.
      by eapply Hf. }
    rewrite He'. simpl. eauto. }
  rewrite Henc. simpl. eauto.
Qed.

(** The regrid loop never raises: once the steps before it have succeeded,
    the program reaches the serializer call. *)
Lemma create_cmor_dataset_loop_total now t rg ov main ds_h ds_b ds1 :
  resolve_main_var t rg = Ok main →
  process_height t main
    (copy_template_vars t
       (restore_missing_value t main
          (copy_variable_attrs t (set_global_attrs (global_attrs t) rg)))) = Ok ds_h →
  create_lat_lon_bounds ds_h = Ok ds_b →
  demote_height
    (rewrite_history now regrid_what t
       (set_global_attrs (apply_overrides_existing ov (global_attrs ds_b)) ds_b))
    = Ok ds1 →
  ∃ c, create_cmor_dataset now t rg ov = Ok c.
Proof.
  intros H1 H2 H3 H4. unfold create_cmor_dataset.
  rewrite H1. simpl. rewrite H2. simpl. rewrite H3. simpl. rewrite H4. simpl.
  destruct (foldl _ _ _). eauto.
Qed.

(** The direct-replacement loop passes [chunksizes] through. *)
Lemma direct_var_encoding_chunks t ds n :
  direct_var_encoding t ds n !! "chunksizes" = template_encoding t n !! "chunksizes".
Proof.
  unfold direct_var_encoding.
  rewrite keep_valid_lookup by apply chunksizes_valid.
  unfold suppress_fill_value. destruct (no_fill_value ds n); [|done].
  by rewrite lookup_insert_ne.
Qed.

(** C2, counterexample: the template's [time] axis holds one record and was
    written with chunks of 512 records.  The direct-replacement program
    gives [(512,)] to the serializer for the product's [time] of shape
    [(1,)]; the elementwise minimum would be [(1,)]. *)
Lemma direct_replacement_keeps_oversized_chunks :
  ∃ c e,
    cmorize_dataset "2026-11-04T00:00:00Z" Sample.user_data Sample2.chunked_template ∅
    = Ok c ∧
    shape_of (w_ds c) "time" = [1%nat] ∧
    w_encoding c !! "time" = Some e ∧
    e !! "chunksizes" = Some (PTuple [PInt 512]) ∧
    clamp_chunks (PTuple [PInt 512]) [1%nat] = Ok (Some (PTuple [PInt 1])).
Proof.
  eexists. eexists. split; [vm_compute; reflexivity|].
  split; [vm_compute; reflexivity|]. split; [vm_compute; reflexivity|].
  split; vm_compute; reflexivity.
Qed.

(** C2 (amended): for a variable whose template encoding has a
    [chunksizes] entry other than [None], in the regrid and the level-subset
    programs: when the entry is a tuple of integers of the product
    variable's rank, the final encoding holds the elementwise minimum of
    the recorded sizes and the product's dimension lengths ([(100, 50)] on
    shape [(10, 50)] gives [(10, 50)]); when the ranks differ, the final
    encoding has no [chunksizes].  In the regrid program an exception in
    this arithmetic removes [chunksizes] for that variable, and the loop
    never aborts the run: once the steps before it have succeeded, the
    product reaches the serializer.  In the level-subset programs the
    clamping does not raise on the chunk sizes a file gives ([None] or a
    tuple of integers): once the selection has succeeded, the product
    reaches the serializer.  The direct-replacement program does not clamp:
    it passes the template's [chunksizes] entry on as it is. *)
Theorem chunk_sizes_clamped :
  (∀ now t rg ov c name da ch,
     create_cmor_dataset now t rg ov = Ok c →
     lookup_var name (variables (w_ds c)) = Some da →
     template_encoding t name !! "chunksizes" = Some ch → ch ≠ PNone →
     ∃ e, w_encoding c !! name = Some e ∧
          e !! "chunksizes" = match clamp_chunks ch (shape da) with
                              | Ok (Some new) => Some new
                              | Ok None => None
                              | Raise _ => None
                              end)
  ∧ (∀ now t rg ov main ds_h ds_b ds1,
       resolve_main_var t rg = Ok main →
       process_height t main
         (copy_template_vars t
            (restore_missing_value t main
               (copy_variable_attrs t (set_global_attrs (global_attrs t) rg))))
       = Ok ds_h →
       create_lat_lon_bounds ds_h = Ok ds_b →
       demote_height
         (rewrite_history now regrid_what t
            (set_global_attrs (apply_overrides_existing ov (global_attrs ds_b)) ds_b))
       = Ok ds1 →
       ∃ c, create_cmor_dataset now t rg ov = Ok c)
  ∧ (∀ ds main levels c name da ch,
       level_subset ds main levels = Ok c →
       lookup_var name (variables (w_ds c)) = Some da →
       template_encoding ds name !! "chunksizes" = Some ch → ch ≠ PNone →
       ∃ e r, w_encoding c !! name = Some e ∧
              clamp_chunks ch (shape da) = Ok r ∧ e !! "chunksizes" = r)
  ∧ (∀ ds main levels sub,
       sel_nearest ds "plev" levels = Ok sub →
       (∀ n v ch, lookup_var n (variables ds) = Some v →
          encoding v !! "chunksizes" = Some ch → chunks_from_file ch) →
       ∃ c, level_subset ds main levels = Ok c)
  ∧ (∀ now u t ov c name,
       cmorize_dataset now u t ov = Ok c → name ∈ names (w_ds c) →
       ∃ e, w_encoding c !! name = Some e ∧
            e !! "chunksizes" = template_encoding t name !! "chunksizes")
  ∧ (∀ zs sh,
       clamp_chunks (PTuple (PInt <$> zs)) sh
       = Ok (if decide (length zs = length sh)
             then Some (PTuple (PInt <$> zip_with Z.min zs (Z.of_nat <$> sh)))
             else None))
  ∧ clamp_chunks (PTuple [PInt 100; PInt 50]) [10; 50]%nat
    = Ok (Some (PTuple [PInt 10; PInt 50])).
Proof.
  split; [|split; [|split; [|split; [|split; [|split]]]]].
  - intros now t rg ov c name da ch Hc Hda Hch Hne.
    destruct (create_cmor_dataset_Ok _ _ _ _ _ Hc)
      as (main & ? & ? & ds1 & _ & _ & _ & _ & (Hnames & _ & _ & Hv) & Henc & _).
    specialize (Hv name). rewrite Hda in Hv.
    inversion Hv as [da1 da' (_ & Hs & _) E1 E2|]; subst.
    exists (regrid_var_encoding t ds1 name). split.
    + rewrite Henc, bool_decide_eq_true_2; [done|].
      eapply lookup_var_names; eauto.
    + rewrite (regrid_var_encoding_chunks t ds1 name da1 ch); [|done..].
      rewrite Hs. by destruct (clamp_chunks _ _) as [[?|]|].
  - apply create_cmor_dataset_loop_total.
  - intros ds main levels c name da ch Hl Hda Hch Hne.
    destruct (level_subset_Ok _ _ _ _ Hl) as (sub & _ & _ & Henc & _).
    destruct (Henc name) as (e & He & Hlk); [by eapply lookup_var_names|].
    destruct (subset_var_encoding_chunks _ _ _ _ _ _ _ He Hda Hch Hne)
      as (r & Hr & Her).
    by exists e, r.
  - apply level_subset_from_file.
  - intros now u t ov c name Hc Hin.
    destruct (cmorize_dataset_Ok _ _ _ _ _ Hc)
      as (main & tv & ds1 & _ & _ & _ & _ & (Hnames & _) & Henc & _).
    exists (direct_var_encoding t ds1 name). split.
    + rewrite Henc, bool_decide_eq_true_2; [done|]. by rewrite <- Hnames.
    + apply direct_var_encoding_chunks.
  - apply clamp_chunks_ints.
  - reflexivity.
Qed.

Lemma chunk_sizes_clamped_witness :
  (∃ c da,
     create_cmor_dataset "2026-11-04T00:00:00Z" Sample.template Sample.regridded
       Sample.overrides = Ok c ∧
     lookup_var "tas" (variables (w_ds c)) = Some da ∧
     shape da = [1; 2; 3]%nat ∧
     clamp_chunks (PTuple [PInt 1; PInt 100; PInt 50]) [1; 2; 3]%nat
     = Ok (Some (PTuple [PInt 1; PInt 2; PInt 3])) ∧
     ∃ e, w_encoding c !! "tas" = Some e ∧
          e !! "chunksizes"
          = match clamp_chunks (PTuple [PInt 1; PInt 100; PInt 50]) (shape da) with
            | Ok (Some new) => Some new
            | Ok None => None
            | Raise _ => None
            end)
  ∧ ∃ c, level_subset (Sample.levels_file []
                         {["chunksizes" := PTuple [PInt 1; PInt 3; PInt 100; PInt 100]]})
           "zg" [50000]%float = Ok c.
Proof.
  split.
  - eexists. eexists. split; [vm_compute; reflexivity|].
    split; [vm_compute; reflexivity|]. split; [reflexivity|].
    split; [reflexivity|].
    eapply (proj1 chunk_sizes_clamped "2026-11-04T00:00:00Z" Sample.template
              Sample.regridded Sample.overrides).
    + vm_compute. reflexivity.
    + vm_compute. reflexivity.
    + vm_compute. reflexivity.
    + discriminate.
  - eapply (proj1 (proj2 (proj2 (proj2 chunk_sizes_clamped)))).
    + vm_compute. reflexivity.
    + intros n v ch Hv Hch.
      assert (Hin : (n, v) ∈ variables (Sample.levels_file []
                {["chunksizes" := PTuple [PInt 1; PInt 3; PInt 100; PInt 100]]}))
        by (by apply lookup_var_elem_of).
      cbn [Sample.levels_file variables app] in Hin.
      repeat (apply elem_of_cons in Hin as [[= -> ->]|Hin];
              [first [ by vm_compute in Hch
                     | vm_compute in Hch; injection Hch as <-;
                       right; by exists [1; 3; 100; 100] ]|]).
      by apply elem_of_nil in Hin.
Defined.

(** ** C10: the level-subset entry points catch everything *)

(** C10: whatever the world and the arguments, [process_netcdf_file] and
    [extract_pressure_level] return normally.  When the body of the [try]
    raises (missing file, no index for [plev], a chunk entry that cannot be
    clamped, a failing serializer), the only effect of the handler is one
    printed report: "input file not found" for a [FileNotFoundError], the
    exception itself otherwise. *)
Theorem level_subset_never_raises :
  (∀ i o lv w, ∃ w',
     process_netcdf_file i o lv w = (Ok tt, w') ∧
     match process_netcdf_body i o lv w with
     | (Ok _, w1) => w' = w1
     | (Raise e, w1) =>
         w' = {| disk := disk w1; unwritable := unwritable w1;
                 written := written w1;
                 stdout := (match class_of e with
                            | FileNotFoundError => InputFileNotFound i
                            | _ => UnexpectedError e
                            end) :: stdout w1 |}
     end)
  ∧ (∀ i o p w, ∃ w',
       extract_pressure_level i o p w = (Ok tt, w') ∧
       match extract_pressure_body i o p w with
       | (Ok _, w1) => w' = w1
       | (Raise e, w1) =>
           w' = {| disk := disk w1; unwritable := unwritable w1;
                   written := written w1;
                   stdout := (match class_of e with
                              | FileNotFoundError => InputFileNotFound i
                              | _ => UnexpectedError e
                              end) :: stdout w1 |}
       end).
Proof.
  split.
  - intros i o lv w. unfold process_netcdf_file, try_except.
    destruct (process_netcdf_body i o lv w) as [[[]|e] w1].
    + by exists w1.
    + unfold report_failure. destruct (class_of e); eexists; split; reflexivity.
  - intros i o p w. unfold extract_pressure_level, try_except.
    destruct (extract_pressure_body i o p w) as [[[]|e] w1].
    + by exists w1.
    + unfold report_failure. destruct (class_of e); eexists; split; reflexivity.
Qed.

(** The failures the claim lists, on sample inputs: a missing file, a file
    whose [plev] is no coordinate, and an unwritable output path. *)
Lemma level_subset_failures_reported :
  process_netcdf_file "absent.nc" "out.nc" [50000]%float
    (Sample.world_with "in.nc" (Sample.levels_file [] ∅))
  = (Ok tt, {| disk := {["in.nc" := Sample.levels_file [] ∅]};
               unwritable := ∅; written := ∅;
               stdout := [InputFileNotFound "absent.nc"] |})
  ∧ stdout (extract_pressure_level "in.nc" "out.nc" 50000%float
              (Sample.world_with "in.nc" Sample.template)).2
    = [NoPressureCoordinate "plev"]
  ∧ (let w := {| disk := {["in.nc" := Sample.levels_file [] ∅]};
                 unwritable := {["out.nc" := (OSError, "Permission denied")]};
                 written := ∅; stdout := [] |} in
     (extract_pressure_level "in.nc" "out.nc" 50000%float w).1 = Ok tt ∧
     stdout (extract_pressure_level "in.nc" "out.nc" 50000%float w).2
     = [UnexpectedError (ELib OSError "Permission denied")]).
Proof. repeat split; by vm_compute. Qed.

(** * Further properties of the four programs *)

(** ** The bounds generator on short inputs *)

(** [create_bounds] needs two coordinate values: on fewer it ends in the
    [IndexError] of [coord_vals[0]] or [diffs[0]], on more it returns. *)
Theorem create_bounds_needs_two_values (v : list float) :
  create_bounds v = Raise (ELib IndexError "index out of bounds") ↔ (length v < 2)%nat.
Proof.
  split.
  - intros H. destruct (decide (2 ≤ length v)%nat) as [Hn|Hn]; [|lia].
    destruct (create_bounds_in_rows f64 v Hn) as (b & Hb & _).
    unfold create_bounds in H. congruence.
  - destruct v as [|x [|y v]]; simpl; [done|done|lia].
Qed.

Lemma create_bounds_in_short (A : arith) (v : list (num A)) :
  (length v < 2)%nat →
  create_bounds_in A v = Raise (ELib IndexError "index out of bounds").
Proof. destruct v as [|x [|y v]]; simpl; [done|done|lia]. Qed.

(** ** The products of the direct-replacement and regrid programs *)

(** No variable other than the main one carries a [coordinates] attribute
    in the dataset the direct-replacement or the regrid program hands to the
    serializer. *)
Theorem rogue_coordinates_removed :
  (∀ now u t ov c main n,
     cmorize_dataset now u t ov = Ok c →
     variable_id_in (global_attrs t) (data_vars t).*1 = Some main →
     n ≠ main → var_attr (w_ds c) n "coordinates" = None)
  ∧ (∀ now t rg ov c main n,
       create_cmor_dataset now t rg ov = Ok c →
       resolve_main_var t rg = Ok main →
       n ≠ main → var_attr (w_ds c) n "coordinates" = None).
Proof.
  split.
  - intros now u t ov c main n Hc Hm Hne.
    destruct (cmorize_dataset_product _ _ _ _ _ Hc)
      as (main' & tv & ds1 & Hm' & _ & _ & ->).
    rewrite Hm in Hm'. injection Hm' as <-.
    destruct (decide (n ∈ names ds1)) as [Hin|Hin].
    + by apply (loop_coordinates_gone main _ (direct_var_encoding_cleaned main t)).
    + destruct (encoding_loop main _ (direct_var_encoding_cleaned main t)
                  (names ds1) ds1 ds1 ∅ (cleaned_refl _ _)) as [(Hn & _) _].
      unfold var_attr.
      rewrite (proj2 (lookup_var_None n _)); [done|].
      fold (names (foldl (loop_step main (direct_var_encoding t)) (ds1, ∅) (names ds1)).1).
      by rewrite Hn.
  - intros now t rg ov c main n Hc Hm Hne.
    destruct (create_cmor_dataset_product _ _ _ _ _ Hc)
      as (main' & ? & ? & ds1 & Hm' & _ & _ & _ & ->).
    rewrite Hm in Hm'. injection Hm' as <-.
    destruct (decide (n ∈ names ds1)) as [Hin|Hin].
    + by apply (loop_coordinates_gone main _ (regrid_var_encoding_cleaned main t)).
    + destruct (encoding_loop main _ (regrid_var_encoding_cleaned main t)
                  (names ds1) ds1 ds1 ∅ (cleaned_refl _ _)) as [(Hn & _) _].
      unfold var_attr.
      rewrite (proj2 (lookup_var_None n _)); [done|].
      fold (names (foldl (loop_step main (regrid_var_encoding t)) (ds1, ∅) (names ds1)).1).
      by rewrite Hn.
Qed.

Lemma rogue_coordinates_removed_witness :
  var_attr Sample.template "time_bnds" "coordinates" = Some (PStr "height") ∧
  ∃ c, cmorize_dataset "2026-11-04T00:00:00Z" Sample.user_data Sample.template
         Sample.overrides = Ok c ∧
       var_attr (w_ds c) "time_bnds" "coordinates" = None.
Proof.
  split; [reflexivity|]. eexists. split; [vm_compute; reflexivity|].
  apply (proj1 rogue_coordinates_removed "2026-11-04T00:00:00Z" Sample.user_data
           Sample.template Sample.overrides _ "tas" "time_bnds").
  - vm_compute. reflexivity.
  - vm_compute. reflexivity.
  - discriminate.
Defined.

(** [height] is never a coordinate in the dataset the direct-replacement
    or the regrid program hands to the serializer. *)
Theorem height_never_a_coordinate :
  (∀ now u t ov c, cmorize_dataset now u t ov = Ok c → "height" ∉ coords (w_ds c))
  ∧ (∀ now t rg ov c,
       create_cmor_dataset now t rg ov = Ok c → "height" ∉ coords (w_ds c)).
Proof.
  split.
  - intros now u t ov c Hc.
    destruct (cmorize_dataset_Ok _ _ _ _ _ Hc)
      as (main & tv & ds1 & _ & _ & _ & Hd & (_ & Hco & _) & _).
    apply demote_height_Ok in Hd as (_ & _ & Hh & _). by rewrite Hco.
  - intros now t rg ov c Hc.
    destruct (create_cmor_dataset_Ok _ _ _ _ _ Hc)
      as (main & ? & ? & ds1 & _ & _ & _ & Hd & (_ & Hco & _) & _).
    apply demote_height_Ok in Hd as (_ & _ & Hh & _). by rewrite Hco.
Qed.

Lemma height_never_a_coordinate_witness :
  "height" ∈ coords Sample.template ∧
  ∃ c, cmorize_dataset "2026-11-04T00:00:00Z" Sample.user_data Sample.template
         Sample.overrides = Ok c ∧ "height" ∉ coords (w_ds c).
Proof.
  split; [vm_compute; set_solver|]. eexists. split; [vm_compute; reflexivity|].
  apply (proj1 height_never_a_coordinate "2026-11-04T00:00:00Z" Sample.user_data
           Sample.template Sample.overrides).
  vm_compute. reflexivity.
Defined.

(** ** The encoding map given to the serializer *)

Lemma keep_valid_keys e k : is_Some (keep_valid e !! k) → k ∈ valid_keys.
Proof.
  intros [x Hx]. unfold keep_valid in Hx.
  apply map_lookup_filter_Some in Hx as [_ Hk]. exact Hk.
Qed.

(** Filtering an encoding through the whitelist a second time changes
    nothing. *)
Theorem keep_valid_idempotent (e : gmap string pyval) :
  keep_valid (keep_valid e) = keep_valid e.
Proof.
  apply map_eq. intros k. destruct (keep_valid e !! k) as [x|] eqn:Hk.
  - rewrite keep_valid_lookup; [done|]. apply (keep_valid_keys e). eauto.
  - unfold keep_valid at 1. rewrite map_lookup_filter, Hk. done.
Qed.

Lemma adjust_chunks_keys sub n e e' k :
  adjust_chunks sub n e = Ok e' → is_Some (e' !! k) →
  k = "chunksizes" ∨ is_Some (e !! k).
Proof.
  unfold adjust_chunks. destruct (e !! "chunksizes") as [ch|] eqn:Hch.
  - destruct (is_none ch); [intros [= <-]; by right|].
    destruct (getitem sub n) as [sv|]; [|done]. simpl.
    destruct (py_len ch) as [m|]; [|done]. simpl.
    case_bool_decide.
    + destruct (mapM_result _ _) as [new|]; [|done]. simpl. intros [= <-].
      destruct (decide (k = "chunksizes")) as [->|Hk]; [by left|].
      rewrite lookup_insert_ne by done. by right.
    + intros [= <-]. destruct (decide (k = "chunksizes")) as [->|Hk]; [by left|].
      rewrite lookup_delete_ne by done. by right.
  - intros [= <-]. by right.
Qed.

Lemma subset_var_encoding_keys ds sub main n e k :
  subset_var_encoding ds sub main n = Ok e → is_Some (e !! k) → k ∈ valid_keys.
Proof.
  unfold subset_var_encoding. destruct (getitem ds n) as [orig|]; [|done]. simpl.
  destruct (adjust_chunks _ _ _) as [ve|] eqn:Ha; [|done]. simpl.
  intros [= <-] Hk.
  assert (Hve : is_Some (ve !! k) → k ∈ valid_keys).
  { intros H. destruct (adjust_chunks_keys _ _ _ _ _ Ha H) as [->|H'].
    - apply chunksizes_valid.
    - by apply keep_valid_keys in H'. }
  destruct (negb _); [|by apply Hve].
  destruct (decide (k = "_FillValue")) as [->|Hne]; [apply fill_value_valid|].
  rewrite lookup_insert_ne in Hk by done. by apply Hve.
Qed.

Lemma level_subset_encoding ds main lv c :
  level_subset ds main lv = Ok c →
  ∀ n, if bool_decide (n ∈ names (w_ds c))
       then ∃ e, subset_var_encoding ds (w_ds c) main n = Ok e ∧
                 w_encoding c !! n = Some e
       else w_encoding c !! n = None.
Proof.
  unfold level_subset.
  destruct (sel_nearest ds "plev" lv) as [sub|]; [|done]. simpl.
  destruct (foldM_result _ _ _) as [enc|] eqn:Hf; [|done]. simpl.
  intros [= <-] n. simpl. pose proof (subset_loop _ _ _ _ _ _ Hf n) as H.
  case_bool_decide; [done|]. by rewrite H, lookup_empty.
Qed.

(** Every key of every per-variable encoding the four programs give to the
    serializer is one of the thirteen whitelisted keys. *)
Theorem only_whitelisted_encoding_keys :
  (∀ now u t ov c n e k,
     cmorize_dataset now u t ov = Ok c →
     w_encoding c !! n = Some e → is_Some (e !! k) → k ∈ valid_keys)
  ∧ (∀ now t rg ov c n e k,
       create_cmor_dataset now t rg ov = Ok c →
       w_encoding c !! n = Some e → is_Some (e !! k) → k ∈ valid_keys)
  ∧ (∀ ds main lv c n e k,
       level_subset ds main lv = Ok c →
       w_encoding c !! n = Some e → is_Some (e !! k) → k ∈ valid_keys).
Proof.
  split; [|split].
  - intros now u t ov c n e k Hc He Hk.
    destruct (cmorize_dataset_Ok _ _ _ _ _ Hc)
      as (main & tv & ds1 & _ & _ & _ & _ & _ & Henc & _).
    rewrite Henc in He. case_bool_decide; [|done]. injection He as <-.
    exact (keep_valid_keys _ _ Hk).
  - intros now t rg ov c n e k Hc He Hk.
    destruct (create_cmor_dataset_Ok _ _ _ _ _ Hc)
      as (main & ? & ? & ds1 & _ & _ & _ & _ & _ & Henc & _).
    rewrite Henc in He. case_bool_decide; [|done]. injection He as <-.
    exact (keep_valid_keys _ _ Hk).
  - intros ds main lv c n e k Hl He Hk.
    pose proof (level_subset_encoding _ _ _ _ Hl n) as H.
    case_bool_decide; [|congruence].
    destruct H as (e' & He' & Hlk). rewrite Hlk in He. injection He as <-.
    by eapply subset_var_encoding_keys.
Qed.

Lemma only_whitelisted_encoding_keys_witness :
  encoding Sample.tas !! "source" = Some (PStr "tas_Amon.nc") ∧
  ∃ c e,
    cmorize_dataset "2026-11-04T00:00:00Z" Sample.user_data Sample.template
      Sample.overrides = Ok c ∧
    w_encoding c !! "tas" = Some e ∧ e !! "source" = None ∧
    (is_Some (e !! "chunksizes") → "chunksizes" ∈ valid_keys).
Proof.
  split; [reflexivity|]. eexists. eexists.
  split; [vm_compute; reflexivity|]. split; [vm_compute; reflexivity|].
  split; [vm_compute; reflexivity|].
  eapply (proj1 only_whitelisted_encoding_keys "2026-11-04T00:00:00Z"
            Sample.user_data Sample.template Sample.overrides _ "tas").
  - vm_compute. reflexivity.
  - vm_compute. reflexivity.
Defined.

(** The encoding map has an entry for exactly the variables of the dataset
    it is written with. *)
Theorem encoding_covers_the_variables :
  (∀ now u t ov c n,
     cmorize_dataset now u t ov = Ok c →
     is_Some (w_encoding c !! n) ↔ n ∈ names (w_ds c))
  ∧ (∀ now t rg ov c n,
       create_cmor_dataset now t rg ov = Ok c →
       is_Some (w_encoding c !! n) ↔ n ∈ names (w_ds c))
  ∧ (∀ ds main lv c n,
       level_subset ds main lv = Ok c →
       is_Some (w_encoding c !! n) ↔ n ∈ names (w_ds c)).
Proof.
  split; [|split].
  - intros now u t ov c n Hc.
    destruct (cmorize_dataset_Ok _ _ _ _ _ Hc)
      as (main & tv & ds1 & _ & _ & _ & _ & (Hn & _) & Henc & _).
    rewrite Henc, Hn. case_bool_decide as Hin.
    + split; eauto.
    + split; [by intros [? [=]] | done].
  - intros now t rg ov c n Hc.
    destruct (create_cmor_dataset_Ok _ _ _ _ _ Hc)
      as (main & ? & ? & ds1 & _ & _ & _ & _ & (Hn & _) & Henc & _).
    rewrite Henc, Hn. case_bool_decide as Hin.
    + split; eauto.
    + split; [by intros [? [=]] | done].
  - intros ds main lv c n Hl.
    pose proof (level_subset_encoding _ _ _ _ Hl n) as H.
    case_bool_decide.
    + destruct H as (e & _ & ->). split; eauto.
    + rewrite H. split; [by intros [? [=]] | done].
Qed.

Lemma encoding_covers_the_variables_witness :
  ∃ c, create_cmor_dataset "2026-11-04T00:00:00Z" Sample.template
         Sample.regridded Sample.overrides = Ok c ∧
       (is_Some (w_encoding c !! "lat_bnds") ↔ "lat_bnds" ∈ names (w_ds c)) ∧
       (is_Some (w_encoding c !! "plev") ↔ "plev" ∈ names (w_ds c)).
Proof.
  eexists. split; [vm_compute; reflexivity|].
  split;
    apply (proj1 (proj2 encoding_covers_the_variables) "2026-11-04T00:00:00Z"
             Sample.template Sample.regridded Sample.overrides);
    vm_compute; reflexivity.
Defined.

(** The direct-replacement program clamps nothing: for every variable the
    final encoding is the template's, filtered through the whitelist, with
    at most [_FillValue] changed; and it is exactly that when the variable
    is no coordinate, contains no [_bnds] and is not [height]. *)
Theorem direct_replacement_encoding now u t ov c n :
  cmorize_dataset now u t ov = Ok c →
  n ∈ names (w_ds c) →
  ∃ e, w_encoding c !! n = Some e ∧
    (∀ k, k ≠ "_FillValue" → e !! k = keep_valid (template_encoding t n) !! k) ∧
    (no_fill_value (w_ds c) n = false → e = keep_valid (template_encoding t n)).
Proof.
  intros Hc Hn.
  destruct (cmorize_dataset_Ok _ _ _ _ _ Hc)
    as (main & tv & ds1 & _ & _ & _ & _ & Hcl & Henc & _).
  pose proof Hcl as (Hnames & _).
  exists (direct_var_encoding t ds1 n). split; [|split].
  - rewrite Henc, bool_decide_eq_true_2; [done|]. by rewrite <- Hnames.
  - intros k Hk. unfold direct_var_encoding, suppress_fill_value.
    destruct (no_fill_value ds1 n); [|done].
    unfold keep_valid. rewrite !map_lookup_filter.
    by rewrite lookup_insert_ne by done.
  - rewrite (cleaned_no_fill_value main ds1 (w_ds c) n Hcl).
    intros Hf. unfold direct_var_encoding, suppress_fill_value. by rewrite Hf.
Qed.

Lemma direct_replacement_encoding_witness :
  ∃ c,
    cmorize_dataset "2026-11-04T00:00:00Z" Sample.user_data Sample.template
      Sample.overrides = Ok c ∧
    ∃ e, w_encoding c !! "tas" = Some e ∧
      (∀ k, k ≠ "_FillValue" →
         e !! k = keep_valid (template_encoding Sample.template "tas") !! k) ∧
      (no_fill_value (w_ds c) "tas" = false →
       e = keep_valid (template_encoding Sample.template "tas")).
Proof.
  eexists. split; [vm_compute; reflexivity|].
  apply (direct_replacement_encoding "2026-11-04T00:00:00Z" Sample.user_data
           Sample.template Sample.overrides).
  - vm_compute. reflexivity.
  - vm_compute. set_solver.
Defined.

(** ** What direct replacement leaves alone *)

(** The direct-replacement product has the template's variables in the
    template's order and the template's coordinates except [height]; every
    variable other than the main one keeps its dimensions, shape, payload
    and encoding. *)
Theorem direct_replacement_frame now u t ov c main :
  cmorize_dataset now u t ov = Ok c →
  variable_id_in (global_attrs t) (data_vars t).*1 = Some main →
  names (w_ds c) = names t ∧
  coords (w_ds c) = coords t ∖ {["height"]} ∧
  ∀ n v, n ≠ main → lookup_var n (variables t) = Some v →
    ∃ v', lookup_var n (variables (w_ds c)) = Some v' ∧
          dims v' = dims v ∧ shape v' = shape v ∧ values v' = values v ∧
          encoding v' = encoding v.
Proof.
  intros Hc Hm.
  destruct (cmorize_dataset_Ok _ _ _ _ _ Hc)
    as (main' & tv & ds1 & Hm' & _ & _ & Hd & (Hn & Hco & _ & Hv) & _).
  rewrite Hm in Hm'. injection Hm' as <-.
  assert (Hcoords : coords ds1 = coords t ∖ {["height"]}).
  { revert Hd. unfold demote_height, reset_coords.
    change (coords (rewrite_history _ _ _ _)) with (coords t).
    case_bool_decide as Hh.
    - destruct (is_index _ "height"); [done|]. by intros [= <-].
    - intros [= <-]. change (coords (rewrite_history _ _ _ _)) with (coords t).
      apply set_eq. intros x. rewrite elem_of_difference, elem_of_singleton.
      split; [|by intros [? _]]. intros Hx. split; [done|]. by intros ->. }
  apply demote_height_Ok in Hd as (Hvars & _).
  split; [|split].
  - rewrite Hn. unfold names. rewrite Hvars.
    change (variables (rewrite_history _ _ _ _))
      with (variables (update_var t main (set_values (a_shape u) (a_values u)))).
    apply names_update_var.
  - by rewrite Hco.
  - intros n v Hne Hlk. specialize (Hv n). rewrite Hvars in Hv.
    change (variables (rewrite_history _ _ _ _))
      with (variables (update_var t main (set_values (a_shape u) (a_values u))))
      in Hv.
    rewrite lookup_update_var in Hv. apply String.eqb_neq in Hne.
    rewrite String.eqb_sym, Hne, Hlk in Hv.
    inversion Hv as [v1 v' (Hd' & Hs' & Hva & He & _)|]; subst.
    by exists v'.
Qed.

Lemma direct_replacement_frame_witness :
  ∃ c, cmorize_dataset "2026-11-04T00:00:00Z" Sample.user_data Sample.template
         Sample.overrides = Ok c ∧
       names (w_ds c) = names Sample.template ∧
       coords (w_ds c) = coords Sample.template ∖ {["height"]} ∧
       ∀ n v, n ≠ "tas" → lookup_var n (variables Sample.template) = Some v →
         ∃ v', lookup_var n (variables (w_ds c)) = Some v' ∧
               dims v' = dims v ∧ shape v' = shape v ∧ values v' = values v ∧
               encoding v' = encoding v.
Proof.
  eexists. split; [vm_compute; reflexivity|].
  apply (direct_replacement_frame "2026-11-04T00:00:00Z" Sample.user_data
           Sample.template Sample.overrides).
  - vm_compute. reflexivity.
  - vm_compute. reflexivity.
Defined.

(** ** The fallback of the regrid program *)

Lemma py_max_by_first {X} (key : X → nat) (rest : list X) : ∀ first,
  ∃ i, (first :: rest) !! i = Some (py_max_by key first rest) ∧
       ∀ j y, (j < i)%nat → (first :: rest) !! j = Some y →
              (key y < key (py_max_by key first rest))%nat.
Proof.
  unfold py_max_by. induction rest as [|y rest IH]; intros first.
  - exists 0%nat. split; [done|]. intros j z Hj. lia.
  - cbn [foldl]. destruct (decide (key first < key y)%nat) as [Hlt|Hge].
    + destruct (IH y) as (i & Hi & Hbefore). exists (S i). split; [exact Hi|].
      intros j z Hj Hz. destruct j as [|j].
      * injection Hz as <-.
        destruct (py_max_by_spec key rest y) as [_ Hmax].
        unfold py_max_by in Hmax. specialize (Hmax y ltac:(left)). lia.
      * apply (Hbefore j z); [lia|exact Hz].
    + destruct (IH first) as (i & Hi & Hbefore). destruct i as [|i].
      * exists 0%nat. split; [exact Hi|]. intros j z Hj. lia.
      * exists (S (S i)). split; [exact Hi|].
        intros j z Hj Hz. destruct j as [|[|j]].
        -- apply (Hbefore 0%nat z); [lia|exact Hz].
        -- injection Hz as <-.
           assert (Hf : (key first < key (foldl (λ best x,
                           if decide (key best < key x)%nat then x else best)
                           first rest))%nat)
             by (apply (Hbefore 0%nat first); [lia|done]).
           lia.
        -- apply (Hbefore (S j) z); [lia|exact Hz].
Qed.

(** When the fallback is used, the regrid program takes the first candidate
    with the largest number of dimensions: every candidate before it in the
    order of [data_vars] has strictly fewer. *)
Theorem fallback_takes_first_largest (t rg : Dataset) :
  variable_id_in (global_attrs t) (data_vars rg).*1 = None →
  candidate_vars rg ≠ [] →
  ∃ i name nd,
    resolve_main_var t rg = Ok name ∧
    candidate_vars rg !! i = Some (name, nd) ∧
    (∀ j name' nd', (j < i)%nat →
       candidate_vars rg !! j = Some (name', nd') → (nd' < nd)%nat) ∧
    (∀ j name' nd', candidate_vars rg !! j = Some (name', nd') → (nd' ≤ nd)%nat).
Proof.
  intros Hid Hne. unfold resolve_main_var. rewrite Hid.
  destruct (candidate_vars rg) as [|c cs] eqn:Hcs; [done|].
  destruct (py_max_by_first snd cs c) as (i & Hi & Hbefore).
  destruct (py_max_by_spec snd cs c) as [_ Hmax].
  destruct (py_max_by snd c cs) as [name nd] eqn:Hbest.
  exists i, name, nd. split; [done|]. split; [exact Hi|]. split.
  - intros j name' nd' Hj Hlk. exact (Hbefore j (name', nd') Hj Hlk).
  - intros j name' nd' Hlk. apply (Hmax (name', nd')).
    by eapply list_elem_of_lookup_2.
Qed.

Lemma fallback_takes_first_largest_witness :
  ∃ i name nd,
    resolve_main_var Sample2.anonymous_template Sample2.three_fields = Ok name ∧
    name = "pr" ∧
    candidate_vars Sample2.three_fields !! i = Some (name, nd) ∧
    (∀ j name' nd', (j < i)%nat →
       candidate_vars Sample2.three_fields !! j = Some (name', nd') →
       (nd' < nd)%nat) ∧
    (∀ j name' nd',
       candidate_vars Sample2.three_fields !! j = Some (name', nd') →
       (nd' ≤ nd)%nat).
Proof.
  destruct (fallback_takes_first_largest Sample2.anonymous_template
              Sample2.three_fields) as (i & name & nd & Hr & Hrest).
  - vm_compute. reflexivity.
  - vm_compute. discriminate.
  - exists i, name, nd. split; [exact Hr|]. split; [|exact Hrest].
    vm_compute in Hr. by injection Hr as <-.
Defined.

(** ** Chunk sizes after clamping *)

(** Clamped chunk sizes fit: for a recorded tuple of integers of the
    variable's rank, every new chunk size is at most the dimension length
    and at most the recorded size, and clamping the result again against
    the same shape changes nothing. *)
Theorem clamped_chunks_fit (zs : list Z) (sh : list nat) :
  length zs = length sh →
  ∃ new,
    clamp_chunks (PTuple (PInt <$> zs)) sh = Ok (Some (PTuple (PInt <$> new))) ∧
    length new = length sh ∧
    (∀ i z n c, zs !! i = Some z → sh !! i = Some n → new !! i = Some c →
       c ≤ Z.of_nat n ∧ c ≤ z ∧ (c = z ∨ c = Z.of_nat n)) ∧
    clamp_chunks (PTuple (PInt <$> new)) sh = Ok (Some (PTuple (PInt <$> new))).
Proof.
  intros Hlen. exists (zip_with Z.min zs (Z.of_nat <$> sh)).
  assert (Hl : length (zip_with Z.min zs (Z.of_nat <$> sh)) = length sh).
  { rewrite length_zip_with, length_fmap. lia. }
  split; [|split; [exact Hl|split]].
  - rewrite clamp_chunks_ints. by rewrite decide_True.
  - intros i z n c Hz Hn Hc.
    rewrite lookup_zip_with, Hz, list_lookup_fmap, Hn in Hc. simpl in Hc.
    injection Hc as <-. lia.
  - rewrite clamp_chunks_ints, decide_True by exact Hl. do 4 f_equal.
    apply list_eq. intros i.
    rewrite !lookup_zip_with, list_lookup_fmap.
    destruct (zs !! i) as [z|]; [|done]. simpl.
    destruct (sh !! i) as [n|]; [|done]. simpl. f_equal. lia.
Qed.

Lemma clamped_chunks_fit_witness :
  ∃ new,
    clamp_chunks (PTuple (PInt <$> [100; 50])) [10; 50]%nat
      = Ok (Some (PTuple (PInt <$> new))) ∧
    length new = 2%nat ∧
    (∀ i z n c, [100; 50] !! i = Some z → [10; 50]%nat !! i = Some n →
       new !! i = Some c → c ≤ Z.of_nat n ∧ c ≤ z ∧ (c = z ∨ c = Z.of_nat n)) ∧
    clamp_chunks (PTuple (PInt <$> new)) [10; 50]%nat
      = Ok (Some (PTuple (PInt <$> new))).
Proof. apply (clamped_chunks_fit [100; 50] [10; 50]%nat). reflexivity. Defined.

(** ** The override loops as maps *)

(** The direct-replacement loop is the union of the override map with the
    attributes, the override map winning; the regrid loop never changes
    which keys the global attributes have. *)
Theorem override_loops_on_keys (ov g : gmap string attrval) :
  apply_overrides ov g = ov ∪ g ∧
  dom (apply_overrides_existing ov g) = dom g.
Proof.
  split.
  - apply map_eq. intros k. rewrite apply_overrides_lookup, lookup_union.
    destruct (ov !! k), (g !! k); done.
  - apply set_eq. intros k. rewrite !elem_of_dom, apply_overrides_existing_lookup.
    destruct (g !! k); split; try done; eauto.
Qed.

(** ** History across two runs *)

(** Used as the template of a second direct replacement, the product of a
    first one gets a history with both entries, the later one first, in
    front of the original template's history. *)
Theorem history_chains now1 now2 u1 u2 t ov1 ov2 c1 c2 :
  cmorize_dataset now1 u1 t ov1 = Ok c1 →
  cmorize_dataset now2 u2 (w_ds c1) ov2 = Ok c2 →
  global_attrs (w_ds c2) !! "history"
  = Some (AStr ((now2 +:+ ": Data replaced with user-provided in-memory data.")
                +:+ " ; "
                +:+ (now1 +:+ ": Data replaced with user-provided in-memory data.")
                +:+ " ; "
                +:+ match global_attrs t !! "history" with
                    | Some h => py_str h
                    | None => ""
                    end)).
Proof.
  intros H1 H2.
  assert (Hh : ∀ now u t' ov c, cmorize_dataset now u t' ov = Ok c →
            global_attrs (w_ds c) !! "history"
            = Some (AStr (history_update now direct_what +:+ " ; "
                          +:+ prior_history t'))).
  { intros now u t' ov c Hc.
    destruct (cmorize_dataset_Ok _ _ _ _ _ Hc)
      as (main & tv & ds1 & _ & _ & _ & Hd & (_ & _ & Hg & _) & _).
    apply demote_height_Ok in Hd as (_ & Hg1 & _).
    rewrite Hg, Hg1. unfold rewrite_history. simpl. by rewrite lookup_insert_eq. }
  rewrite (Hh _ _ _ _ _ H2). unfold prior_history at 1.
  rewrite (Hh _ _ _ _ _ H1). reflexivity.
Qed.

Lemma history_chains_witness :
  ∃ c1 c2,
    cmorize_dataset "2026-11-04T00:00:00Z" Sample.user_data Sample.template
      Sample.overrides = Ok c1 ∧
    cmorize_dataset "2026-11-05T00:00:00Z" Sample.user_data (w_ds c1) ∅ = Ok c2 ∧
    global_attrs (w_ds c2) !! "history"
    = Some (AStr "2026-11-05T00:00:00Z: Data replaced with user-provided in-memory data. ; 2026-11-04T00:00:00Z: Data replaced with user-provided in-memory data. ; created").
Proof.
  eexists. eexists. split; [vm_compute; reflexivity|].
  split; [vm_compute; reflexivity|].
  etrans.
  - eapply (history_chains "2026-11-04T00:00:00Z" "2026-11-05T00:00:00Z"
              Sample.user_data Sample.user_data Sample.template
              Sample.overrides ∅).
    + vm_compute. reflexivity.
    + vm_compute. reflexivity.
  - vm_compute. reflexivity.
Defined.

(** ** The level-subset programs *)

(** A level-subset product has the input's global attributes (no history
    entry is added), variable names and coordinates; [time_bnds],
    [lat_bnds] and [lon_bnds] carry no [coordinates] attribute; and no other
    variable attribute differs from the input's, except [missing_value] on
    the main variable. *)
Theorem level_subset_metadata ds main lv c :
  level_subset ds main lv = Ok c →
  global_attrs (w_ds c) = global_attrs ds ∧
  names (w_ds c) = names ds ∧
  coords (w_ds c) = coords ds ∧
  (∀ b, b ∈ ["time_bnds"; "lat_bnds"; "lon_bnds"] →
     var_attr (w_ds c) b "coordinates" = None) ∧
  (∀ n k, (n, k) ≠ (main, "missing_value") →
     k ≠ "coordinates" ∨ n ∉ ["time_bnds"; "lat_bnds"; "lon_bnds"] →
     var_attr (w_ds c) n k = var_attr ds n k).
Proof.
  intros Hl. destruct (level_subset_Ok _ _ _ _ Hl) as (sub & Hsel & -> & _).
  destruct (sel_nearest_frame _ _ _ _ Hsel) as [Hg Hc].
  destruct (restore_missing_value_subset_frame ds main sub) as (Hn1 & Hc1 & Hg1 & Ha1).
  destruct (strip_step_frame ["time_bnds"; "lat_bnds"; "lon_bnds"]
              (restore_missing_value_subset ds main sub))
    as (Hn2 & Hc2 & Hg2 & Hb2 & Ho2).
  fold (strip_bounds_coordinates (restore_missing_value_subset ds main sub))
    in Hn2, Hc2, Hg2, Hb2, Ho2.
  split; [congruence|]. split.
  { rewrite Hn2, Hn1.
    by destruct (sel_nearest_keeps ds "plev" lv sub "" "" Hsel) as [-> _]. }
  split; [congruence|]. split; [exact Hb2|].
  intros n k Hnk Hor.
  assert (Hstrip : var_attr (strip_bounds_coordinates
                               (restore_missing_value_subset ds main sub)) n k
                   = var_attr (restore_missing_value_subset ds main sub) n k).
  { destruct (decide (k = "coordinates")) as [->|Hk].
    - destruct Hor as [?|Hn]; [done|]. by apply Ho2.
    - by apply strip_bounds_coordinates_keeps. }
  rewrite Hstrip, Ha1 by done.
  by destruct (sel_nearest_keeps ds "plev" lv sub n k Hsel) as [_ ->].
Qed.

Lemma level_subset_metadata_witness :
  let ds := Sample.levels_file [("time_bnds", Sample.time_bnds)]
              {["missing_value" := PFloat 1e20]} in
  var_attr ds "time_bnds" "coordinates" = Some (PStr "height") ∧
  ∃ c, level_subset ds "zg" [50000]%float = Ok c ∧
    global_attrs (w_ds c) = global_attrs ds ∧
    names (w_ds c) = names ds ∧
    coords (w_ds c) = coords ds ∧
    (∀ b, b ∈ ["time_bnds"; "lat_bnds"; "lon_bnds"] →
       var_attr (w_ds c) b "coordinates" = None) ∧
    (∀ n k, (n, k) ≠ ("zg", "missing_value") →
       k ≠ "coordinates" ∨ n ∉ ["time_bnds"; "lat_bnds"; "lon_bnds"] →
       var_attr (w_ds c) n k = var_attr ds n k).
Proof.
  cbv zeta. split; [reflexivity|]. eexists. split; [vm_compute; reflexivity|].
  apply (level_subset_metadata
           (Sample.levels_file [("time_bnds", Sample.time_bnds)]
              {["missing_value" := PFloat 1e20]}) "zg" [50000]%float).
  vm_compute. reflexivity.
Defined.

(** The ways the level-subset programs give up before selecting: a missing
    input file, no data variable along [plev] (multi-level program), no
    [plev] coordinate (single-level program).  Each prints its message and
    returns; nothing else in the world changes, so no file is written. *)
Theorem level_subset_gives_up :
  (∀ i o lv w, disk w !! i = None →
     process_netcdf_file i o lv w = (Ok tt, (print (InputFileNotFound i) w).2))
  ∧ (∀ i o p w, disk w !! i = None →
       extract_pressure_level i o p w = (Ok tt, (print (InputFileNotFound i) w).2))
  ∧ (∀ i o lv w ds, disk w !! i = Some ds →
       (∀ n v, (n, v) ∈ data_vars ds → "plev" ∉ dims v) →
       process_netcdf_file i o lv w = (Ok tt, (print NoPlevDataVariable w).2))
  ∧ (∀ i o p w ds, disk w !! i = Some ds → "plev" ∉ coords ds →
       extract_pressure_level i o p w
       = (Ok tt, (print (NoPressureCoordinate "plev") w).2)).
Proof.
  split; [|split; [|split]].
  - intros i o lv w Hd.
    unfold process_netcdf_file, try_except, process_netcdf_body, mbind, open_dataset.
    by rewrite Hd.
  - intros i o p w Hd.
    unfold extract_pressure_level, try_except, extract_pressure_body, mbind,
      open_dataset.
    by rewrite Hd.
  - intros i o lv w ds Hd Hno.
    unfold process_netcdf_file, try_except, process_netcdf_body, mbind, open_dataset.
    rewrite Hd.
    assert (Hdet : detect_main_var ds = None).
    { unfold detect_main_var.
      destruct (filter _ (data_vars ds)) as [|[n v] rest] eqn:Hf; [done|].
      assert (Hin : (n, v) ∈ filter (λ kv, "plev" ∈ dims kv.2) (data_vars ds))
        by (rewrite Hf; left).
      apply list_elem_of_filter in Hin as [Hp Hin]. by destruct (Hno n v Hin). }
    by rewrite Hdet.
  - intros i o p w ds Hd Hno.
    unfold extract_pressure_level, try_except, extract_pressure_body, mbind,
      open_dataset.
    rewrite Hd. by rewrite bool_decide_eq_true_2.
Qed.

Lemma level_subset_gives_up_witness :
  extract_pressure_level "in.nc" "out.nc" 50000%float
    (Sample.world_with "in.nc" Sample.template)
  = (Ok tt, (print (NoPressureCoordinate "plev")
               (Sample.world_with "in.nc" Sample.template)).2).
Proof.
  apply (proj2 (proj2 (proj2 level_subset_gives_up)) "in.nc" "out.nc" 50000%float
           (Sample.world_with "in.nc" Sample.template) Sample.template).
  - reflexivity.
  - vm_compute. set_solver.
Defined.

(** On a file with a [plev] coordinate whose first data variable along
    [plev] is [zg], the single-level program does exactly what the
    multi-level program does for the one-element level list. *)
Theorem single_level_is_multi_level i o p w ds :
  disk w !! i = Some ds → "plev" ∈ coords ds → detect_main_var ds = Some "zg" →
  extract_pressure_level i o p w = process_netcdf_file i o [p] w.
Proof.
  intros Hd Hp Hm.
  unfold extract_pressure_level, process_netcdf_file, try_except,
    extract_pressure_body, process_netcdf_body, mbind, open_dataset.
  rewrite Hd, Hm. rewrite bool_decide_eq_false_2 by (by intros H; apply H).
  reflexivity.
Qed.

Lemma single_level_is_multi_level_witness :
  let w := Sample.world_with "in.nc"
             (Sample.levels_file [] {["missing_value" := PFloat 1e20]}) in
  extract_pressure_level "in.nc" "out.nc" 50000%float w
  = process_netcdf_file "in.nc" "out.nc" [50000]%float w.
Proof.
  apply (single_level_is_multi_level "in.nc" "out.nc" 50000%float _
           (Sample.levels_file [] {["missing_value" := PFloat 1e20]})).
  - reflexivity.
  - vm_compute. set_solver.
  - vm_compute. reflexivity.
Defined.

(** ** What the regrid pipeline builds *)

Lemma lookup_update_var_ne ds k f n :
  k ≠ n → lookup_var n (variables (update_var ds k f)) = lookup_var n (variables ds).
Proof. intros H%String.eqb_neq. by rewrite lookup_update_var, H. Qed.

Lemma lookup_update_var_eq ds k f :
  lookup_var k (variables (update_var ds k f)) = f <$> lookup_var k (variables ds).
Proof. by rewrite lookup_update_var, String.eqb_refl. Qed.

Lemma lookup_set_var_ne n k v l :
  k ≠ n → lookup_var n (set_var k v l) = lookup_var n l.
Proof. intros H%String.eqb_neq. by rewrite lookup_set_var, H. Qed.

Lemma lookup_set_var_eq k v l : lookup_var k (set_var k v l) = Some v.
Proof. by rewrite lookup_set_var, String.eqb_refl. Qed.

Lemma create_bounds_length v b : create_bounds v = Ok b → length b = length v.
Proof.
  intros H. destruct (decide (2 ≤ length v)%nat) as [Hn|Hn].
  - destruct (create_bounds_in_rows f64 v Hn) as (b' & Hb & Hl & _).
    unfold create_bounds in H. rewrite Hb in H. injection H as <-. exact Hl.
  - pose proof (create_bounds_in_short f64 v) as Hs. cbn [num f64] in Hs.
    unfold create_bounds in H. rewrite Hs in H by lia. done.
Qed.

Lemma add_bounds_spec coord b d d' :
  add_bounds coord b d = Ok d' →
  ∃ cv bs, lookup_var coord (variables d) = Some cv ∧
    create_bounds (values cv) = Ok bs ∧
    variables d' = set_var b (bounds_var coord bs) (variables d).
Proof.
  unfold add_bounds, getitem. intros H.
  destruct (lookup_var coord (variables d)) as [cv|] eqn:Hc; [|done]. simpl in H.
  destruct (coord_values cv) as [vals|] eqn:Hv; [|done]. simpl in H.
  assert (vals = values cv) as ->.
  { unfold coord_values in Hv. destruct (shape cv) as [|? [|]]; by try injection Hv. }
  destruct (create_bounds (values cv)) as [bs|] eqn:Hbs; [|done]. simpl in H.
  injection H as <-. by exists cv, bs.
Qed.

(** In every regrid product [lat_bnds] and [lon_bnds] are the bounds
    generator's output on the product's own [lat] and [lon] values, with
    dimensions [(lat, bnds)] and [(lon, bnds)] and shape [(N, 2)], whatever
    bounds the template or the regridded data carried; [lat] and [lon]
    name them in their [bounds] attribute. *)
Theorem regrid_bounds_rebuilt now t rg ov c :
  create_cmor_dataset now t rg ov = Ok c →
  bounds_rebuilt (w_ds c) "lat" "lat_bnds" ∧ bounds_rebuilt (w_ds c) "lon" "lon_bnds".
Proof.
  intros Hc.
  destruct (create_cmor_dataset_Ok _ _ _ _ _ Hc)
    as (main & ds_h & ds_b & ds1 & _ & _ & Hb & Hd & Hcl & _).
  apply demote_height_Ok in Hd as (Hvars & _).
  change (variables (rewrite_history _ _ _ _)) with (variables ds_b) in Hvars.
  unfold create_lat_lon_bounds in Hb.
  destruct (add_bounds "lat" "lat_bnds" ds_h) as [d1|] eqn:E1; [|done]. simpl in Hb.
  destruct (add_bounds "lon" "lon_bnds" d1) as [d2|] eqn:E2; [|done]. simpl in Hb.
  injection Hb as <-.
  destruct (add_bounds_spec _ _ _ _ E1) as (lat & blat & Hlat & Hblat & Hv1).
  destruct (add_bounds_spec _ _ _ _ E2) as (lon & blon & Hlon & Hblon & Hv2).
  assert (Hlon1 : lookup_var "lon" (variables ds1)
                  = Some (set_attr "bounds" (PStr "lon_bnds") lon)).
  { rewrite Hvars, lookup_update_var_eq, lookup_update_var_ne by done.
    rewrite Hv2, lookup_set_var_ne by done. by rewrite Hlon. }
  assert (Hlat1 : lookup_var "lat" (variables ds1)
                  = Some (set_attr "bounds" (PStr "lat_bnds") lat)).
  { rewrite Hvars, lookup_update_var_ne, lookup_update_var_eq by done.
    rewrite Hv2, lookup_set_var_ne by done.
    rewrite Hv1, lookup_set_var_ne by done. by rewrite Hlat. }
  assert (Hlonb : lookup_var "lon_bnds" (variables ds1) = Some (bounds_var "lon" blon)).
  { rewrite Hvars, !lookup_update_var_ne by done.
    by rewrite Hv2, lookup_set_var_eq. }
  assert (Hlatb : lookup_var "lat_bnds" (variables ds1) = Some (bounds_var "lat" blat)).
  { rewrite Hvars, !lookup_update_var_ne by done.
    rewrite Hv2, lookup_set_var_ne by done.
    by rewrite Hv1, lookup_set_var_eq. }
  destruct (cleaned_lookup _ _ _ _ _ Hcl Hlat1) as (lat' & Hlat' & _ & _ & Hlv & _ & Hla & _).
  destruct (cleaned_lookup _ _ _ _ _ Hcl Hlon1) as (lon' & Hlon' & _ & _ & Hnv & _ & Hna & _).
  destruct (cleaned_lookup _ _ _ _ _ Hcl Hlatb) as (latb & Hlatb' & Hd1 & Hs1 & Hx1 & _).
  destruct (cleaned_lookup _ _ _ _ _ Hcl Hlonb) as (lonb & Hlonb' & Hd2 & Hs2 & Hx2 & _).
  split.
  - exists lat', latb, blat. rewrite Hlv, Hd1, Hs1, Hx1, Hla by done. simpl.
    rewrite (create_bounds_length _ _ Hblat), lookup_insert_eq. done.
  - exists lon', lonb, blon. rewrite Hnv, Hd2, Hs2, Hx2, Hna by done. simpl.
    rewrite (create_bounds_length _ _ Hblon), lookup_insert_eq. done.
Qed.

Lemma regrid_bounds_rebuilt_witness :
  ∃ c, create_cmor_dataset "2026-11-04T00:00:00Z" Sample.template Sample.regridded
         Sample.overrides = Ok c ∧
    bounds_rebuilt (w_ds c) "lat" "lat_bnds" ∧ bounds_rebuilt (w_ds c) "lon" "lon_bnds".
Proof.
  eexists. split; [vm_compute; reflexivity|].
  apply (regrid_bounds_rebuilt "2026-11-04T00:00:00Z" Sample.template Sample.regridded
           Sample.overrides).
  vm_compute. reflexivity.
Defined.

(** With a [height] variable in the template, the regrid product's main
    variable names it in its [coordinates] attribute, and [height] itself
    is the first template value as a zero-dimensional variable with the
    template's attributes. *)
Theorem regrid_height_scalar now t rg ov c main h :
  create_cmor_dataset now t rg ov = Ok c →
  resolve_main_var t rg = Ok main →
  lookup_var "height" (variables t) = Some h →
  main ∉ ["lat_bnds"; "lon_bnds"] →
  var_attr (w_ds c) main "coordinates" = Some (PStr "height") ∧
  ∃ x hv, head (values h) = Some x ∧
    lookup_var "height" (variables (w_ds c)) = Some hv ∧
    dims hv = [] ∧ shape hv = [] ∧ values hv = [x] ∧
    ∀ k, k ≠ "coordinates" → attrs hv !! k = attrs h !! k.
Proof.
  intros Hc Hmain Hh Hsp.
  destruct (create_cmor_dataset_Ok _ _ _ _ _ Hc)
    as (main' & ds_h & ds_b & ds1 & Hmain' & Hph & Hb & Hd & Hcl & _).
  rewrite Hmain in Hmain'. injection Hmain' as <-.
  assert (Hne2 : main ≠ "lat_bnds") by (intros ->; apply Hsp; set_solver).
  assert (Hne3 : main ≠ "lon_bnds") by (intros ->; apply Hsp; set_solver).
  apply demote_height_Ok in Hd as (Hvars & _).
  change (variables (rewrite_history _ _ _ _)) with (variables ds_b) in Hvars.
  unfold process_height in Hph. rewrite Hh in Hph.
  unfold isel_first in Hph. destruct (values h) as [|x rest] eqn:Hvals; [done|].
  simpl in Hph.
  set (sc := set_attrs (attrs h) _) in Hph.
  set (d0 := setitem _ "height" sc _) in Hph.
  destruct (getitem d0 main) as [mv|] eqn:Hmv; [|done]. simpl in Hph.
  injection Hph as <-.
  assert (Hin : main ∈ names (update_var d0 main (set_attr "coordinates" (PStr "height")))).
  { rewrite names_update_var. unfold getitem in Hmv.
    destruct (lookup_var main (variables d0)) eqn:E; [|done].
    by eapply lookup_var_names. }
  split.
  - rewrite (cleaned_main_attr main ds1 (w_ds c) "coordinates" Hcl).
    unfold var_attr at 1. rewrite Hvars. fold (var_attr ds_b main "coordinates").
    destruct (create_lat_lon_bounds_keeps _ _ main "coordinates" Hb Hne2 Hne3
                ltac:(done) Hin) as [_ ->].
    unfold var_attr. rewrite lookup_update_var_eq.
    unfold getitem in Hmv. destruct (lookup_var main (variables d0)); [|done].
    simpl. apply lookup_insert_eq.
  - assert (Hh0 : lookup_var "height" (variables d0) = Some sc).
    { subst d0. unfold setitem. cbn [variables].
      generalize (filter (λ kv : string * Var, dims kv.2 = [])
                    (dataarray_coords t h)).
      intros cs.
      assert (H0 : lookup_var "height"
                     (set_var "height" sc
                        (variables (copy_template_vars t
                           (restore_missing_value t main
                              (copy_variable_attrs t
                                 (set_global_attrs (global_attrs t) rg))))))
                   = Some sc) by apply lookup_set_var_eq.
      revert H0. generalize (set_var "height" sc
                        (variables (copy_template_vars t
                           (restore_missing_value t main
                              (copy_variable_attrs t
                                 (set_global_attrs (global_attrs t) rg)))))).
      induction cs as [|kv cs IH]; intros acc Hacc; simpl; [done|].
      apply IH. case_bool_decide; [done|]. by apply lookup_var_app_l. }
    assert (Hh1 : ∃ hv1, lookup_var "height" (variables ds1) = Some hv1 ∧
                  dims hv1 = [] ∧ shape hv1 = [] ∧ values hv1 = [x] ∧
                  ∀ k, k ≠ "coordinates" → attrs hv1 !! k = attrs h !! k).
    { unfold create_lat_lon_bounds in Hb.
      destruct (add_bounds "lat" "lat_bnds" _) as [d1|] eqn:E1; [|done]. simpl in Hb.
      destruct (add_bounds "lon" "lon_bnds" d1) as [d2|] eqn:E2; [|done]. simpl in Hb.
      injection Hb as <-.
      destruct (add_bounds_spec _ _ _ _ E1) as (? & ? & _ & _ & Hv1).
      destruct (add_bounds_spec _ _ _ _ E2) as (? & ? & _ & _ & Hv2).
      rewrite Hvars, !lookup_update_var_ne by done.
      rewrite Hv2, lookup_set_var_ne by done.
      rewrite Hv1, lookup_set_var_ne by done.
      rewrite lookup_update_var, Hh0.
      destruct (String.eqb main "height"); simpl.
      - eexists. split; [done|]. simpl. repeat split.
        intros k Hk. by rewrite lookup_insert_ne.
      - eexists. split; [done|]. by simpl. }
    destruct Hh1 as (hv1 & Hl1 & Hdm & Hsh & Hvl & Hat).
    destruct (cleaned_lookup _ _ _ _ _ Hcl Hl1) as (hv & Hhv & Hd' & Hs' & Hv' & _ & Ha' & _).
    exists x, hv. split; [done|]. split; [done|].
    rewrite Hd', Hs', Hv'. repeat split; try done.
    intros k Hk. rewrite Ha' by done. by apply Hat.
Qed.

Lemma regrid_height_scalar_witness :
  ∃ c, create_cmor_dataset "2026-11-04T00:00:00Z" Sample.template Sample.regridded
         Sample.overrides = Ok c ∧
    var_attr (w_ds c) "tas" "coordinates" = Some (PStr "height") ∧
    ∃ x hv, head (values Sample.height) = Some x ∧
      lookup_var "height" (variables (w_ds c)) = Some hv ∧
      dims hv = [] ∧ shape hv = [] ∧ values hv = [x] ∧
      ∀ k, k ≠ "coordinates" → attrs hv !! k = attrs Sample.height !! k.
Proof.
  eexists. split; [vm_compute; reflexivity|].
  apply (regrid_height_scalar "2026-11-04T00:00:00Z" Sample.template Sample.regridded
           Sample.overrides).
  - vm_compute. reflexivity.
  - vm_compute. reflexivity.
  - reflexivity.
  - set_solver.
Defined.

Lemma process_height_keeps_var t main d d' n key :
  process_height t main d = Ok d' → n ≠ "height" → key ≠ "coordinates" →
  n ∈ names d →
  n ∈ names d' ∧ var_attr d' n key = var_attr d n key.
Proof.
  unfold process_height. intros H Hm Hk Hn.
  destruct (lookup_var "height" (variables t)) as [oh|]; [|by injection H as <-].
  destruct (isel_first oh) as [sh|]; [|done]. simpl in H.
  destruct (getitem _ main); [|done]. simpl in H. injection H as <-.
  split.
  - rewrite names_update_var. by apply names_setitem.
  - rewrite var_attr_update_other by done.
    apply var_attr_setitem_ne; [by intros <- | done].
Qed.

(** A variable of the regridded data that the template has too leaves the
    regrid pipeline with the template's attributes, not its own; what the
    later steps write ([missing_value], [coordinates], [bounds]) aside. *)
Theorem regrid_takes_template_attrs now t rg ov c n tv k :
  create_cmor_dataset now t rg ov = Ok c →
  n ∈ names rg → lookup_var n (variables t) = Some tv →
  n ∉ ["height"; "lat_bnds"; "lon_bnds"] →
  k ∉ ["missing_value"; "coordinates"; "bounds"] →
  var_attr (w_ds c) n k = attrs tv !! k.
Proof.
  intros Hc Hn Htv Hsp Hk.
  destruct (create_cmor_dataset_Ok _ _ _ _ _ Hc)
    as (main & ds_h & ds_b & ds1 & _ & Hh & Hb & Hd & Hcl & _).
  assert (Hne1 : n ≠ "height") by (intros ->; apply Hsp; set_solver).
  assert (Hne2 : n ≠ "lat_bnds") by (intros ->; apply Hsp; set_solver).
  assert (Hne3 : n ≠ "lon_bnds") by (intros ->; apply Hsp; set_solver).
  assert (Hk1 : k ≠ "missing_value") by (intros ->; apply Hk; set_solver).
  assert (Hk2 : k ≠ "coordinates") by (intros ->; apply Hk; set_solver).
  assert (Hk3 : k ≠ "bounds") by (intros ->; apply Hk; set_solver).
  set (d0 := set_global_attrs (global_attrs t) rg) in *.
  destruct (copy_variable_attrs_spec t d0) as (Hn1 & _ & _ & Hl1).
  assert (Hin0 : n ∈ names d0) by exact Hn.
  destruct (proj2 (lookup_var_is_Some n (variables d0)) Hin0) as [v0 Hv0].
  specialize (Hl1 n v0 tv Hv0 Htv).
  set (d1 := copy_variable_attrs t d0) in *.
  assert (Hr : var_attr (restore_missing_value t main d1) n k = attrs tv !! k
               ∧ n ∈ names (restore_missing_value t main d1)).
  { assert (H1 : var_attr d1 n k = attrs tv !! k)
      by (unfold var_attr; by rewrite Hl1).
    unfold restore_missing_value.
    destruct (_ && _); [|by rewrite Hn1].
    destruct (is_none _); [by rewrite Hn1|].
    rewrite names_update_var, Hn1. split; [|done].
    rewrite var_attr_update_other by (by intros <-). done. }
  destruct Hr as [Hr Hin2].
  destruct (copy_template_vars_keeps t _ n k Hin2) as [Hin3 Ha3].
  destruct (process_height_keeps_var _ _ _ _ n k Hh Hne1 Hk2 Hin3) as [Hin4 Ha4].
  destruct (create_lat_lon_bounds_keeps _ _ n k Hb Hne2 Hne3 Hk3 Hin4) as [Hin5 Ha5].
  apply demote_height_Ok in Hd as (Hvars & _).
  rewrite (cleaned_var_attr main ds1 (w_ds c) n k Hcl) by done.
  unfold var_attr at 1. rewrite Hvars.
  change (variables (rewrite_history _ _ _ _)) with (variables ds_b).
  fold (var_attr ds_b n k).
  rewrite Ha5, Ha4, Ha3. exact Hr.
Qed.

Lemma regrid_takes_template_attrs_witness :
  ∃ c, create_cmor_dataset "2026-11-04T00:00:00Z" Sample.template Sample.regridded
         Sample.overrides = Ok c ∧
    var_attr Sample.regridded "lon" "units" = None ∧
    var_attr (w_ds c) "lon" "units" = Some (PStr "degrees_east").
Proof.
  eexists. split; [vm_compute; reflexivity|]. split; [reflexivity|].
  apply (regrid_takes_template_attrs "2026-11-04T00:00:00Z" Sample.template
           Sample.regridded Sample.overrides _ "lon" Sample.lon "units").
  - vm_compute. reflexivity.
  - vm_compute. set_solver.
  - reflexivity.
  - set_solver.
  - set_solver.
Defined.
